(** * Umbra: URL classification, event logs and privacy gating

    A shallow embedding of the classification and persistence code of the
    Umbra browser shell:

    - [SecurityManager] of the [js/] tree ([checkUrl] and its stages,
      [handleBeforeNavigation], [whitelistDomain], [addSecurityRule]);
    - [AdBlocker] ([shouldBlockUrl], [hideElement], [addCustomFilter],
      whitelist handling, [disable]);
    - [UmbraBrowser] of [js/core/umbra.js] ([emit], [navigate], [loadUrl],
      [saveSettings], [handlePrivacyModeToggle]);
    - the [scripts/] tree: [SecurityManager.logSecurityEvent], [blockAd],
      [toggleAdBlocker], [PrivacyManager.logBlockedRequest] and the
      settings writers gated on private mode.
    - further controls of the [js/] managers: [blockDomain],
      [removeSecurityRule], the threat statistics, file scanning,
      [removeCustomFilter], [removeFromWhitelist], [loadCustomFilters],
      [isAdElement] and the [blockAd] counters;
    - further functions of the [scripts/] tree: the settings readers,
      [isUnsafeUrl], [filterIframe], [clearTrackingStorage],
      [getBlockedRequestsStats], and the navigation history of its
      browser object ([navigate], [goBack], [goForward], [refresh],
      [goHome]).

    JavaScript strings are modelled as [string] (sequences of code units,
    with ASCII case mapping); [Map]/[Set] objects as [gmap]/[gset];
    [localStorage] as a finite map from keys to stored values; exceptions
    as an explicit outcome; regular expressions by a backtracking matcher
    that follows the ECMAScript matcher (including [lastIndex]). *)

From Stdlib Require Import Ascii String List Arith Bool Lia DecimalString.
From stdpp Require Import base option list gmap strings.

Local Open Scope string_scope.
Local Open Scope list_scope.

(** ** JavaScript string primitives *)

Module JS.

Definition is_upper (c : ascii) : bool :=
  let n := nat_of_ascii c in (65 <=? n)%nat && (n <=? 90)%nat.

Definition is_lower (c : ascii) : bool :=
  let n := nat_of_ascii c in (97 <=? n)%nat && (n <=? 122)%nat.

Definition lower_char (c : ascii) : ascii :=
  if is_upper c then ascii_of_nat (nat_of_ascii c + 32) else c.

Definition upper_char (c : ascii) : ascii :=
  if is_lower c then ascii_of_nat (nat_of_ascii c - 32) else c.

(** [s.toLowerCase()] *)
Fixpoint toLowerCase (s : string) : string :=
  match s with
  | EmptyString => EmptyString
  | String c s' => String (lower_char c) (toLowerCase s')
  end.

(** [s.startsWith(p)] *)
Fixpoint startsWith (s p : string) : bool :=
  match p, s with
  | EmptyString, _ => true
  | String _ _, EmptyString => false
  | String a p', String b s' => Ascii.eqb a b && startsWith s' p'
  end.

(** [s.includes(p)] *)
Fixpoint includes (s p : string) : bool :=
  startsWith s p ||
  match s with
  | EmptyString => false
  | String _ s' => includes s' p
  end.

(** [s.endsWith(p)] *)
Fixpoint endsWith (s p : string) : bool :=
  String.eqb s p ||
  match s with
  | EmptyString => false
  | String _ s' => endsWith s' p
  end.

(** [s.replace(/c/g, d)] for a one-character pattern [c]: every
    occurrence is replaced. *)
Fixpoint replaceAllChar (c d : ascii) (s : string) : string :=
  match s with
  | EmptyString => EmptyString
  | String a s' =>
      String (if Ascii.eqb a c then d else a) (replaceAllChar c d s')
  end.

Fixpoint drop (n : nat) (s : string) : string :=
  match n, s with
  | O, _ => s
  | S _, EmptyString => EmptyString
  | S n', String _ s' => drop n' s'
  end.

(** [s.replace(p, r)] for a string pattern [p]: only the first
    occurrence is replaced. *)
Fixpoint replace (s p r : string) : string :=
  if startsWith s p then String.append r (drop (String.length p) s)
  else match s with
       | EmptyString => EmptyString
       | String a s' => String a (replace s' p r)
       end.

(** [s.split(c).length] for a one-character separator. *)
Fixpoint split_length (c : ascii) (s : string) : nat :=
  match s with
  | EmptyString => 1
  | String a s' =>
      if Ascii.eqb a c then S (split_length c s') else split_length c s'
  end.

(** [l.includes(x)] on an array of strings. *)
Definition array_includes (l : list string) (x : string) : bool :=
  existsb (String.eqb x) l.

(** Occurrence of a code unit in a string. *)
Fixpoint has_char (c : ascii) (s : string) : bool :=
  match s with
  | EmptyString => false
  | String a s' => Ascii.eqb a c || has_char c s'
  end.

End JS.

(** ** Regular expressions *)

Module Regex.

(** Abstract syntax of the patterns the code uses: literals, [.],
    character classes, groups, alternation, greedy and lazy quantifiers
    and the [^] / [$] assertions. *)
Inductive re : Type :=
| Empty
| Char (c : ascii)
| Dot
| Class (negated : bool) (ranges : list (ascii * ascii))
| Seq (r1 r2 : re)
| Or (r1 r2 : re)
| Repeat (min : nat) (max : option nat) (greedy : bool) (r : re)
| AssertStart
| AssertEnd.

Definition char_eq (ignoreCase : bool) (a b : ascii) : bool :=
  if ignoreCase then Ascii.eqb (JS.upper_char a) (JS.upper_char b)
  else Ascii.eqb a b.

Definition in_range (c : ascii) (r : ascii * ascii) : bool :=
  (nat_of_ascii (fst r) <=? nat_of_ascii c)%nat
  && (nat_of_ascii c <=? nat_of_ascii (snd r))%nat.

Definition in_ranges (ignoreCase : bool) (c : ascii)
    (rs : list (ascii * ascii)) : bool :=
  existsb (in_range c) rs
  || (ignoreCase
      && (existsb (in_range (JS.lower_char c)) rs
          || existsb (in_range (JS.upper_char c)) rs)).

Definition is_line_terminator (c : ascii) : bool :=
  Ascii.eqb c "010"%char || Ascii.eqb c "013"%char.

Definition pred_max (mx : option nat) : option nat :=
  match mx with Some n => Some (Nat.pred n) | None => None end.

Definition is_zero_max (mx : option nat) : bool :=
  match mx with Some O => true | _ => false end.

(** The backtracking matcher, in continuation-passing style as in the
    language definition: [m ic r s i k] tries to match [r] against the
    remaining input [s], which starts at index [i], and hands the rest
    to [k]; the result is the end index of the first match in
    backtracking order. *)
Fixpoint m (ic : bool) (r : re) (s : list ascii) (i : nat)
    (k : list ascii -> nat -> option nat) {struct r} : option nat :=
  match r with
  | Empty => k s i
  | Char c =>
      match s with
      | a :: s' => if char_eq ic a c then k s' (S i) else None
      | [] => None
      end
  | Dot =>
      match s with
      | a :: s' => if is_line_terminator a then None else k s' (S i)
      | [] => None
      end
  | Class neg rs =>
      match s with
      | a :: s' =>
          if xorb neg (in_ranges ic a rs) then k s' (S i) else None
      | [] => None
      end
  | Seq r1 r2 => m ic r1 s i (fun s' i' => m ic r2 s' i' k)
  | Or r1 r2 =>
      match m ic r1 s i k with
      | Some e => Some e
      | None => m ic r2 s i k
      end
  | Repeat mn mx greedy r' =>
      (fix rep (fuel mn : nat) (mx : option nat) (s : list ascii) (i : nat)
           {struct fuel} : option nat :=
         match fuel with
         | O => None
         | S fuel' =>
             if is_zero_max mx then k s i
             else
               let d := fun s' i' =>
                 if (mn =? 0)%nat && (i' =? i)%nat then None
                 else rep fuel' (Nat.pred mn) (pred_max mx) s' i' in
               if negb (mn =? 0)%nat then m ic r' s i d
               else if greedy then
                 match m ic r' s i d with
                 | Some e => Some e
                 | None => k s i
                 end
               else
                 match k s i with
                 | Some e => Some e
                 | None => m ic r' s i d
                 end
         end) (mn + length s + 1)%nat mn mx s i
  | AssertStart => if (i =? 0)%nat then k s i else None
  | AssertEnd => match s with [] => k s i | _ => None end
  end.

(** Leftmost match starting the search at index [i] of the input whose
    remaining part is [s]: the end index of the match, if any. *)
Fixpoint search (ic : bool) (r : re) (s : list ascii) (i : nat)
    : option nat :=
  match m ic r s i (fun _ e => Some e) with
  | Some e => Some e
  | None =>
      match s with
      | [] => None
      | _ :: s' => search ic r s' (S i)
      end
  end.

(** *** Pattern syntax

    The reader of pattern source text, as the [RegExp] constructor and
    regular-expression literals do it, for the grammar above.  [None] is
    a syntax error. *)

Definition is_digit (c : ascii) : bool :=
  let n := nat_of_ascii c in (48 <=? n)%nat && (n <=? 57)%nat.

Fixpoint read_nat (acc : nat) (s : list ascii) : nat * list ascii :=
  match s with
  | c :: s' =>
      if is_digit c then read_nat (10 * acc + (nat_of_ascii c - 48)) s'
      else (acc, s)
  | [] => (acc, s)
  end.

(** A braced quantifier [{n}], [{n,}] or [{n,m}] at the head of [s]. *)
Definition read_braces (s : list ascii)
    : option (nat * option nat * list ascii) :=
  match s with
  | "{"%char :: (c :: _) as s1 =>
      if is_digit c then
        let '(lo, s2) := read_nat 0 s1 in
        match s2 with
        | "}"%char :: s3 => Some (lo, Some lo, s3)
        | ","%char :: "}"%char :: s3 => Some (lo, None, s3)
        | ","%char :: (c' :: _) as s3 =>
            if is_digit c' then
              let '(hi, s4) := read_nat 0 s3 in
              match s4 with
              | "}"%char :: s5 => Some (lo, Some hi, s5)
              | _ => None
              end
            else None
        | _ => None
        end
      else None
  | _ => None
  end.

Definition digit_ranges : list (ascii * ascii) :=
  [("0"%char, "9"%char)].
Definition word_ranges : list (ascii * ascii) :=
  [("a"%char, "z"%char); ("A"%char, "Z"%char); ("0"%char, "9"%char);
   ("_"%char, "_"%char)].
Definition space_ranges : list (ascii * ascii) :=
  [("009"%char, "013"%char); (" "%char, " "%char)].

(** The character denoted by a control or identity escape; escapes that
    denote more than a character (back references, word boundaries,
    hexadecimal and Unicode escapes) are outside the grammar. *)
Definition escape_char (c : ascii) : option ascii :=
  if Ascii.eqb c "t" then Some "009"%char
  else if Ascii.eqb c "n" then Some "010"%char
  else if Ascii.eqb c "v" then Some "011"%char
  else if Ascii.eqb c "f" then Some "012"%char
  else if Ascii.eqb c "r" then Some "013"%char
  else if Ascii.eqb c "0" then Some "000"%char
  else if is_digit c then None
  else if existsb (Ascii.eqb c)
            ["b"; "B"; "c"; "k"; "x"; "u"; "p"; "P"]%char then None
  else Some c.

Definition escape_atom (c : ascii) : option re :=
  if Ascii.eqb c "d" then Some (Class false digit_ranges)
  else if Ascii.eqb c "D" then Some (Class true digit_ranges)
  else if Ascii.eqb c "w" then Some (Class false word_ranges)
  else if Ascii.eqb c "W" then Some (Class true word_ranges)
  else if Ascii.eqb c "s" then Some (Class false space_ranges)
  else if Ascii.eqb c "S" then Some (Class true space_ranges)
  else option_map Char (escape_char c).

Definition escape_class (c : ascii) : option (list (ascii * ascii)) :=
  if Ascii.eqb c "d" then Some digit_ranges
  else if Ascii.eqb c "w" then Some word_ranges
  else if Ascii.eqb c "s" then Some space_ranges
  else if existsb (Ascii.eqb c) ["D"; "W"; "S"]%char then None
  else if Ascii.eqb c "-" then Some [("-"%char, "-"%char)]
  else option_map (fun a => [(a, a)]) (escape_char c).

(** One class atom: a set of characters, and whether it is a single
    character that may open a range. *)
Definition read_class_atom (s : list ascii)
    : option (list (ascii * ascii) * option ascii * list ascii) :=
  match s with
  | "\"%char :: c :: s' =>
      match escape_class c with
      | Some [(a, b)] =>
          if Ascii.eqb a b then Some ([(a, b)], Some a, s')
          else Some ([(a, b)], None, s')
      | Some rs => Some (rs, None, s')
      | None => None
      end
  | "\"%char :: [] => None
  | c :: s' => Some ([(c, c)], Some c, s')
  | [] => None
  end.

(** The items of a class up to its closing bracket. *)
Fixpoint read_class (fuel : nat) (s : list ascii)
    : option (list (ascii * ascii) * list ascii) :=
  match fuel with
  | O => None
  | S fuel' =>
      match s with
      | [] => None
      | "]"%char :: s' => Some ([], s')
      | _ =>
          match read_class_atom s with
          | None => None
          | Some (rs, single, s1) =>
              match single, s1 with
              | Some lo, "-"%char :: (c :: _) as s2 =>
                  if Ascii.eqb c "]" then
                    match read_class fuel' s1 with
                    | Some (rest, s') => Some (rs ++ rest, s')
                    | None => None
                    end
                  else
                    match read_class_atom s2 with
                    | Some (_, Some hi, s3) =>
                        if (nat_of_ascii lo <=? nat_of_ascii hi)%nat then
                          match read_class fuel' s3 with
                          | Some (rest, s') => Some ((lo, hi) :: rest, s')
                          | None => None
                          end
                        else None
                    | _ => None
                    end
              | _, _ =>
                  match read_class fuel' s1 with
                  | Some (rest, s') => Some (rs ++ rest, s')
                  | None => None
                  end
              end
          end
      end
  end.

(** An optional quantifier after an atom. *)
Definition read_quantifier (a : re) (s : list ascii)
    : option (re * list ascii) :=
  let lazy (mn : nat) (mx : option nat) (s' : list ascii) :=
    match s' with
    | "?"%char :: s'' => Some (Repeat mn mx false a, s'')
    | _ => Some (Repeat mn mx true a, s')
    end in
  match s with
  | "*"%char :: s' => lazy 0%nat None s'
  | "+"%char :: s' => lazy 1%nat None s'
  | "?"%char :: s' => lazy 0%nat (Some 1%nat) s'
  | "{"%char :: _ =>
      match read_braces s with
      | Some (lo, hi, s') =>
          match hi with
          | Some h => if (h <? lo)%nat then None else lazy lo hi s'
          | None => lazy lo hi s'
          end
      | None => Some (a, s)
      end
  | _ => Some (a, s)
  end.

Fixpoint read_disjunction (fuel : nat) (s : list ascii)
    : option (re * list ascii) :=
  match fuel with
  | O => None
  | S fuel' =>
      match read_alternative fuel' s with
      | Some (r1, "|"%char :: s') =>
          match read_disjunction fuel' s' with
          | Some (r2, s'') => Some (Or r1 r2, s'')
          | None => None
          end
      | other => other
      end
  end
with read_alternative (fuel : nat) (s : list ascii)
    : option (re * list ascii) :=
  match fuel with
  | O => None
  | S fuel' =>
      match s with
      | [] => Some (Empty, s)
      | "|"%char :: _ => Some (Empty, s)
      | ")"%char :: _ => Some (Empty, s)
      | _ =>
          match read_term fuel' s with
          | Some (t, s') =>
              match read_alternative fuel' s' with
              | Some (Empty, s'') => Some (t, s'')
              | Some (r, s'') => Some (Seq t r, s'')
              | None => None
              end
          | None => None
          end
      end
  end
with read_term (fuel : nat) (s : list ascii)
    : option (re * list ascii) :=
  match fuel with
  | O => None
  | S fuel' =>
      match s with
      | [] => None
      | "^"%char :: s' => Some (AssertStart, s')
      | "$"%char :: s' => Some (AssertEnd, s')
      | "*"%char :: _ => None
      | "+"%char :: _ => None
      | "?"%char :: _ => None
      | "."%char :: s' => read_quantifier Dot s'
      | "\"%char :: c :: s' =>
          match escape_atom c with
          | Some a => read_quantifier a s'
          | None => None
          end
      | "\"%char :: [] => None
      | "["%char :: "^"%char :: s' =>
          match read_class (S (length s')) s' with
          | Some (rs, s'') => read_quantifier (Class true rs) s''
          | None => None
          end
      | "["%char :: s' =>
          match read_class (S (length s')) s' with
          | Some (rs, s'') => read_quantifier (Class false rs) s''
          | None => None
          end
      | "("%char :: "?"%char :: ":"%char :: s' =>
          match read_disjunction fuel' s' with
          | Some (r, ")"%char :: s'') => read_quantifier r s''
          | _ => None
          end
      | "("%char :: "?"%char :: _ => None
      | "("%char :: s' =>
          match read_disjunction fuel' s' with
          | Some (r, ")"%char :: s'') => read_quantifier r s''
          | _ => None
          end
      | "{"%char :: _ =>
          match read_braces s with
          | Some _ => None
          | None => read_quantifier (Char "{") (tl s)
          end
      | c :: s' => read_quantifier (Char c) s'
      end
  end.

Definition parse (src : string) : option re :=
  let s := list_ascii_of_string src in
  match read_disjunction (4 * length s + 8) s with
  | Some (r, []) => Some r
  | _ => None
  end.

(** *** RegExp objects *)

Record Flags : Type := mkFlags {
  global : bool;
  ignoreCase : bool;
  sticky : bool
}.

Record RegExp : Type := mkRegExp {
  source : string;
  flags : Flags;
  pattern : re;
  lastIndex : nat
}.

Definition set_lastIndex (n : nat) (r : RegExp) : RegExp :=
  {| source := source r; flags := flags r; pattern := pattern r;
     lastIndex := n |}.

Definition stateful (r : RegExp) : bool :=
  global (flags r) || sticky (flags r).

(** Flag letters: [g], [i] and [y]; a repeated or any other letter is a
    syntax error in this model. *)
Fixpoint read_flags (f : Flags) (s : list ascii) : option Flags :=
  match s with
  | [] => Some f
  | c :: s' =>
      if Ascii.eqb c "g" then
        if global f then None
        else read_flags (mkFlags true (ignoreCase f) (sticky f)) s'
      else if Ascii.eqb c "i" then
        if ignoreCase f then None
        else read_flags (mkFlags (global f) true (sticky f)) s'
      else if Ascii.eqb c "y" then
        if sticky f then None
        else read_flags (mkFlags (global f) (ignoreCase f) true) s'
      else None
  end.

(** [new RegExp(src, fl)], with [lastIndex] 0. *)
Definition compile (src fl : string) : option RegExp :=
  match parse src, read_flags (mkFlags false false false)
                     (list_ascii_of_string fl) with
  | Some r, Some f => Some (mkRegExp src f r 0)
  | _, _ => None
  end.

Definition never : re := Class false [].

(** A regular-expression literal [/src/fl] of the source text. *)
Definition literal (src fl : string) : RegExp :=
  match compile src fl with
  | Some r => r
  | None => mkRegExp src (mkFlags false false false) never 0
  end.

(** [r.test(s)]: the answer and the object after the call.  Without the
    [g] and [y] flags the search starts at 0 and the object is left as it
    is; with one of them it starts at [lastIndex], which the call then
    sets to the end of the match, or to 0 when there is none. *)
Definition test (r : RegExp) (s : string) : bool * RegExp :=
  let input := list_ascii_of_string s in
  let ic := ignoreCase (flags r) in
  if stateful r then
    let i := lastIndex r in
    if (length input <? i)%nat then (false, set_lastIndex 0 r)
    else
      let found :=
        if sticky (flags r)
        then m ic (pattern r) (List.skipn i input) i (fun _ e => Some e)
        else search ic (pattern r) (List.skipn i input) i in
      match found with
      | Some e => (true, set_lastIndex e r)
      | None => (false, set_lastIndex 0 r)
      end
  else
    match search ic (pattern r) input 0 with
    | Some _ => (true, r)
    | None => (false, r)
    end.

End Regex.

(** ** Host functions

    What the browser provides and the repository only calls: the [URL]
    constructor (of which the code reads [href] and [hostname]),
    [decodeURIComponent], [encodeURIComponent] and the [RegExp]
    constructor.  [None] stands for
    the exception the host function throws; [encodeURIComponent] is
    called on address-bar text only and taken as total. *)

Record URL : Type := mkURL {
  href : string;
  hostname : string
}.

Class Host : Type := {
  URL_new : string -> option URL;
  decodeURIComponent : string -> option string;
  encodeURIComponent : string -> string;
  RegExp_new : string -> string -> option Regex.RegExp
}.

(** A result of a call that may throw. *)
Inductive Completion (A : Type) : Type :=
| Returned (v : A)
| Thrown (name : string).
Arguments Returned {A} v.
Arguments Thrown {A} name.

(** ** SecurityManager ([js/] tree): URL classification *)

Module SecurityManager.

(** Entries of [knownThreats], security rules and the verdicts built by
    the stages: objects with some of the properties [domain], [pattern],
    [type], [description]. *)
Record Threat : Type := mkThreat {
  domain : option string;
  pattern : option Regex.RegExp;
  type : string;
  description : string
}.

Definition domainThreat (d ty desc : string) : Threat :=
  mkThreat (Some d) None ty desc.
Definition patternThreat (p : Regex.RegExp) (ty desc : string) : Threat :=
  mkThreat None (Some p) ty desc.
Definition verdict (ty desc : string) : Threat :=
  mkThreat None None ty desc.

Definition set_pattern (p : Regex.RegExp) (t : Threat) : Threat :=
  {| domain := domain t; pattern := Some p; type := type t;
     description := description t |}.

Record LogEntry : Type := mkLogEntry {
  log_timestamp : nat;
  log_url : string;
  log_threat : Threat;
  log_blocked : bool
}.

Record t : Type := mk {
  isEnabled : bool;
  threatDatabase : gmap string Threat;
  blockedSites : gset string;
  securityRules : list Threat;
  scanResults : gmap string LogEntry
}.

Definition set_securityRules (rs : list Threat) (sm : t) : t :=
  {| isEnabled := isEnabled sm; threatDatabase := threatDatabase sm;
     blockedSites := blockedSites sm; securityRules := rs;
     scanResults := scanResults sm |}.

Definition set_threatDatabase (db : gmap string Threat) (sm : t) : t :=
  {| isEnabled := isEnabled sm; threatDatabase := db;
     blockedSites := blockedSites sm; securityRules := securityRules sm;
     scanResults := scanResults sm |}.

Definition set_blockedSites (b : gset string) (sm : t) : t :=
  {| isEnabled := isEnabled sm; threatDatabase := threatDatabase sm;
     blockedSites := b; securityRules := securityRules sm;
     scanResults := scanResults sm |}.

Definition set_scanResults (r : gmap string LogEntry) (sm : t) : t :=
  {| isEnabled := isEnabled sm; threatDatabase := threatDatabase sm;
     blockedSites := blockedSites sm; securityRules := securityRules sm;
     scanResults := r |}.

(** [knownThreats] of [loadSecurityDatabase]. *)
Definition knownThreats : list Threat := [
  domainThreat "secure-paypal-verification.com" "phishing"
    "PayPalフィッシングサイト";
  domainThreat "amazon-security-alert.net" "phishing"
    "Amazonフィッシングサイト";
  domainThreat "gmail-security-check.org" "phishing"
    "Gmailフィッシングサイト";
  domainThreat "free-software-download.exe" "malware"
    "マルウェア配布サイト";
  domainThreat "virus-scanner-pro.com" "malware"
    "偽ウイルス対策ソフト";
  patternThreat (Regex.literal "bit\.ly\/[a-zA-Z0-9]{6,}" "") "suspicious"
    "短縮URLによる不審なリンク";
  patternThreat
    (Regex.literal "[0-9]{1,3}\.[0-9]{1,3}\.[0-9]{1,3}\.[0-9]{1,3}" "")
    "suspicious" "IPアドレス直接アクセス";
  patternThreat (Regex.literal "bitcoin.*giveaway" "i") "scam"
    "仮想通貨詐欺サイト";
  patternThreat (Regex.literal "elon.*musk.*crypto" "i") "scam"
    "著名人なりすまし詐欺"
].

(** [loadSecurityDatabase]: entries with a domain go to the threat
    database, entries with a pattern are appended to the rules. *)
Definition loadSecurityDatabase (sm : t) : t :=
  fold_left
    (fun sm threat =>
       match domain threat with
       | Some d =>
           set_threatDatabase (<[d := threat]> (threatDatabase sm)) sm
       | None =>
           match pattern threat with
           | Some _ =>
               set_securityRules (securityRules sm ++ [threat]) sm
           | None => sm
           end
       end)
    knownThreats sm.

Definition malwareExtensionRule : Threat :=
  patternThreat (Regex.literal "\.(exe|scr|pif|bat|cmd|com|vbs|jar)$" "i")
    "malware" "実行可能ファイルのダウンロード".

(** [setupSecurityRules] *)
Definition setupSecurityRules (sm : t) : t :=
  set_securityRules
    (securityRules sm ++ [
       malwareExtensionRule;
       patternThreat (Regex.literal "[?&](download|exec|cmd|shell)=" "i")
         "malware" "危険なパラメータを含むURL";
       patternThreat (Regex.literal "redirect.*redirect" "i")
         "suspicious" "複数回リダイレクトの可能性"
     ]) sm.

(** The object after the constructor and [init] (the event listener is
    registered on the browser object, see [UmbraBrowser]). *)
Definition new : t :=
  setupSecurityRules (loadSecurityDatabase (mk true ∅ ∅ [] ∅)).

Definition invalidUrl : Threat := verdict "invalid" "無効なURL形式".

Definition legitimateDomains : list string := [
  "google.com"; "facebook.com"; "amazon.com"; "paypal.com";
  "microsoft.com"; "apple.com"; "github.com"; "youtube.com"
].

(** [spoofingPatterns] of one loop iteration. *)
Definition spoofingPatterns (hostname legit : string) : list string := [
  JS.replaceAllChar "o" "0" hostname;
  JS.replaceAllChar "i" "1" hostname;
  JS.replaceAllChar "l" "1" hostname;
  JS.replaceAllChar "e" "3" hostname;
  String.append (JS.replace legit "." "-") ".com";
  JS.replace legit ".com" ".net";
  JS.replace legit ".com" ".org"
].

Definition spoofingOf (legit : string) : Threat :=
  verdict "spoofing" (String.append legit "のドメインスプーフィング").

(** The loop of [checkDomainSpoofing] over the remaining domains. *)
Fixpoint checkDomainSpoofing_from (legits : list string) (hostname : string)
    : option Threat :=
  match legits with
  | [] => None
  | legit :: rest =>
      if JS.array_includes (spoofingPatterns hostname legit) hostname
         && negb (String.eqb hostname legit)
      then Some (spoofingOf legit)
      else checkDomainSpoofing_from rest hostname
  end.

Definition checkDomainSpoofing (hostname : string) : option Threat :=
  checkDomainSpoofing_from legitimateDomains hostname.

Definition suspiciousTlds : list string :=
  [".tk"; ".ml"; ".ga"; ".cf"; ".click"; ".download"; ".work"].

Definition checkSuspiciousTLD (hostname : string) : option Threat :=
  if existsb (JS.endsWith hostname) suspiciousTlds
  then Some (verdict "suspicious" "不審なトップレベルドメイン")
  else None.

(** [checkUrlStructure]; [decodeURIComponent] may throw. *)
Definition checkUrlStructure `{Host} (urlObj : URL)
    : Completion (option Threat) :=
  if (2000 <? String.length (href urlObj))%nat then
    Returned (Some (verdict "suspicious" "異常に長いURL"))
  else if (5 <? JS.split_length "." (hostname urlObj))%nat then
    Returned (Some (verdict "suspicious" "過度のサブドメイン"))
  else if JS.includes (href urlObj) "%"
          && fst (Regex.test (Regex.literal "%[0-9a-f]{2}" "gi")
                    (href urlObj))
  then
    match decodeURIComponent (href urlObj) with
    | None => Thrown "URIError"
    | Some decodedUrl =>
        if JS.includes decodedUrl "<script>"
           || JS.includes decodedUrl "javascript:"
        then Returned (Some (verdict "xss" "XSS攻撃の可能性"))
        else Returned None
    end
  else Returned None.

(** The rule loop of [checkUrl].  [test] may advance the [lastIndex] of
    a pattern, so the rules come back with the result; a rule without a
    pattern makes [rule.pattern.test] throw. *)
Inductive RuleScan : Type :=
| Matched (rule : Threat)
| NoMatch
| ScanThrew.

Fixpoint scanRules (rules : list Threat) (fullUrl : string)
    : RuleScan * list Threat :=
  match rules with
  | [] => (NoMatch, [])
  | rule :: rest =>
      match pattern rule with
      | None => (ScanThrew, rule :: rest)
      | Some p =>
          let '(hit, p') := Regex.test p fullUrl in
          let rule' := set_pattern p' rule in
          if hit then (Matched rule', rule' :: rest)
          else
            let '(o, rest') := scanRules rest fullUrl in
            (o, rule' :: rest')
      end
  end.

(** [checkUrl]: the verdict ([None] is [null]) and the manager after the
    call.  Every exception inside the [try] is turned into the
    invalid-URL verdict by the [catch]. *)
Definition checkUrl `{Host} (sm : t) (url : string) : option Threat * t :=
  match URL_new url with
  | None => (Some invalidUrl, sm)
  | Some urlObj =>
      let hostname := JS.toLowerCase (hostname urlObj) in
      let fullUrl := JS.toLowerCase url in
      match threatDatabase sm !! hostname with
      | Some threat => (Some threat, sm)
      | None =>
          let '(scan, rules') := scanRules (securityRules sm) fullUrl in
          let sm' := set_securityRules rules' sm in
          match scan with
          | Matched rule => (Some rule, sm')
          | ScanThrew => (Some invalidUrl, sm')
          | NoMatch =>
              match checkDomainSpoofing hostname with
              | Some spoofingThreat => (Some spoofingThreat, sm')
              | None =>
                  match checkSuspiciousTLD hostname with
                  | Some tldThreat => (Some tldThreat, sm')
                  | None =>
                      match checkUrlStructure urlObj with
                      | Thrown _ => (Some invalidUrl, sm')
                      | Returned structureThreat => (structureThreat, sm')
                      end
                  end
              end
          end
      end
  end.

(** [logThreat] *)
Definition logThreat (now : nat) (sm : t) (url : string)
    (threat : Threat) : t :=
  set_scanResults
    (<[url := mkLogEntry now url threat true]> (scanResults sm)) sm.

(** [addSecurityRule] *)
Definition addSecurityRule (sm : t) (rule : Threat) : t :=
  set_securityRules (securityRules sm ++ [rule]) sm.

End SecurityManager.

(** ** A reference host

    A concrete [Host] for evaluating the code on examples.  Its [URL]
    constructor covers plain absolute [http(s)://host/path] inputs whose
    serialisation is the input itself (lower-cased scheme and host, [/] for
    an empty path); it answers [None] for inputs without such a scheme, for
    hosts with characters outside letters, digits, [.], [-] and [_], and
    also for the inputs it does not cover (ports, credentials, numeric
    hosts other than dotted quads, dot segments, characters that would be
    percent-encoded). *)

Module RefHost.

Definition is_host_char (c : ascii) : bool :=
  JS.is_lower c || JS.is_upper c || Regex.is_digit c
  || existsb (Ascii.eqb c) ["."; "-"; "_"]%char.

Definition is_rest_char (c : ascii) : bool :=
  JS.is_lower c || JS.is_upper c || Regex.is_digit c
  || existsb (Ascii.eqb c)
       ["/"; "_"; "-"; "."; "~"; "%"; "?"; "="; "&"; "#"; ":"; "+"; ",";
        ";"; "@"; "!"; "$"; "("; ")"; "*"]%char.

Fixpoint all_chars (p : ascii -> bool) (s : string) : bool :=
  match s with
  | EmptyString => true
  | String c s' => p c && all_chars p s'
  end.

(** The host part: up to the first [/], [?] or [#]. *)
Fixpoint split_host (s : string) : string * string :=
  match s with
  | EmptyString => (EmptyString, EmptyString)
  | String c s' =>
      if existsb (Ascii.eqb c) ["/"; "?"; "#"]%char then (EmptyString, s)
      else let '(h, r) := split_host s' in (String c h, r)
  end.

(** The labels of a host name. *)
Fixpoint labels (cur : string) (s : string) : list string :=
  match s with
  | EmptyString => [cur]
  | String c s' =>
      if Ascii.eqb c "." then cur :: labels EmptyString s'
      else labels (String.append cur (String c EmptyString)) s'
  end.

Definition decimal_octet (l : string) : bool :=
  all_chars Regex.is_digit l
  && negb (String.eqb l "")
  && (String.eqb l "0" || negb (JS.startsWith l "0"))
  && (fst (Regex.read_nat 0 (list_ascii_of_string l)) <=? 255)%nat.

Definition host_ok (h : string) : bool :=
  let ls := labels EmptyString h in
  let lst := List.last ls EmptyString in
  all_chars is_host_char h
  && forallb (fun l => negb (String.eqb l "")) ls
  && negb (JS.includes h "xn--")
  && if all_chars Regex.is_digit lst || JS.startsWith lst "0x"
     then (length ls =? 4)%nat && forallb decimal_octet ls
     else true.

Definition rest_ok (r : string) : bool :=
  all_chars is_rest_char r
  && negb (JS.includes r "/.")
  && negb (JS.includes (JS.toLowerCase r) "%2e").

Definition parse_after (scheme rest : string) : option URL :=
  let '(h, r) := split_host rest in
  let h' := JS.toLowerCase h in
  if host_ok h' && rest_ok r then
    let path := if JS.startsWith r "/" then r else String.append "/" r in
    Some (mkURL (String.append scheme (String.append h' path)) h')
  else None.

Definition URL_new (url : string) : option URL :=
  let low := JS.toLowerCase url in
  if JS.startsWith low "https://" then parse_after "https://" (JS.drop 8 url)
  else if JS.startsWith low "http://" then
    parse_after "http://" (JS.drop 7 url)
  else None.

Definition hex_value (c : ascii) : option nat :=
  let n := nat_of_ascii c in
  if Regex.is_digit c then Some (n - 48)
  else if (97 <=? n)%nat && (n <=? 102)%nat then Some (n - 87)
  else if (65 <=? n)%nat && (n <=? 70)%nat then Some (n - 55)
  else None.

(** Percent escapes of code units below 128 are decoded; an incomplete
    escape, or an escape of a larger value, is answered with [None]. *)
Fixpoint decode (s : list ascii) : option (list ascii) :=
  match s with
  | [] => Some []
  | "%"%char :: rest =>
      match rest with
      | a :: b :: rest' =>
          match hex_value a, hex_value b with
          | Some x, Some y =>
              if (16 * x + y <? 128)%nat then
                option_map (cons (ascii_of_nat (16 * x + y))) (decode rest')
              else None
          | _, _ => None
          end
      | _ => None
      end
  | c :: rest => option_map (cons c) (decode rest)
  end.

Definition decodeURIComponent (s : string) : option string :=
  option_map string_of_list_ascii (decode (list_ascii_of_string s)).

Definition is_unreserved (c : ascii) : bool :=
  JS.is_lower c || JS.is_upper c || Regex.is_digit c
  || existsb (Ascii.eqb c) ["-"; "_"; "."; "!"; "~"; "*"; "'"; "("; ")"]%char.

Definition hex_digit (n : nat) : ascii :=
  if (n <? 10)%nat then ascii_of_nat (48 + n) else ascii_of_nat (55 + n).

Fixpoint encodeURIComponent (s : string) : string :=
  match s with
  | EmptyString => EmptyString
  | String c s' =>
      if is_unreserved c then String c (encodeURIComponent s')
      else
        let n := nat_of_ascii c in
        String "%" (String (hex_digit (n / 16)) (String (hex_digit (n mod 16))
          (encodeURIComponent s')))
  end.

Definition host : Host :=
  Build_Host URL_new decodeURIComponent encodeURIComponent Regex.compile.

End RefHost.

(** ** Persistent storage and documents *)

Module Storage.

(** JSON values: what [JSON.parse] yields and [JSON.stringify] prints. *)
#[local] Unset Elimination Schemes.
Inductive JSON : Type :=
| JNull
| JBool (b : bool)
| JNum (n : nat)
| JStr (s : string)
| JArr (items : list JSON)
| JObj (fields : list (string * JSON)).
#[local] Set Elimination Schemes.

(** A stored item: the JSON text of a value, or some other string. *)
Inductive Item : Type :=
| Json (j : JSON)
| Raw (s : string).

(** [localStorage]; [setItem] is taken to succeed (no quota). *)
Abbreviation t := (gmap string Item).

Definition setItem (key : string) (j : JSON) (ls : t) : t :=
  <[key := Json j]> ls.

(** [JSON.parse(localStorage.getItem(key) || '[]')], then used as an
    array: the elements, or the exception ([JSON.parse] on a string that
    is not JSON, or [push] on a value that is not an array). *)
Definition getArray (key : string) (ls : t) : Completion (list JSON) :=
  match ls !! key with
  | None => Returned []
  | Some (Json (JArr l)) => Returned l
  | Some (Json _) => Thrown "TypeError"
  | Some (Raw s) =>
      if String.eqb s "" then Returned [] else Thrown "SyntaxError"
  end.

End Storage.

Module Dom.

(** An element object: the properties the code reads and writes. *)
Record Element : Type := mkElement {
  tagName : string;
  style : gmap string string;
  attributes : gmap string string;
  src : string;
  elt_href : string;
  textContent : string
}.

Definition set_style (p v : string) (e : Element) : Element :=
  {| tagName := tagName e;
     style := if String.eqb v "" then delete p (style e)
              else <[p := v]> (style e);
     attributes := attributes e; src := src e; elt_href := elt_href e;
     textContent := textContent e |}.

Definition setAttribute (a v : string) (e : Element) : Element :=
  {| tagName := tagName e; style := style e;
     attributes := <[a := v]> (attributes e);
     src := src e; elt_href := elt_href e; textContent := textContent e |}.

Definition removeAttribute (a : string) (e : Element) : Element :=
  {| tagName := tagName e; style := style e;
     attributes := delete a (attributes e);
     src := src e; elt_href := elt_href e; textContent := textContent e |}.

(** A document: the element objects by identity, and the identities of
    those attached to the tree, in document order. *)
Record Document : Type := mkDocument {
  nodes : gmap nat Element;
  tree : list nat
}.

Definition update (id : nat) (f : Element -> Element) (d : Document)
    : Document :=
  {| nodes := alter f id (nodes d); tree := tree d |}.

(** [document.querySelectorAll('[a="v"]')] *)
Definition has_attribute (a v : string) (e : Element) : bool :=
  bool_decide (attributes e !! a = Some v).

Definition queryAttribute (a v : string) (d : Document) : list nat :=
  List.filter (fun i =>
                 match nodes d !! i with
                 | Some e => has_attribute a v e
                 | None => false
                 end) (tree d).

End Dom.

(** ** AdBlocker ([js/features/adblock.js]) *)

Module AdBlocker.

(** What a filter's [pattern] property holds: a [RegExp], a CSS selector
    string, or the empty object that [JSON.parse] gives back for a
    [RegExp] that went through [JSON.stringify]. *)
Inductive FilterPattern : Type :=
| PRegExp (r : Regex.RegExp)
| PSelector (s : string)
| PObject.

Record Filter : Type := mkFilter {
  pattern : FilterPattern;
  type : string;
  description : string;
  custom : bool
}.

Definition set_pattern (r : Regex.RegExp) (f : Filter) : Filter :=
  {| pattern := PRegExp r; type := type f; description := description f;
     custom := custom f |}.

Record Statistics : Type := mkStatistics {
  totalBlocked : nat;
  sessionBlocked : nat;
  blockedByType : gmap string nat
}.

Record t : Type := mk {
  isEnabled : bool;
  blockedAds : gset string;
  filterLists : list (string * list Filter);
  customFilters : list Filter;
  whitelist : list string;
  statistics : Statistics
}.

Definition set_filters (fl : list (string * list Filter))
    (cf : list Filter) (ab : t) : t :=
  {| isEnabled := isEnabled ab; blockedAds := blockedAds ab;
     filterLists := fl; customFilters := cf; whitelist := whitelist ab;
     statistics := statistics ab |}.

Definition set_whitelist (w : list string) (ab : t) : t :=
  {| isEnabled := isEnabled ab; blockedAds := blockedAds ab;
     filterLists := filterLists ab; customFilters := customFilters ab;
     whitelist := w; statistics := statistics ab |}.

Definition set_isEnabled (b : bool) (ab : t) : t :=
  {| isEnabled := b; blockedAds := blockedAds ab;
     filterLists := filterLists ab; customFilters := customFilters ab;
     whitelist := whitelist ab; statistics := statistics ab |}.

Definition set_statistics (s : Statistics) (ab : t) : t :=
  {| isEnabled := isEnabled ab; blockedAds := blockedAds ab;
     filterLists := filterLists ab; customFilters := customFilters ab;
     whitelist := whitelist ab; statistics := s |}.

Definition rx (src fl ty desc : string) : Filter :=
  mkFilter (PRegExp (Regex.literal src fl)) ty desc false.
Definition css (sel desc : string) : Filter :=
  mkFilter (PSelector sel) "css" desc false.

(** The double-quote character of the attribute selectors. *)
Definition dq : string := String "034"%char EmptyString.

(** [defaultFilters] of [loadFilterLists]. *)
Definition defaultFilters : list Filter := [
  rx "\.ads\." "i" "domain" "広告ドメイン";
  rx "ads\d+\." "i" "domain" "広告サブドメイン";
  rx "googleads" "i" "domain" "Google広告";
  rx "googlesyndication" "i" "domain" "Google Adsense";
  rx "doubleclick" "i" "domain" "DoubleClick広告";
  rx "facebook\.com\/tr" "i" "url" "Facebook広告トラッキング";
  rx "twitter\.com\/i\/adsct" "i" "url" "Twitter広告";
  css ".ad" "広告クラス";
  css ".ads" "広告クラス複数";
  css ".advertisement" "広告要素";
  css ".banner" "バナー広告";
  css ".sponsor" "スポンサー広告";
  css ".promoted" "プロモーション広告";
  css (String.append "[id*=" (String.append dq (String.append "ad"
         (String.append dq "]")))) "広告ID要素";
  css (String.append "[class*=" (String.append dq (String.append "ad-"
         (String.append dq "]")))) "広告クラス要素";
  rx "amazon-adsystem" "i" "domain" "Amazon広告";
  rx "adsystem\.amazon" "i" "domain" "Amazon広告システム";
  rx "outbrain\.com" "i" "domain" "Outbrain広告";
  rx "taboola\.com" "i" "domain" "Taboola広告";
  rx "criteo\.com" "i" "domain" "Criteo広告";
  rx "googlevideo\.com.*&ad" "i" "url" "YouTube広告";
  rx "youtube\.com\/api\/stats\/ads" "i" "url" "YouTube広告統計";
  rx "pop.*ad" "i" "url" "ポップアップ広告";
  rx "popup" "i" "url" "ポップアップ"
].

(** The object after [loadFilterLists], with nothing loaded from
    storage. *)
Definition new : t :=
  mk true ∅ [("default", defaultFilters)] [] [] (mkStatistics 0 0 ∅).

Inductive Scan : Type := Hit | Miss | Threw.

Definition url_filter (f : Filter) : bool :=
  String.eqb (type f) "domain" || String.eqb (type f) "url".

(** The inner loop over one filter list: [filter.pattern.test(fullUrl)
    || filter.pattern.test(hostname)]; calling [test] on a pattern that
    is not a [RegExp] throws. *)
Fixpoint scanFilters (fs : list Filter) (fullUrl hostname : string)
    : Scan * list Filter :=
  match fs with
  | [] => (Miss, [])
  | f :: rest =>
      if url_filter f then
        match pattern f with
        | PRegExp r =>
            let '(hit1, r1) := Regex.test r fullUrl in
            if hit1 then (Hit, set_pattern r1 f :: rest)
            else
              let '(hit2, r2) := Regex.test r1 hostname in
              if hit2 then (Hit, set_pattern r2 f :: rest)
              else
                let '(o, rest') := scanFilters rest fullUrl hostname in
                (o, set_pattern r2 f :: rest')
        | _ => (Threw, f :: rest)
        end
      else
        let '(o, rest') := scanFilters rest fullUrl hostname in
        (o, f :: rest')
  end.

Fixpoint scanLists (ls : list (string * list Filter))
    (fullUrl hostname : string) : Scan * list (string * list Filter) :=
  match ls with
  | [] => (Miss, [])
  | (name, fs) :: rest =>
      let '(o, fs') := scanFilters fs fullUrl hostname in
      match o with
      | Miss =>
          let '(o', rest') := scanLists rest fullUrl hostname in
          (o', (name, fs') :: rest')
      | _ => (o, (name, fs') :: rest)
      end
  end.

(** The loop over the custom filters: [filter.pattern.test &&
    filter.pattern.test(fullUrl)]. *)
Fixpoint scanCustom (fs : list Filter) (fullUrl : string)
    : bool * list Filter :=
  match fs with
  | [] => (false, [])
  | f :: rest =>
      if url_filter f then
        match pattern f with
        | PRegExp r =>
            let '(hit, r') := Regex.test r fullUrl in
            if hit then (true, set_pattern r' f :: rest)
            else
              let '(o, rest') := scanCustom rest fullUrl in
              (o, set_pattern r' f :: rest')
        | _ =>
            let '(o, rest') := scanCustom rest fullUrl in (o, f :: rest')
        end
      else
        let '(o, rest') := scanCustom rest fullUrl in (o, f :: rest')
  end.

(** [shouldBlockUrl]: the answer and the ad blocker after the call. *)
Definition shouldBlockUrl `{Host} (ab : t) (url : string) : bool * t :=
  match URL_new url with
  | None => (false, ab)
  | Some urlObj =>
      let hostname := JS.toLowerCase (hostname urlObj) in
      let fullUrl := JS.toLowerCase url in
      if JS.array_includes (whitelist ab) hostname then (false, ab)
      else
        let '(o, lists') := scanLists (filterLists ab) fullUrl hostname in
        match o with
        | Hit => (true, set_filters lists' (customFilters ab) ab)
        | Threw => (false, set_filters lists' (customFilters ab) ab)
        | Miss =>
            let '(hit, customs') := scanCustom (customFilters ab) fullUrl in
            (hit, set_filters lists' customs' ab)
        end
  end.

(** [blockAd]: the statistics of a blocked item. *)
Definition blockAd (ab : t) (identifier ty : string) : t :=
  let st := statistics ab in
  {| isEnabled := isEnabled ab;
     blockedAds := {[identifier]} ∪ blockedAds ab;
     filterLists := filterLists ab; customFilters := customFilters ab;
     whitelist := whitelist ab;
     statistics :=
       mkStatistics (S (totalBlocked st)) (S (sessionBlocked st))
         (<[ty := S (default 0 (blockedByType st !! ty))]>
            (blockedByType st)) |}.

(** [hideElement] *)
Definition hideElement (id : nat) (d : Dom.Document) : Dom.Document :=
  Dom.update id
    (fun e =>
       Dom.setAttribute "data-umbra-blocked" "true"
         (Dom.set_style "overflow" "hidden"
            (Dom.set_style "maxHeight" "0"
               (Dom.set_style "opacity" "0"
                  (Dom.set_style "visibility" "hidden"
                     (Dom.set_style "display" "none" e)))))) d.

(** [Set.add] on the whitelist, in insertion order. *)
Definition whitelist_add (d : string) (w : list string) : list string :=
  if JS.array_includes w d then w else w ++ [d].

(** [JSON.stringify] of the custom filters and of the whitelist. *)
Definition filter_json (f : Filter) : Storage.JSON :=
  Storage.JObj [
    ("pattern", match pattern f with
                | PSelector s => Storage.JStr s
                | _ => Storage.JObj []
                end);
    ("type", Storage.JStr (type f));
    ("description", Storage.JStr (description f));
    ("custom", Storage.JBool (custom f))
  ].

Definition saveCustomFilters (ab : t) (ls : Storage.t) : Storage.t :=
  Storage.setItem "umbra-custom-filters"
    (Storage.JArr (map filter_json (customFilters ab))) ls.

Definition saveWhitelist (ab : t) (ls : Storage.t) : Storage.t :=
  Storage.setItem "umbra-ad-whitelist"
    (Storage.JArr (map Storage.JStr (whitelist ab))) ls.

End AdBlocker.

(** ** UmbraBrowser ([js/core/umbra.js]) and the managers it wires *)

Module Umbra.

Record Settings : Type := mkSettings {
  theme : string;
  adBlockEnabled : bool;
  securityEnabled : bool;
  privacyMode : bool;
  defaultSearchEngine : string
}.

Definition settings_json (s : Settings) : Storage.JSON :=
  Storage.JObj [
    ("theme", Storage.JStr (theme s));
    ("adBlockEnabled", Storage.JBool (adBlockEnabled s));
    ("securityEnabled", Storage.JBool (securityEnabled s));
    ("privacyMode", Storage.JBool (privacyMode s));
    ("defaultSearchEngine", Storage.JStr (defaultSearchEngine s))
  ].

Record Frame : Type := mkFrame { frame_src : string; frame_hidden : bool }.
Record Overlay : Type := mkOverlay { reason : string; overlay_hidden : bool }.

(** The elements of the browser window the core looks up by id or class;
    [None] when the page has no such element. *)
Record Chrome : Type := mkChrome {
  addressBar : option string;
  siteFrame : option Frame;
  startPage : option bool;
  viewport : bool;
  blockedOverlay : option Overlay;
  loadingOverlay : option bool;
  privacyIndicator : bool
}.

(** PrivacyManager of [js/features/privacy.js]: what the navigation
    listeners use. *)
Record PrivacyManager : Type := mkPrivacyManager {
  pm_isPrivacyMode : bool;
  blockTrackers : bool;
  blockedTrackers : gset string;
  sessionData : gmap nat (string * nat)
}.

Inductive Timer : Type :=
| LoadUrl (url : string) (tabId : nat)
| HideLoading
| BlockAdsInCurrentPage.

Record App : Type := mkApp {
  settings : Settings;
  isPrivacyMode : bool;
  currentTab : option nat;
  securityManager : SecurityManager.t;
  adBlocker : AdBlocker.t;
  privacyManager : PrivacyManager;
  notifications : list (string * string);
  chrome : Chrome;
  frameDocument : Dom.Document;
  timers : list (nat * Timer);
  localStorage : Storage.t;
  clock : nat
}.

Definition with_securityManager (sm : SecurityManager.t) (a : App) : App :=
  mkApp (settings a) (isPrivacyMode a) (currentTab a) sm (adBlocker a)
    (privacyManager a) (notifications a) (chrome a) (frameDocument a)
    (timers a) (localStorage a) (clock a).

Definition with_adBlocker (ab : AdBlocker.t) (a : App) : App :=
  mkApp (settings a) (isPrivacyMode a) (currentTab a) (securityManager a) ab
    (privacyManager a) (notifications a) (chrome a) (frameDocument a)
    (timers a) (localStorage a) (clock a).

Definition with_privacyManager (pm : PrivacyManager) (a : App) : App :=
  mkApp (settings a) (isPrivacyMode a) (currentTab a) (securityManager a)
    (adBlocker a) pm (notifications a) (chrome a) (frameDocument a)
    (timers a) (localStorage a) (clock a).

Definition with_chrome (c : Chrome) (a : App) : App :=
  mkApp (settings a) (isPrivacyMode a) (currentTab a) (securityManager a)
    (adBlocker a) (privacyManager a) (notifications a) c (frameDocument a)
    (timers a) (localStorage a) (clock a).

Definition with_frameDocument (d : Dom.Document) (a : App) : App :=
  mkApp (settings a) (isPrivacyMode a) (currentTab a) (securityManager a)
    (adBlocker a) (privacyManager a) (notifications a) (chrome a) d
    (timers a) (localStorage a) (clock a).

Definition with_localStorage (ls : Storage.t) (a : App) : App :=
  mkApp (settings a) (isPrivacyMode a) (currentTab a) (securityManager a)
    (adBlocker a) (privacyManager a) (notifications a) (chrome a)
    (frameDocument a) (timers a) ls (clock a).

Definition with_privacy (mode : bool) (a : App) : App :=
  let s := settings a in
  mkApp (mkSettings (theme s) (adBlockEnabled s) (securityEnabled s) mode
           (defaultSearchEngine s))
    mode (currentTab a) (securityManager a) (adBlocker a)
    (privacyManager a) (notifications a) (chrome a) (frameDocument a)
    (timers a) (localStorage a) (clock a).

(** [notificationManager.show(message, type)] *)
Definition notify (message kind : string) (a : App) : App :=
  mkApp (settings a) (isPrivacyMode a) (currentTab a) (securityManager a)
    (adBlocker a) (privacyManager a) (notifications a ++ [(message, kind)])
    (chrome a) (frameDocument a) (timers a) (localStorage a) (clock a).

(** [setTimeout(task, delay)] *)
Definition setTimeout (task : Timer) (delay : nat) (a : App) : App :=
  mkApp (settings a) (isPrivacyMode a) (currentTab a) (securityManager a)
    (adBlocker a) (privacyManager a) (notifications a) (chrome a)
    (frameDocument a) (timers a ++ [(delay, task)]) (localStorage a)
    (clock a).

(** *** The event system *)

Inductive JSValue : Type :=
| undefined
| JSBool (b : bool).

(** [v === false] *)
Definition is_false (v : JSValue) : bool :=
  match v with
  | JSBool false => true
  | _ => false
  end.

Definition Listener (D : Type) : Type :=
  D -> App -> Completion JSValue * App.

(** [emit]: every listener registered for the event is called in
    registration order, inside a [try] whose [catch] only logs; what the
    listeners return is dropped by [forEach], and [emit] itself has no
    [return] statement. *)
Definition emit {D : Type} (listeners : list (Listener D)) (data : D)
    (a : App) : JSValue * App :=
  (undefined, fold_left (fun a callback => snd (callback data a)) listeners a).

Record NavData : Type := mkNavData { url : string; tabId : nat }.
Record ThreatData : Type := mkThreatData {
  td_url : string;
  td_threat : SecurityManager.Threat;
  td_tabId : option nat
}.
Record BlockedData : Type := mkBlockedData {
  bd_url : string;
  bd_reason : string;
  bd_tabId : option nat
}.

(** *** [siteBlocked] *)

(** [showBlockedPage] *)
Definition showBlockedPage (reason : string) (a : App) : App :=
  let c := chrome a in
  if viewport c then
    with_chrome
      (mkChrome (addressBar c)
         (option_map (fun f => mkFrame (frame_src f) true) (siteFrame c))
         (option_map (fun _ => true) (startPage c))
         true
         (Some (mkOverlay reason false))
         (loadingOverlay c) (privacyIndicator c)) a
  else a.

Definition handleSiteBlocked : Listener BlockedData :=
  fun data a => (Returned undefined, showBlockedPage (bd_reason data) a).

Definition on_siteBlocked : list (Listener BlockedData) :=
  [handleSiteBlocked].

(** *** [securityThreat] *)

Definition handleSecurityThreat : Listener ThreatData :=
  fun data a =>
    let threat := td_threat data in
    let a := notify (String.append "セキュリティ脅威を検出しました: "
                       (SecurityManager.description threat)) "error" a in
    let '(_, a) :=
      emit on_siteBlocked
        (mkBlockedData (td_url data) (SecurityManager.description threat)
           (td_tabId data)) a in
    (Returned undefined, a).

Definition on_securityThreat : list (Listener ThreatData) :=
  [handleSecurityThreat].

(** *** [beforeNavigate] *)

Definition knownTrackers : list string := [
  "doubleclick.net"; "googletagmanager.com"; "google-analytics.com";
  "facebook.com/tr"; "twitter.com/i/adsct"; "linkedin.com/px";
  "amazon-adsystem.com"; "googlesyndication.com"; "scorecardresearch.com";
  "quantserve.com"; "outbrain.com"; "taboola.com"
].

(** [PrivacyManager.isTracker] *)
Definition isTracker `{Host} (url : string) : bool :=
  match URL_new url with
  | None => false
  | Some urlObj =>
      let hostname := JS.toLowerCase (hostname urlObj) in
      existsb (fun tracker =>
                 JS.includes hostname tracker || JS.endsWith hostname tracker)
        knownTrackers
  end.

(** [PrivacyManager.handleBeforeNavigation] *)
Definition privacy_handleBeforeNavigation `{Host} : Listener NavData :=
  fun data a =>
    let pm := privacyManager a in
    if pm_isPrivacyMode pm && blockTrackers pm && isTracker (url data) then
      let a := with_privacyManager
                 (mkPrivacyManager (pm_isPrivacyMode pm) (blockTrackers pm)
                    ({[url data]} ∪ blockedTrackers pm) (sessionData pm)) a in
      (Returned (JSBool false),
       notify "トラッカーをブロックしました" "success" a)
    else (Returned (JSBool true), a).

(** [SecurityManager.handleSecurityThreat] *)
Definition security_handleSecurityThreat (url : string)
    (threat : SecurityManager.Threat) (a : App) : App :=
  let sm := securityManager a in
  let sm := SecurityManager.set_blockedSites
              ({[url]} ∪ SecurityManager.blockedSites sm) sm in
  let sm := SecurityManager.logThreat (clock a) sm url threat in
  let a := with_securityManager sm a in
  let '(_, a) := emit on_securityThreat (mkThreatData url threat None) a in
  notify (String.append "セキュリティ脅威を検出: "
            (SecurityManager.description threat)) "error" a.

(** [SecurityManager.handleBeforeNavigation] *)
Definition security_handleBeforeNavigation `{Host} : Listener NavData :=
  fun data a =>
    if negb (SecurityManager.isEnabled (securityManager a)) then
      (Returned (JSBool true), a)
    else
      let '(threat, sm) :=
        SecurityManager.checkUrl (securityManager a) (url data) in
      let a := with_securityManager sm a in
      match threat with
      | Some threat =>
          (Returned (JSBool false),
           security_handleSecurityThreat (url data) threat a)
      | None => (Returned (JSBool true), a)
      end.

(** [AdBlocker.handleBeforeNavigation] *)
Definition adblock_handleBeforeNavigation `{Host} : Listener NavData :=
  fun data a =>
    if negb (AdBlocker.isEnabled (adBlocker a)) then
      (Returned (JSBool true), a)
    else
      let '(block, ab) := AdBlocker.shouldBlockUrl (adBlocker a) (url data) in
      if block then
        (Returned (JSBool false),
         with_adBlocker (AdBlocker.blockAd ab (url data) "url") a)
      else (Returned (JSBool true), with_adBlocker ab a).

(** [UmbraBrowser.handleBeforeNavigation] *)
Definition handleBeforeNavigation `{Host} : Listener NavData :=
  fun data a =>
    if securityEnabled (settings a) then
      let '(threat, sm) :=
        SecurityManager.checkUrl (securityManager a) (url data) in
      let a := with_securityManager sm a in
      match threat with
      | Some threat =>
          let '(_, a) :=
            emit on_securityThreat
              (mkThreatData (url data) threat (Some (tabId data))) a in
          (Returned (JSBool false), a)
      | None => (Returned (JSBool true), a)
      end
    else (Returned (JSBool true), a).

(** The listeners of [beforeNavigate], in the order the constructors of
    [initializeManagers] and then [setupEventListeners] register them. *)
Definition on_beforeNavigate `{Host} : list (Listener NavData) := [
  privacy_handleBeforeNavigation;
  security_handleBeforeNavigation;
  adblock_handleBeforeNavigation;
  handleBeforeNavigation
].

(** *** [navigate] (the event) *)

(** [PrivacyManager.handleNavigation] *)
Definition privacy_handleNavigation : Listener NavData :=
  fun data a =>
    let pm := privacyManager a in
    if pm_isPrivacyMode pm then
      (Returned undefined,
       with_privacyManager
         (mkPrivacyManager (pm_isPrivacyMode pm) (blockTrackers pm)
            (blockedTrackers pm)
            (<[tabId data := (url data, clock a)]> (sessionData pm))) a)
    else (Returned undefined, a).

(** [AdBlocker.handleNavigation] *)
Definition adblock_handleNavigation : Listener NavData :=
  fun data a =>
    let ab := adBlocker a in
    if negb (AdBlocker.isEnabled ab) then (Returned undefined, a)
    else
      let st := AdBlocker.statistics ab in
      let ab := AdBlocker.set_statistics
                  (AdBlocker.mkStatistics (AdBlocker.totalBlocked st) 0
                     (AdBlocker.blockedByType st)) ab in
      (Returned undefined,
       setTimeout BlockAdsInCurrentPage 1000 (with_adBlocker ab a)).

(** [UmbraBrowser.handleNavigation] *)
Definition handleNavigation : Listener NavData :=
  fun data a =>
    let c := chrome a in
    (Returned undefined,
     with_chrome
       (mkChrome (option_map (fun _ => url data) (addressBar c))
          (siteFrame c) (startPage c) (viewport c) (blockedOverlay c)
          (loadingOverlay c) (privacyIndicator c)) a).

Definition on_navigate : list (Listener NavData) := [
  privacy_handleNavigation;
  adblock_handleNavigation;
  handleNavigation
].

(** *** Navigation *)

Definition set_loading (hidden : bool) (a : App) : App :=
  let c := chrome a in
  with_chrome
    (mkChrome (addressBar c) (siteFrame c) (startPage c) (viewport c)
       (blockedOverlay c) (option_map (fun _ => hidden) (loadingOverlay c))
       (privacyIndicator c)) a.

Definition showLoading : App -> App := set_loading false.
Definition hideLoading : App -> App := set_loading true.

(** [loadUrl] *)
Definition loadUrl (url : string) (tabId : nat) (a : App) : App :=
  let c := chrome a in
  match siteFrame c with
  | Some _ =>
      let a := with_chrome
                 (mkChrome (addressBar c) (Some (mkFrame url false))
                    (option_map (fun _ => true) (startPage c))
                    (viewport c)
                    (option_map (fun o => mkOverlay (reason o) true)
                       (blockedOverlay c))
                    (loadingOverlay c) (privacyIndicator c)) a in
      let a := setTimeout HideLoading 2000 a in
      snd (emit on_navigate (mkNavData url tabId) a)
  | None => a
  end.

(** The URL [navigate] works with after its normalisation step. *)
Definition normalize `{Host} (url : string) : string :=
  if negb (JS.startsWith url "http://") && negb (JS.startsWith url "https://")
  then
    if JS.includes url "." && negb (JS.includes url " ")
    then String.append "https://" url
    else String.append "https://www.google.com/search?q="
           (encodeURIComponent url)
  else url.

(** [navigate] *)
Definition navigate `{Host} (url : string) (a : App) : App :=
  if String.eqb url "" then a
  else
    let url := normalize url in
    let tabId := default 1 (currentTab a) in
    let '(canNavigate, a) := emit on_beforeNavigate (mkNavData url tabId) a in
    if is_false canNavigate then a
    else setTimeout (LoadUrl url tabId) 500 (showLoading a).

(** *** Settings and privacy mode *)

(** [saveSettings] *)
Definition saveSettings (a : App) : App :=
  with_localStorage
    (Storage.setItem "umbra-settings" (settings_json (settings a))
       (localStorage a)) a.

Definition set_privacyIndicator (shown : bool) (a : App) : App :=
  let c := chrome a in
  with_chrome
    (mkChrome (addressBar c) (siteFrame c) (startPage c) (viewport c)
       (blockedOverlay c) (loadingOverlay c) shown) a.

(** [handlePrivacyModeToggle] *)
Definition handlePrivacyModeToggle (enabled : bool) (a : App) : App :=
  let a := with_privacy enabled a in
  let a := saveSettings a in
  if enabled then
    notify "プライバシーモードが有効になりました" "success"
      (set_privacyIndicator true a)
  else
    notify "プライバシーモードが無効になりました" "warning"
      (set_privacyIndicator false a).

(** *** Controls of the managers that need the browser object *)

(** [AdBlocker.addCustomFilter] *)
Definition addCustomFilter `{Host} (pattern ty description : string)
    (a : App) : Completion unit * App :=
  match RegExp_new pattern "i" with
  | None => (Thrown "SyntaxError", a)
  | Some r =>
      let ab := adBlocker a in
      let filter :=
        AdBlocker.mkFilter (AdBlocker.PRegExp r) ty description true in
      let ab := AdBlocker.set_filters (AdBlocker.filterLists ab)
                  (AdBlocker.customFilters ab ++ [filter]) ab in
      let a := with_adBlocker ab a in
      let a := with_localStorage
                 (AdBlocker.saveCustomFilters ab (localStorage a)) a in
      (Returned tt, notify "カスタムフィルターを追加しました" "success" a)
  end.

(** [AdBlocker.addToWhitelist] *)
Definition addToWhitelist (domain : string) (a : App) : App :=
  let ab := adBlocker a in
  let ab := AdBlocker.set_whitelist
              (AdBlocker.whitelist_add (JS.toLowerCase domain)
                 (AdBlocker.whitelist ab)) ab in
  let a := with_adBlocker ab a in
  let a := with_localStorage (AdBlocker.saveWhitelist ab (localStorage a)) a in
  notify (String.append domain "をホワイトリストに追加しました") "success" a.

(** [AdBlocker.disable] *)
Definition adblock_disable (a : App) : App :=
  notify "広告ブロックを無効にしました" "warning"
    (with_adBlocker (AdBlocker.set_isEnabled false (adBlocker a)) a).

(** [AdBlocker.hideElement] on an element of the frame document. *)
Definition hideElement (id : nat) (a : App) : App :=
  with_frameDocument (AdBlocker.hideElement id (frameDocument a)) a.

(** [SecurityManager.whitelistDomain] *)
Definition whitelistDomain (domain : string) (a : App) : App :=
  let sm := securityManager a in
  let sm := SecurityManager.set_threatDatabase
              (delete domain (SecurityManager.threatDatabase sm)) sm in
  let sm := SecurityManager.set_blockedSites
              (SecurityManager.blockedSites sm ∖ {[domain]}) sm in
  notify (String.append domain "をホワイトリストに追加しました") "success"
    (with_securityManager sm a).

(** A reference state for the examples: the fields as the constructor
    of [UmbraBrowser] assigns them, the managers with the tables their
    constructors build, a page that has the elements the core looks up,
    and empty storage.  It is not the state of a running page: [init],
    which the constructor calls, goes on to start the managers (the
    privacy manager clears stored data in privacy mode), to register the
    listeners and to update the page, and none of that is replayed
    here.  The general statements quantify over every application
    state. *)
Definition initial : App :=
  mkApp (mkSettings "light" true true true "google") true None
    SecurityManager.new AdBlocker.new
    (mkPrivacyManager true true ∅ ∅) []
    (mkChrome (Some "") (Some (mkFrame "" true)) (Some false) true None
       (Some true) true)
    (Dom.mkDocument ∅ []) [] ∅ 0.

End Umbra.

(** ** The [scripts/] tree: event logs and settings gated on private mode *)

Module Scripts.

(** [window.umbraBrowser] *)
Record Browser : Type := mkBrowser {
  isPrivateMode : bool;
  currentTheme : string;
  adBlockerEnabled : bool;
  browser_trackingProtection : bool
}.

(** [window.securityManager] *)
Record SecurityManager : Type := mkSecurityManager {
  adBlockEnabled : bool;
  malwareProtection : bool;
  phishingProtection : bool;
  safeBrowsing : bool;
  blockedAds : nat;
  blockedMalware : nat;
  blockedPhishing : nat
}.

(** [window.privacyManager] *)
Record PrivacyManager : Type := mkPrivacyManager {
  trackingProtection : bool;
  fingerprintingProtection : bool;
  cookieBlocking : bool;
  httpsUpgrade : bool;
  privateMode : bool
}.

(** The window: the three objects ([umbraBrowser] may not be there yet),
    [localStorage], the document, the text of the status element that
    [updateSecurityStats] looks up, and [window.location.href]. *)
Record Window : Type := mkWindow {
  umbraBrowser : option Browser;
  securityManager : SecurityManager;
  privacyManager : PrivacyManager;
  localStorage : Storage.t;
  document : Dom.Document;
  statusText : option string;
  location_href : string
}.

Definition with_localStorage (ls : Storage.t) (w : Window) : Window :=
  mkWindow (umbraBrowser w) (securityManager w) (privacyManager w) ls
    (document w) (statusText w) (location_href w).

Definition with_securityManager (sm : SecurityManager) (w : Window)
    : Window :=
  mkWindow (umbraBrowser w) sm (privacyManager w) (localStorage w)
    (document w) (statusText w) (location_href w).

Definition with_document (d : Dom.Document) (w : Window) : Window :=
  mkWindow (umbraBrowser w) (securityManager w) (privacyManager w)
    (localStorage w) d (statusText w) (location_href w).

Definition with_statusText (t : option string) (w : Window) : Window :=
  mkWindow (umbraBrowser w) (securityManager w) (privacyManager w)
    (localStorage w) (document w) t (location_href w).

(** [window.umbraBrowser && !window.umbraBrowser.isPrivateMode] *)
Definition browser_persists (w : Window) : bool :=
  match umbraBrowser w with
  | Some b => negb (isPrivateMode b)
  | None => false
  end.

Definition number (n : nat) : string :=
  NilZero.string_of_uint (Nat.to_uint n).

(** [updateSecurityStats] *)
Definition updateSecurityStats (w : Window) : Window :=
  match statusText w with
  | Some text =>
      if JS.includes text "広告ブロック" then
        with_statusText
          (Some (String.append "広告ブロック: 有効 ("
                   (String.append (number (blockedAds (securityManager w)))
                      "件ブロック)"))) w
      else w
  | None => w
  end.

(** [array.splice(0, array.length - cap)] when the array is longer than
    [cap]. *)
Definition keepLast {A : Type} (cap : nat) (l : list A) : list A :=
  if (cap <? length l)%nat then List.skipn (length l - cap) l else l.

Definition securityEvent (w : Window) (ty details : string) (now : nat)
    : Storage.JSON :=
  Storage.JObj [
    ("type", Storage.JStr ty);
    ("details", Storage.JStr details);
    ("timestamp", Storage.JNum now);
    ("url", Storage.JStr (location_href w))
  ].

(** [SecurityManager.logSecurityEvent]; [now] is [Date.now()]. *)
Definition logSecurityEvent (ty details : string) (now : nat) (w : Window)
    : Completion unit * Window :=
  let event := securityEvent w ty details now in
  match Storage.getArray "umbraSecurityLog" (localStorage w) with
  | Thrown e => (Thrown e, w)
  | Returned stored =>
      let securityLog := keepLast 1000 (stored ++ [event]) in
      let w := if browser_persists w
               then with_localStorage
                      (Storage.setItem "umbraSecurityLog"
                         (Storage.JArr securityLog) (localStorage w)) w
               else w in
      (Returned tt, updateSecurityStats w)
  end.

Definition blockedRequest (ty url : string) (now : nat) : Storage.JSON :=
  Storage.JObj [
    ("type", Storage.JStr ty);
    ("url", Storage.JStr url);
    ("timestamp", Storage.JNum now)
  ].

(** [PrivacyManager.logBlockedRequest] *)
Definition logBlockedRequest (ty url : string) (now : nat) (w : Window)
    : Completion unit * Window :=
  match Storage.getArray "umbraBlockedRequests" (localStorage w) with
  | Thrown e => (Thrown e, w)
  | Returned stored =>
      let blockedRequests :=
        keepLast 100 (stored ++ [blockedRequest ty url now]) in
      if negb (privateMode (privacyManager w)) then
        (Returned tt,
         with_localStorage
           (Storage.setItem "umbraBlockedRequests"
              (Storage.JArr blockedRequests) (localStorage w)) w)
      else (Returned tt, w)
  end.

(** [SecurityManager.saveSecuritySettings] *)
Definition saveSecuritySettings (w : Window) : Window :=
  if browser_persists w then
    let sm := securityManager w in
    with_localStorage
      (Storage.setItem "umbraSecuritySettings"
         (Storage.JObj [
            ("adBlockEnabled", Storage.JBool (adBlockEnabled sm));
            ("malwareProtection", Storage.JBool (malwareProtection sm));
            ("phishingProtection", Storage.JBool (phishingProtection sm));
            ("safeBrowsing", Storage.JBool (safeBrowsing sm))
          ]) (localStorage w)) w
  else w.

(** [PrivacyManager.savePrivacySettings] *)
Definition savePrivacySettings (w : Window) : Window :=
  if negb (privateMode (privacyManager w)) then
    let pm := privacyManager w in
    with_localStorage
      (Storage.setItem "umbraPrivacySettings"
         (Storage.JObj [
            ("trackingProtection", Storage.JBool (trackingProtection pm));
            ("fingerprintingProtection",
             Storage.JBool (fingerprintingProtection pm));
            ("cookieBlocking", Storage.JBool (cookieBlocking pm));
            ("httpsUpgrade", Storage.JBool (httpsUpgrade pm))
          ]) (localStorage w)) w
  else w.

(** [UmbraBrowser.saveSettings] of this tree, called on the browser
    object, which therefore exists. *)
Definition saveSettings (w : Window) : Window :=
  match umbraBrowser w with
  | Some b =>
      if negb (isPrivateMode b) then
        with_localStorage
          (Storage.setItem "umbraSettings"
             (Storage.JObj [
                ("theme", Storage.JStr (currentTheme b));
                ("adBlockerEnabled", Storage.JBool (adBlockerEnabled b));
                ("trackingProtection",
                 Storage.JBool (browser_trackingProtection b))
              ]) (localStorage w)) w
      else w
  | None => w
  end.

Definition set_blockedAds (n : nat) (sm : SecurityManager)
    : SecurityManager :=
  mkSecurityManager (adBlockEnabled sm) (malwareProtection sm)
    (phishingProtection sm) (safeBrowsing sm) n (blockedMalware sm)
    (blockedPhishing sm).

Definition set_adBlockEnabled (b : bool) (sm : SecurityManager)
    : SecurityManager :=
  mkSecurityManager b (malwareProtection sm) (phishingProtection sm)
    (safeBrowsing sm) (blockedAds sm) (blockedMalware sm)
    (blockedPhishing sm).

(** [a || b || c] on strings: the first that is not empty. *)
Definition first_truthy (a b c : string) : string :=
  if negb (String.eqb a "") then a
  else if negb (String.eqb b "") then b else c.

(** [SecurityManager.blockAd] on the element object [id]. *)
Definition blockAd (id : nat) (now : nat) (w : Window)
    : Completion unit * Window :=
  match Dom.nodes (document w) !! id with
  | None => (Thrown "TypeError", w)
  | Some element =>
      let w := with_document
                 (Dom.update id
                    (fun e => Dom.setAttribute "data-umbra-blocked" "ad"
                                (Dom.set_style "display" "none" e))
                    (document w)) w in
      let sm := securityManager w in
      let w := with_securityManager (set_blockedAds (S (blockedAds sm)) sm) w in
      logSecurityEvent "ad"
        (first_truthy (Dom.src element) (Dom.elt_href element) "inline ad")
        now w
  end.

(** The [forEach] of [toggleAdBlocker] that shows the hidden ads again. *)
Definition restoreAds (d : Dom.Document) : Dom.Document :=
  fold_left
    (fun d ad =>
       Dom.update ad
         (fun e => Dom.removeAttribute "data-umbra-blocked"
                     (Dom.set_style "display" "" e)) d)
    (Dom.queryAttribute "data-umbra-blocked" "ad" d) d.

Section ToggleAdBlocker.

(** [scanCurrentPage], the rescan of the page that the enabling branch
    of [toggleAdBlocker] starts, is left as a parameter. *)
Variable scanCurrentPage : Window -> Window.

(** [SecurityManager.toggleAdBlocker] *)
Definition toggleAdBlocker (w : Window) : Window :=
  let sm := securityManager w in
  let w := with_securityManager
             (set_adBlockEnabled (negb (adBlockEnabled sm)) sm) w in
  let w := saveSecuritySettings w in
  if adBlockEnabled (securityManager w) then scanCurrentPage w
  else with_document (restoreAds (document w)) w.

End ToggleAdBlocker.

End Scripts.

(** ** The spoofing stage as the specification words it *)

Module Spec.

(** [h] is [legit] with some occurrences of [c] written as [d]. *)
Fixpoint substituted (c d : ascii) (legit h : string) : bool :=
  match legit, h with
  | EmptyString, EmptyString => true
  | String a legit', String b h' =>
      (Ascii.eqb a b || (Ascii.eqb a c && Ascii.eqb b d))
      && substituted c d legit' h'
  | _, _ => false
  end.

(** A character-substitution variant of a legitimate domain: [o] as [0],
    [i] as [1], [l] as [1], [e] as [3], the dot replaced by a hyphen with
    [.com] appended, or the TLD swapped to [.net] or [.org]. *)
Definition variantOf (legit h : string) : bool :=
  substituted "o" "0" legit h
  || substituted "i" "1" legit h
  || substituted "l" "1" legit h
  || substituted "e" "3" legit h
  || String.eqb h (String.append (JS.replace legit "." "-") ".com")
  || String.eqb h (JS.replace legit ".com" ".net")
  || String.eqb h (JS.replace legit ".com" ".org").

(** Spoofing exactly when the host name is a variant of one of the
    legitimate domains and is not that domain itself. *)
Definition isSpoofing (h : string) : bool :=
  existsb (fun legit => variantOf legit h && negb (String.eqb h legit))
    SecurityManager.legitimateDomains.

End Spec.

(** ** Notions used in the statements *)

(** A host name that lacks one of the four substituted letters. *)
Definition lacks_letter (hostname : string) : Prop :=
  JS.has_char "o" hostname = false \/ JS.has_char "i" hostname = false \/
  JS.has_char "l" hostname = false \/ JS.has_char "e" hostname = false.

(** The legitimate domain a letter-lacking host name is reported against:
    the first of the list, or the second for the first itself. *)
Definition reportedAgainst (hostname : string) : string :=
  if String.eqb hostname "google.com" then "facebook.com" else "google.com".

(** The three entries of [spoofingPatterns] that are built from the
    legitimate domain; the other four are built from the host name. *)
Definition fixedForms (legit : string) : list string := [
  String.append (JS.replace legit "." "-") ".com";
  JS.replace legit ".com" ".net";
  JS.replace legit ".com" ".org"
].

(** A rule whose pattern carries neither [g] nor [y]. *)
Definition stateless_rule (rule : SecurityManager.Threat) : Prop :=
  match SecurityManager.pattern rule with
  | Some p => Regex.stateful p = false
  | None => True
  end.

(** A run of record calls: [logSecurityEvent] on each [(type, details,
    now)] in turn, and [logBlockedRequest] on each [(type, url, now)]. *)
Definition logSecurityEvents (events : list (string * string * nat))
    (w : Scripts.Window) : Scripts.Window :=
  fold_left
    (fun w '(ty, details, now) =>
       snd (Scripts.logSecurityEvent ty details now w))
    events w.

Definition logBlockedRequests (events : list (string * string * nat))
    (w : Scripts.Window) : Scripts.Window :=
  fold_left
    (fun w '(ty, url, now) => snd (Scripts.logBlockedRequest ty url now w))
    events w.

(** The entries of a log in storage. *)
Definition storedLog (key : string) (ls : Storage.t) : list Storage.JSON :=
  match ls !! key with
  | Some (Storage.Json (Storage.JArr l)) => l
  | _ => []
  end.

(** The capped log after a run of insertions, as a list function. *)
Fixpoint runLog (cap : nat) (entries log : list Storage.JSON)
    : list Storage.JSON :=
  match entries with
  | [] => log
  | e :: rest => runLog cap rest (Scripts.keepLast cap (log ++ [e]))
  end.

(** ** Example states *)

Module Examples.

Definition banner : Dom.Element :=
  Dom.mkElement "IMG" ∅ ∅ "https://ads.example/banner.png" "" "".

Definition page : Dom.Document := Dom.mkDocument {[0%nat := banner]} [0%nat].

(** A window of the [scripts/] tree in private mode, with empty
    storage. *)
Definition privateWindow : Scripts.Window :=
  Scripts.mkWindow
    (Some (Scripts.mkBrowser true "light-theme" true true))
    (Scripts.mkSecurityManager true true true true 0 0 0)
    (Scripts.mkPrivacyManager true true true true true)
    ∅ page (Some "広告ブロック: 有効") "https://example.org/".

(** The same window in normal mode. *)
Definition normalWindow : Scripts.Window :=
  Scripts.mkWindow
    (Some (Scripts.mkBrowser false "light-theme" true true))
    (Scripts.mkSecurityManager true true true true 0 0 0)
    (Scripts.mkPrivacyManager true true true true false)
    ∅ page (Some "広告ブロック: 有効") "https://example.org/".

(** The window after the browser alone was switched to private mode: the
    privacy manager's own flag still has its constructor value. *)
Definition browserPrivateWindow : Scripts.Window :=
  Scripts.mkWindow
    (Some (Scripts.mkBrowser true "light-theme" true true))
    (Scripts.mkSecurityManager true true true true 0 0 0)
    (Scripts.mkPrivacyManager true true true true false)
    ∅ page (Some "広告ブロック: 有効") "https://example.org/".

(** The [js/] application with the banner in the frame document. *)
Definition appWithBanner : Umbra.App :=
  Umbra.with_frameDocument page Umbra.initial.

Definition adEvents (n : nat) : list (string * string * nat) :=
  map (fun i => ("ad", "inline ad", i)) (seq 0 n).

End Examples.

(** ** Further controls of the [js/] security manager *)

Module SecurityControls.

(** The entry [blockDomain] stores. *)
Definition blockedVerdict : SecurityManager.Threat :=
  SecurityManager.verdict "blocked" "ユーザーによりブロック".

(** [SecurityManager.blockDomain] *)
Definition blockDomain (domain : string) (a : Umbra.App) : Umbra.App :=
  let sm := Umbra.securityManager a in
  let sm := SecurityManager.set_threatDatabase
              (<[domain := blockedVerdict]> (SecurityManager.threatDatabase sm))
              sm in
  Umbra.notify (String.append domain "をブロックしました") "success"
    (Umbra.with_securityManager sm a).

(** [r.toString()] of a [RegExp]: the source between slashes, then the
    flag letters. *)
Definition flagLetters (f : Regex.Flags) : string :=
  String.append (if Regex.global f then "g" else "")
    (String.append (if Regex.ignoreCase f then "i" else "")
       (if Regex.sticky f then "y" else "")).

Definition toString (r : Regex.RegExp) : string :=
  String.append "/"
    (String.append (Regex.source r)
       (String.append "/" (flagLetters (Regex.flags r)))).

(** The [filter] of [removeSecurityRule]: the rules whose pattern prints
    differently from [text]; [None] when [rule.pattern.toString()] throws
    on a rule without a pattern. *)
Fixpoint keepOthers (text : string) (rules : list SecurityManager.Threat)
    : option (list SecurityManager.Threat) :=
  match rules with
  | [] => Some []
  | rule :: rest =>
      match SecurityManager.pattern rule with
      | None => None
      | Some p =>
          match keepOthers text rest with
          | None => None
          | Some rest' =>
              Some (if String.eqb (toString p) text then rest'
                    else rule :: rest')
          end
      end
  end.

(** [removeSecurityRule(pattern)], where [text] is [pattern.toString()];
    the rules are assigned only when the filter returns. *)
Definition removeSecurityRule (text : string) (sm : SecurityManager.t)
    : Completion SecurityManager.t :=
  match keepOthers text (SecurityManager.securityRules sm) with
  | None => Thrown "TypeError"
  | Some rules => Returned (SecurityManager.set_securityRules rules sm)
  end.

(** [getSecurityStats().threatsBlocked] *)
Definition threatsBlocked (sm : SecurityManager.t) : nat :=
  size (SecurityManager.blockedSites sm).

(** [checkMagicNumber]: the bytes of the [Uint8Array] against the magic
    numbers, index by index. *)
Definition checkMagicNumber (uint8Array magicBytes : list nat) : bool :=
  if (length uint8Array <? length magicBytes)%nat then false
  else
    forallb (fun i => bool_decide (uint8Array !! i = magicBytes !! i))
      (seq 0 (length magicBytes)).

Definition executableFile : SecurityManager.Threat :=
  SecurityManager.verdict "malware" "実行可能ファイルを検出".
Definition dangerousExtension : SecurityManager.Threat :=
  SecurityManager.verdict "malware" "危険なファイル拡張子".
Definition disguisedFile : SecurityManager.Threat :=
  SecurityManager.verdict "malware" "偽装された可能性のあるファイル".

Definition suspiciousExtensions : list string :=
  [".exe"; ".scr"; ".pif"; ".bat"; ".cmd"].

Definition doubleExtPattern : Regex.RegExp :=
  Regex.literal "\.[a-z]{2,4}\.[a-z]{2,4}$" "i".

(** [scanFileContent]: the threats pushed, in order. *)
Definition scanFileContent (bytes : list nat) (filename : string)
    : list SecurityManager.Threat :=
  (if checkMagicNumber bytes [77; 90]%nat then [executableFile] else [])
  ++ (if existsb (JS.endsWith (JS.toLowerCase filename)) suspiciousExtensions
      then [dangerousExtension] else [])
  ++ (if fst (Regex.test doubleExtPattern filename)
      then [disguisedFile] else []).

(** An ASCII letter, and a file extension of two to four of them. *)
Definition letter (c : ascii) : bool := JS.is_lower c || JS.is_upper c.

Definition extension (s : string) : bool :=
  (2 <=? String.length s)%nat && (String.length s <=? 4)%nat
  && forallb letter (list_ascii_of_string s).

End SecurityControls.

(** ** Further controls of the ad blocker *)

Module AdBlockControls.

(** [AdBlocker.removeCustomFilter(index)] for an integer [index]. *)
Definition removeCustomFilter (index : Z) (a : Umbra.App) : Umbra.App :=
  let ab := Umbra.adBlocker a in
  if ((0 <=? index)%Z
      && (index <? Z.of_nat (length (AdBlocker.customFilters ab)))%Z)%bool
  then
    let ab := AdBlocker.set_filters (AdBlocker.filterLists ab)
                (delete (Z.to_nat index) (AdBlocker.customFilters ab)) ab in
    let a := Umbra.with_adBlocker ab a in
    let a := Umbra.with_localStorage
               (AdBlocker.saveCustomFilters ab (Umbra.localStorage a)) a in
    Umbra.notify "カスタムフィルターを削除しました" "success" a
  else a.

(** [Set.delete] on the whitelist. *)
Definition whitelist_delete (d : string) (w : list string) : list string :=
  List.filter (fun x => negb (String.eqb x d)) w.

(** [AdBlocker.removeFromWhitelist] *)
Definition removeFromWhitelist (domain : string) (a : Umbra.App)
    : Umbra.App :=
  let ab := Umbra.adBlocker a in
  let ab := AdBlocker.set_whitelist
              (whitelist_delete (JS.toLowerCase domain)
                 (AdBlocker.whitelist ab)) ab in
  let a := Umbra.with_adBlocker ab a in
  let a := Umbra.with_localStorage
             (AdBlocker.saveWhitelist ab (Umbra.localStorage a)) a in
  Umbra.notify (String.append domain "をホワイトリストから削除しました")
    "success" a.

(** [AdBlocker.clearStatistics] *)
Definition clearStatistics (a : Umbra.App) : Umbra.App :=
  let ab := Umbra.adBlocker a in
  let ab := AdBlocker.mk (AdBlocker.isEnabled ab) ∅
              (AdBlocker.filterLists ab) (AdBlocker.customFilters ab)
              (AdBlocker.whitelist ab) (AdBlocker.mkStatistics 0 0 ∅) in
  Umbra.notify "広告ブロック統計をクリアしました" "success"
    (Umbra.with_adBlocker ab a).




(** What [JSON.parse] gives back for a filter that [JSON.stringify]
    wrote: a [RegExp] has no enumerable property and comes back as the
    empty object. *)
Definition reloaded (f : AdBlocker.Filter) : AdBlocker.Filter :=
  AdBlocker.mkFilter
    match AdBlocker.pattern f with
    | AdBlocker.PSelector s => AdBlocker.PSelector s
    | _ => AdBlocker.PObject
    end
    (AdBlocker.type f) (AdBlocker.description f) (AdBlocker.custom f).

(** The filter a parsed array element is, for the elements a list of
    filter records can hold: objects with the four properties of a saved
    filter.  [None] for any other value. *)
Definition filter_of_json (j : Storage.JSON) : option AdBlocker.Filter :=
  match j with
  | Storage.JObj [("pattern", p); ("type", Storage.JStr ty);
                  ("description", Storage.JStr description);
                  ("custom", Storage.JBool custom)] =>
      match p with
      | Storage.JStr s =>
          Some (AdBlocker.mkFilter (AdBlocker.PSelector s) ty description
                  custom)
      | Storage.JObj [] =>
          Some (AdBlocker.mkFilter AdBlocker.PObject ty description custom)
      | _ => None
      end
  | _ => None
  end.

(** [AdBlocker.loadCustomFilters]: a missing or empty item and a
    [JSON.parse] error leave the filters as they are; a stored array
    replaces them.  The result is [None] when the stored value is
    outside what a list of filter records can hold. *)
Definition loadCustomFilters (ls : Storage.t) (ab : AdBlocker.t)
    : option AdBlocker.t :=
  match ls !! "umbra-custom-filters" with
  | None => Some ab
  | Some (Storage.Raw _) => Some ab
  | Some (Storage.Json (Storage.JArr items)) =>
      match mapM filter_of_json items with
      | Some filters =>
          Some (AdBlocker.set_filters (AdBlocker.filterLists ab) filters ab)
      | None => None
      end
  | Some (Storage.Json _) => None
  end.

(** A filter on which the URL loops can call [pattern.test]: one that
    is not of type [domain] or [url], or holds a [RegExp]. *)
Definition testable (f : AdBlocker.Filter) : bool :=
  if AdBlocker.url_filter f then
    match AdBlocker.pattern f with
    | AdBlocker.PRegExp _ => true
    | _ => false
    end
  else true.

(** A filter whose pattern, if a [RegExp], has neither [g] nor [y]. *)
Definition stateless_filter (f : AdBlocker.Filter) : bool :=
  match AdBlocker.pattern f with
  | AdBlocker.PRegExp r => negb (Regex.stateful r)
  | _ => true
  end.

(** The types [blockAd] is called with. *)
Definition adTypes : list string :=
  ["url"; "css"; "script"; "image"; "iframe"; "element"].

(** A run of [blockAd] calls, each an [(identifier, type)]. *)
Definition blockAds (calls : list (string * string)) (ab : AdBlocker.t)
    : AdBlocker.t :=
  fold_left (fun ab '(identifier, ty) => AdBlocker.blockAd ab identifier ty)
    calls ab.

End AdBlockControls.

(** ** Further functions of the [scripts/] tree *)

Module ScriptsControls.

(** A JavaScript value read from JSON, in a condition. *)
Definition truthy (j : Storage.JSON) : bool :=
  match j with
  | Storage.JNull => false
  | Storage.JBool b => b
  | Storage.JNum n => negb (n =? 0)%nat
  | Storage.JStr s => negb (String.eqb s "")
  | Storage.JArr _ => true
  | Storage.JObj _ => true
  end.

(** The value of a key in the members of an object as [JSON.parse]
    builds it: the last member with that key. *)
Fixpoint member (key : string) (fields : list (string * Storage.JSON))
    : option Storage.JSON :=
  match fields with
  | [] => None
  | (k, v) :: rest =>
      match member key rest with
      | Some v' => Some v'
      | None => if String.eqb k key then Some v else None
      end
  end.

(** [j.key] for one of the setting and entry keys, on a value that is
    not [null]; [None] is [undefined]. *)
Definition property (j : Storage.JSON) (key : string)
    : option Storage.JSON :=
  match j with
  | Storage.JObj fields => member key fields
  | _ => None
  end.

(** [v !== false] *)
Definition not_false (v : option Storage.JSON) : bool :=
  match v with
  | Some (Storage.JBool false) => false
  | _ => true
  end.

(** [JSON.parse(localStorage.getItem(key))]: [null] for a missing key,
    a [SyntaxError] for a stored string that is not JSON. *)
Definition parseItem (key : string) (ls : Storage.t)
    : Completion Storage.JSON :=
  match ls !! key with
  | None => Returned Storage.JNull
  | Some (Storage.Json j) => Returned j
  | Some (Storage.Raw _) => Thrown "SyntaxError"
  end.

(** [SecurityManager.loadSecuritySettings] *)
Definition loadSecuritySettings (w : Scripts.Window) : Scripts.Window :=
  match parseItem "umbraSecuritySettings" (Scripts.localStorage w) with
  | Thrown _ => w
  | Returned settings =>
      if truthy settings then
        let sm := Scripts.securityManager w in
        Scripts.with_securityManager
          (Scripts.mkSecurityManager
             (not_false (property settings "adBlockEnabled"))
             (not_false (property settings "malwareProtection"))
             (not_false (property settings "phishingProtection"))
             (not_false (property settings "safeBrowsing"))
             (Scripts.blockedAds sm) (Scripts.blockedMalware sm)
             (Scripts.blockedPhishing sm)) w
      else w
  end.

Definition with_privacyManager (pm : Scripts.PrivacyManager)
    (w : Scripts.Window) : Scripts.Window :=
  Scripts.mkWindow (Scripts.umbraBrowser w) (Scripts.securityManager w) pm
    (Scripts.localStorage w) (Scripts.document w) (Scripts.statusText w)
    (Scripts.location_href w).

(** [PrivacyManager.loadPrivacySettings] *)
Definition loadPrivacySettings (w : Scripts.Window) : Scripts.Window :=
  match parseItem "umbraPrivacySettings" (Scripts.localStorage w) with
  | Thrown _ => w
  | Returned settings =>
      if truthy settings then
        with_privacyManager
          (Scripts.mkPrivacyManager
             (not_false (property settings "trackingProtection"))
             (not_false (property settings "fingerprintingProtection"))
             (not_false (property settings "cookieBlocking"))
             (not_false (property settings "httpsUpgrade"))
             (Scripts.privateMode (Scripts.privacyManager w))) w
      else w
  end.

(** *** [isUnsafeUrl] *)

Definition malwareDomains : list string := [
  "malware-example.com"; "virus-site.net"; "dangerous-download.org";
  "phishing-bank.com"; "fake-security.net"
].

Definition phishingDomains : list string := [
  "secure-bank-login.fake"; "paypal-security.scam";
  "microsoft-security.phish"; "google-security.fake";
  "amazon-security.scam"
].

Definition shortenerPattern : Regex.RegExp :=
  Regex.literal "bit\.ly|tinyurl|t\.co" "".

Definition suspiciousPatterns : list Regex.RegExp := [
  Regex.literal "[0-9]{1,3}\.[0-9]{1,3}\.[0-9]{1,3}\.[0-9]{1,3}" "";
  shortenerPattern;
  Regex.literal "[a-z0-9]{20,}\.com" ""
].

(** [SecurityManager.isUnsafeUrl] of [scripts/security.js]; the patterns
    are literals created by the call. *)
Definition isUnsafeUrl `{Host} (url : string) : bool :=
  match URL_new url with
  | None => true
  | Some urlObj =>
      if existsb (JS.includes (hostname urlObj)) malwareDomains then true
      else if existsb (JS.includes (hostname urlObj)) phishingDomains
      then true
      else existsb (fun pattern => fst (Regex.test pattern url))
             suspiciousPatterns
  end.

(** *** Frames *)

Definition trackingDomains : list string := [
  "google-analytics.com"; "googletagmanager.com"; "doubleclick.net";
  "facebook.com/tr"; "amazon-adsystem.com"; "googlesyndication.com";
  "googleadservices.com"; "adsystem.amazon.com"
].

(** [PrivacyManager.isTrackingUrl] *)
Definition isTrackingUrl (url : string) : bool :=
  if String.eqb url "" then false
  else existsb (JS.includes url) trackingDomains.

(** An [iframe] element: its [src] and the value of its [sandbox]
    token list. *)
Record Iframe : Type := mkIframe {
  iframe_src : string;
  sandbox : string
}.

(** [addPrivacySandbox]; [iframe.sandbox] is always an object. *)
Definition addPrivacySandbox (iframe : Iframe) : Iframe :=
  if JS.includes (sandbox iframe) "allow-popups"
  then mkIframe (iframe_src iframe)
         "allow-scripts allow-same-origin allow-forms"
  else iframe.

(** [PrivacyManager.filterIframe]: the outcome, the frame and the window
    after the call. *)
Definition filterIframe (iframe : Iframe) (now : nat) (w : Scripts.Window)
    : Completion unit * Iframe * Scripts.Window :=
  let originalSrc := iframe_src iframe in
  if isTrackingUrl originalSrc then
    let iframe := mkIframe "about:blank" (sandbox iframe) in
    let '(outcome, w) :=
      Scripts.logBlockedRequest "tracking" originalSrc now w in
    (outcome, iframe, w)
  else
    let iframe :=
      if negb (JS.startsWith originalSrc "https://")
         && Scripts.httpsUpgrade (Scripts.privacyManager w)
      then mkIframe (JS.replace originalSrc "http://" "https://")
             (sandbox iframe)
      else iframe in
    (Returned tt, addPrivacySandbox iframe, w).

(** *** Storage clean-up and statistics *)

Definition trackingKeys : list string :=
  ["_ga"; "_gid"; "_fbp"; "_fbc"; "analytics"; "tracking"; "advertisement"].

(** [trackingKeyPatterns]: one literal per key text. *)
Definition trackingKeyPatterns : list Regex.RegExp :=
  map (fun src => Regex.literal src "") trackingKeys.

(** [PrivacyManager.isTrackingStorageKey] *)
Definition isTrackingStorageKey (key : string) : bool :=
  existsb (fun pattern => fst (Regex.test pattern key)) trackingKeyPatterns.

(** [PrivacyManager.clearTrackingStorage]: the keys are collected first
    and removed afterwards. *)
Definition clearTrackingStorage (ls : Storage.t) : Storage.t :=
  let keysToRemove :=
    List.filter isTrackingStorageKey (map fst (map_to_list ls)) in
  fold_left (fun ls key => delete key ls) keysToRemove ls.

(** The keys under which the [scripts/] tree stores its own data. *)
Definition umbraKeys : list string := [
  "umbraSettings"; "umbraSecuritySettings"; "umbraPrivacySettings";
  "umbraSecurityLog"; "umbraBlockedRequests"; "umbraCache"
].

Record RequestStats : Type := mkRequestStats {
  total : nat;
  tracking : nat;
  ads : nat;
  malware : nat
}.

(** [r.type === ty] on an element of the parsed array; reading a
    property of [null] throws. *)
Definition hasType (ty : string) (r : Storage.JSON) : option bool :=
  match r with
  | Storage.JNull => None
  | _ =>
      Some match property r "type" with
           | Some (Storage.JStr s) => String.eqb s ty
           | _ => false
           end
  end.

(** [l.filter(r => r.type === ty).length] *)
Fixpoint countType (ty : string) (l : list Storage.JSON) : option nat :=
  match l with
  | [] => Some 0%nat
  | r :: rest =>
      match hasType ty r with
      | None => None
      | Some b =>
          match countType ty rest with
          | None => None
          | Some n => Some (if b then S n else n)
          end
      end
  end.

(** [PrivacyManager.getBlockedRequestsStats] *)
Definition getBlockedRequestsStats (ls : Storage.t)
    : Completion RequestStats :=
  match Storage.getArray "umbraBlockedRequests" ls with
  | Thrown e => Thrown e
  | Returned l =>
      match countType "tracking" l, countType "ads" l,
            countType "malware" l with
      | Some t, Some a, Some m => Returned (mkRequestStats (length l) t a m)
      | _, _, _ => Thrown "TypeError"
      end
  end.

(** The pattern of a literal without operators: its characters in
    sequence. *)
Fixpoint chars (p : list ascii) : Regex.re :=
  match p with
  | [] => Regex.Empty
  | [c] => Regex.Char c
  | c :: p' => Regex.Seq (Regex.Char c) (chars p')
  end.

End ScriptsControls.

(** ** Navigation of the [scripts/] browser *)

Module Navigation.

(** The elements of [index.html] that navigation reads and writes:
    the [display] style of [#start-page] and [#web-view], the [loading]
    class of [#web-view], the string last assigned to the [src] of
    [#content-frame] ([None] once the frame is no longer in the
    document), the URL of the security warning that replaced the
    content of [#web-view], the value of [#address-bar], the [disabled]
    state of [#back-btn] and [#forward-btn], and the text of
    [#page-status]. *)
Record Page : Type := mkPage {
  startPageDisplay : string;
  webViewDisplay : string;
  webViewLoading : bool;
  contentFrame : option string;
  securityWarning : option string;
  addressBar : string;
  backDisabled : bool;
  forwardDisabled : bool;
  pageStatus : string
}.

(** The fields of the browser object that navigation uses;
    [currentUrl] is [None] when it holds [undefined]. *)
Record t : Type := mk {
  isPrivateMode : bool;
  currentUrl : option string;
  history : list string;
  historyIndex : Z;
  page : Page
}.

Definition with_page (p : Page) (s : t) : t :=
  mk (isPrivateMode s) (currentUrl s) (history s) (historyIndex s) p.

(** The browser after its constructor, on the page as served. *)
Definition initial (private : bool) : t :=
  mk private (Some "") [] (-1)
    (mkPage "" "none" false (Some "") None "" false false "準備完了").

(** A value used as a string: [undefined] reads as its name. *)
Definition text (v : option string) : string := default "undefined" v.

(** [history[i]] *)
Definition at_index (l : list string) (i : Z) : option string :=
  if (i <? 0)%Z then None else l !! Z.to_nat i.

(** [history.slice(0, e)] *)
Definition slice_to (e : Z) (l : list string) : list string :=
  if (e <? 0)%Z then take (Z.to_nat (Z.of_nat (length l) + e)) l
  else take (Z.to_nat e) l.

Definition dangerousPatterns : list Regex.RegExp := [
  Regex.literal "malware" "i"; Regex.literal "virus" "i";
  Regex.literal "phishing" "i"; Regex.literal "suspicious" "i"
].

(** [isSecureUrl] *)
Definition isSecureUrl (url : string) : bool :=
  negb (existsb (fun pattern => fst (Regex.test pattern url))
          dangerousPatterns).

(** [showSecurityWarning]: the markup assigned to [innerHTML] replaces
    the children of [#web-view], the content frame among them. *)
Definition showSecurityWarning (url : string) (s : t) : t :=
  let p := page s in
  with_page
    (mkPage (startPageDisplay p) (webViewDisplay p) (webViewLoading p)
       None (Some url) (addressBar p) (backDisabled p) (forwardDisabled p)
       "セキュリティ警告") s.

(** [loadUrl]; assigning [src] on a frame that is not in the document
    throws.  The [onload] and [onerror] handlers it installs run later,
    on events of the frame. *)
Definition loadUrl (url : string) (s : t) : Completion unit * t :=
  let p := page s in
  let p := mkPage "none" "block" true (contentFrame p) (securityWarning p)
             (addressBar p) (backDisabled p) (forwardDisabled p)
             "読み込み中..." in
  let s := with_page p s in
  if isSecureUrl url then
    match contentFrame p with
    | Some _ =>
        (Returned tt,
         with_page
           (mkPage (startPageDisplay p) (webViewDisplay p) (webViewLoading p)
              (Some url) (securityWarning p) (addressBar p) (backDisabled p)
              (forwardDisabled p) (pageStatus p)) s)
    | None => (Thrown "TypeError", s)
    end
  else
    let p := mkPage (startPageDisplay p) (webViewDisplay p) false
               (contentFrame p) (securityWarning p) (addressBar p)
               (backDisabled p) (forwardDisabled p) (pageStatus p) in
    (Returned tt, showSecurityWarning url (with_page p s)).

(** [addToHistory] *)
Definition addToHistory (url : string) (s : t) : t :=
  if negb (isPrivateMode s) then
    let history := slice_to (historyIndex s + 1) (history s) ++ [url] in
    mk (isPrivateMode s) (currentUrl s) history
      (Z.of_nat (length history) - 1) (page s)
  else s.

(** [updateAddressBar] *)
Definition updateAddressBar (url : string) (s : t) : t :=
  let p := page s in
  with_page
    (mkPage (startPageDisplay p) (webViewDisplay p) (webViewLoading p)
       (contentFrame p) (securityWarning p) url (backDisabled p)
       (forwardDisabled p) (pageStatus p)) s.

(** [updateNavigationButtons] *)
Definition updateNavigationButtons (s : t) : t :=
  let p := page s in
  with_page
    (mkPage (startPageDisplay p) (webViewDisplay p) (webViewLoading p)
       (contentFrame p) (securityWarning p) (addressBar p)
       (historyIndex s <=? 0)%Z
       (Z.of_nat (length (history s)) - 1 <=? historyIndex s)%Z
       (pageStatus p)) s.

(** The statements that [navigate], [goBack] and [goForward] end with:
    [loadUrl(url)], [updateAddressBar(url)],
    [updateNavigationButtons()]. *)
Definition show (url : option string) (s : t) : Completion unit * t :=
  match loadUrl (text url) s with
  | (Thrown e, s) => (Thrown e, s)
  | (Returned _, s) =>
      (Returned tt, updateNavigationButtons (updateAddressBar (text url) s))
  end.

(** [navigate] from the assignment of [currentUrl] on. *)
Definition visit (url : string) (s : t) : Completion unit * t :=
  let s := mk (isPrivateMode s) (Some url) (history s) (historyIndex s)
             (page s) in
  show (Some url) (addToHistory url s).

(** [navigate], which [search] calls back with the search URL; [depth]
    bounds the nesting of the calls. *)
Fixpoint navigate_depth `{Host} (depth : nat) (url : string) (s : t)
    : Completion unit * t :=
  match depth with
  | O => (Thrown "RangeError", s)
  | S depth' =>
      if String.eqb url "" then (Returned tt, s)
      else if negb (JS.startsWith url "http://")
              && negb (JS.startsWith url "https://")
      then
        if JS.includes url "." && negb (JS.includes url " ")
        then visit (String.append "https://" url) s
        else
          navigate_depth depth'
            (String.append "https://www.google.com/search?q="
               (encodeURIComponent url)) s
      else visit url s
  end.

(** [navigate]: two nested calls are all it ever makes. *)
Definition navigate `{Host} (url : string) (s : t) : Completion unit * t :=
  navigate_depth 2 url s.

(** The address [navigate] visits for a non-empty input. *)
Definition target `{Host} (url : string) : string :=
  if negb (JS.startsWith url "http://") && negb (JS.startsWith url "https://")
  then
    if JS.includes url "." && negb (JS.includes url " ")
    then String.append "https://" url
    else String.append "https://www.google.com/search?q="
           (encodeURIComponent url)
  else url.

(** [goBack] *)
Definition goBack (s : t) : Completion unit * t :=
  if (0 <? historyIndex s)%Z then
    let index := (historyIndex s - 1)%Z in
    let url := at_index (history s) index in
    show url (mk (isPrivateMode s) url (history s) index (page s))
  else (Returned tt, s).

(** [goForward] *)
Definition goForward (s : t) : Completion unit * t :=
  if (historyIndex s <? Z.of_nat (length (history s)) - 1)%Z then
    let index := (historyIndex s + 1)%Z in
    let url := at_index (history s) index in
    show url (mk (isPrivateMode s) url (history s) index (page s))
  else (Returned tt, s).

(** [refresh] *)
Definition refresh (s : t) : Completion unit * t :=
  match currentUrl s with
  | Some url => if String.eqb url "" then (Returned tt, s) else loadUrl url s
  | None => (Returned tt, s)
  end.

(** [goHome] *)
Definition goHome (s : t) : t :=
  let p := page s in
  let p := mkPage "block" "none" (webViewLoading p) (contentFrame p)
             (securityWarning p) "" (backDisabled p) (forwardDisabled p)
             "準備完了" in
  updateNavigationButtons
    (mk (isPrivateMode s) (Some "") (history s) (historyIndex s) p).

(** What the user does with the navigation controls. *)
Inductive Action : Type :=
| Navigate (url : string)
| Back
| Forward
| Refresh
| Home.

(** The browser after an action; an exception ends the handler and
    leaves the browser as it is at that point. *)
Definition step `{Host} (s : t) (action : Action) : t :=
  match action with
  | Navigate url => snd (navigate url s)
  | Back => snd (goBack s)
  | Forward => snd (goForward s)
  | Refresh => snd (refresh s)
  | Home => goHome s
  end.

Definition run `{Host} (actions : list Action) (s : t) : t :=
  fold_left step actions s.

(** The history index is -1 or points into the history. *)
Definition inBounds (s : t) : bool :=
  (-1 <=? historyIndex s)%Z
  && (historyIndex s <? Z.of_nat (length (history s)))%Z.

(** Every history entry is an [http://] or [https://] address. *)
Definition webAddresses (s : t) : bool :=
  forallb (fun url => JS.startsWith url "http://"
                      || JS.startsWith url "https://") (history s).


End Navigation.

(** * Properties *)

(** ** Strings *)

Lemma replaceAllChar_absent (c d : ascii) (s : string) :
  JS.has_char c s = false -> JS.replaceAllChar c d s = s.
Proof.
  induction s as [|a s IH]; simpl; [reflexivity|].
  intros Hc. apply orb_false_iff in Hc as [Ha Hs].
  rewrite Ha, IH by assumption. reflexivity.
Qed.

Lemma array_includes_In (l : list string) (x : string) :
  JS.array_includes l x = true <-> In x l.
Proof.
  unfold JS.array_includes. rewrite existsb_exists. split.
  - intros (y & Hy & Heq). apply String.eqb_eq in Heq. subst. assumption.
  - intros Hx. exists x. split; [assumption | apply String.eqb_refl].
Qed.

(** ** The spoofing stage *)

Lemma spoofingPatterns_self (hostname legit : string) :
  lacks_letter hostname ->
  JS.array_includes (SecurityManager.spoofingPatterns hostname legit) hostname
  = true.
Proof.
  intros H. apply array_includes_In. unfold SecurityManager.spoofingPatterns.
  destruct H as [H | [H | [H | H]]];
    rewrite (replaceAllChar_absent _ _ _ H); simpl; tauto.
Qed.

Lemma checkDomainSpoofing_lacks (hostname : string) :
  lacks_letter hostname ->
  SecurityManager.checkDomainSpoofing hostname
  = Some (SecurityManager.spoofingOf (reportedAgainst hostname)).
Proof.
  intros H. unfold SecurityManager.checkDomainSpoofing, reportedAgainst.
  unfold SecurityManager.legitimateDomains.
  cbn [SecurityManager.checkDomainSpoofing_from].
  rewrite !spoofingPatterns_self by assumption.
  destruct (String.eqb hostname "google.com") eqn:E.
  - apply String.eqb_eq in E. subst hostname. reflexivity.
  - reflexivity.
Qed.

Lemma replaceAllChar_fixed (c d : ascii) (s : string) :
  c <> d -> JS.replaceAllChar c d s = s -> JS.has_char c s = false.
Proof.
  intros Hcd. induction s as [|a s IH]; simpl; [reflexivity|].
  intros Heq. injection Heq as Ha Hs. rewrite (IH Hs), orb_false_r.
  destruct (Ascii.eqb a c) eqn:E; [|reflexivity].
  apply Ascii.eqb_eq in E. congruence.
Qed.

Lemma spoofingPatterns_includes (hostname legit : string) :
  JS.array_includes (SecurityManager.spoofingPatterns hostname legit) hostname
  = true
  <-> lacks_letter hostname \/ In hostname (fixedForms legit).
Proof.
  rewrite array_includes_In. unfold SecurityManager.spoofingPatterns,
    fixedForms, lacks_letter. simpl. split.
  - intros [H | [H | [H | [H | H]]]];
      try (right; tauto);
      left; apply replaceAllChar_fixed in H; solve [tauto | discriminate].
  - intros [[H | [H | [H | H]]] | H];
      try (rewrite (replaceAllChar_absent _ _ _ H); tauto).
    tauto.
Qed.

Lemma spoofing_step (hostname legit : string) :
  JS.array_includes (SecurityManager.spoofingPatterns hostname legit) hostname
  && negb (String.eqb hostname legit) = true
  <-> (lacks_letter hostname \/ In hostname (fixedForms legit))
      /\ hostname <> legit.
Proof.
  rewrite andb_true_iff, spoofingPatterns_includes, negb_true_iff,
    String.eqb_neq. reflexivity.
Qed.

Lemma checkDomainSpoofing_from_Some (legits : list string)
    (hostname : string) (threat : SecurityManager.Threat) :
  SecurityManager.checkDomainSpoofing_from legits hostname = Some threat ->
  lacks_letter hostname
  \/ exists legit, In legit legits /\ In hostname (fixedForms legit)
                   /\ hostname <> legit.
Proof.
  induction legits as [|legit rest IH]; [discriminate|]. simpl.
  destruct (_ && _) eqn:E.
  - intros _. apply spoofing_step in E as [[Hl | Hf] Hne]; [left; exact Hl|].
    right. exists legit. tauto.
  - intros Ht. destruct (IH Ht) as [Hl | (l & Hin & Hf & Hne)];
      [left; exact Hl|].
    right. exists l. tauto.
Qed.

Lemma checkDomainSpoofing_from_form (legits : list string)
    (hostname legit : string) :
  In legit legits -> In hostname (fixedForms legit) -> hostname <> legit ->
  exists threat,
    SecurityManager.checkDomainSpoofing_from legits hostname = Some threat.
Proof.
  intros Hin Hf Hne. induction legits as [|l rest IH]; [destruct Hin|].
  simpl. destruct (_ && _) eqn:E; [eauto|].
  destruct Hin as [-> | Hin]; [|exact (IH Hin)].
  exfalso. apply not_true_iff_false in E. apply E, spoofing_step. tauto.
Qed.

(** X30: what the spoofing stage really decides: [checkDomainSpoofing]
    reports a host name exactly when it lacks one of the four letters
    [o], [i], [l], [e], or is the hyphen, [.net] or [.org] form of a
    legitimate domain different from it. *)
Lemma checkDomainSpoofing_flags_iff (hostname : string) :
  (exists threat, SecurityManager.checkDomainSpoofing hostname = Some threat)
  <-> lacks_letter hostname
      \/ exists legit, In legit SecurityManager.legitimateDomains
                       /\ In hostname (fixedForms legit)
                       /\ hostname <> legit.
Proof.
  split.
  - intros [threat Ht]. exact (checkDomainSpoofing_from_Some _ _ _ Ht).
  - intros [Hl | (legit & Hin & Hf & Hne)].
    + rewrite (checkDomainSpoofing_lacks _ Hl). eauto.
    + exact (checkDomainSpoofing_from_form _ _ _ Hin Hf Hne).
Qed.

(** ** [checkUrl] *)

Section CheckUrl.

Context `{Host}.

(** [checkUrl] touches nothing but the rules (the [lastIndex] of their
    patterns). *)
Lemma checkUrl_frame (sm : SecurityManager.t) (url : string) :
  exists rules,
    snd (SecurityManager.checkUrl sm url)
    = SecurityManager.set_securityRules rules sm.
Proof.
  assert (Hid : sm = SecurityManager.set_securityRules
                       (SecurityManager.securityRules sm) sm)
    by (destruct sm; reflexivity).
  unfold SecurityManager.checkUrl.
  destruct (URL_new url) as [urlObj|]; [|eauto].
  destruct (SecurityManager.threatDatabase sm !! _); [eauto|].
  destruct (SecurityManager.scanRules _ _) as [scan rules'].
  exists rules'.
  destruct scan; try reflexivity.
  destruct (SecurityManager.checkDomainSpoofing _); [reflexivity|].
  destruct (SecurityManager.checkSuspiciousTLD _); [reflexivity|].
  destruct (SecurityManager.checkUrlStructure _); reflexivity.
Qed.

Lemma checkUrl_same_rules (sm : SecurityManager.t) (url : string) :
  SecurityManager.securityRules (snd (SecurityManager.checkUrl sm url))
  = SecurityManager.securityRules sm ->
  snd (SecurityManager.checkUrl sm url) = sm.
Proof.
  destruct (checkUrl_frame sm url) as [rules Hr]. rewrite Hr. simpl.
  intros ->. destruct sm; reflexivity.
Qed.

Lemma test_stateless (p : Regex.RegExp) (s : string) :
  Regex.stateful p = false -> snd (Regex.test p s) = p.
Proof.
  intros Hp. unfold Regex.test. rewrite Hp.
  destruct (Regex.search _ _ _ _); reflexivity.
Qed.

Lemma scanRules_stateless (rules : list SecurityManager.Threat)
    (fullUrl : string) :
  Forall stateless_rule rules ->
  snd (SecurityManager.scanRules rules fullUrl) = rules.
Proof.
  induction 1 as [|rule rules Hrule _ IH]; [reflexivity|].
  simpl. unfold stateless_rule in Hrule.
  destruct rule as [d [p|] ty desc]; simpl in *; [|reflexivity].
  pose proof (test_stateless p fullUrl Hrule) as Hp.
  destruct (Regex.test p fullUrl) as [hit p']. simpl in Hp. subst p'.
  destruct hit; [reflexivity|].
  destruct (SecurityManager.scanRules rules fullUrl) as [o rest'].
  simpl in *. subst rest'. reflexivity.
Qed.

(** With rules that carry no [g] or [y] flag, [checkUrl] leaves the
    manager as it is. *)
Lemma checkUrl_stateless (sm : SecurityManager.t) (url : string) :
  Forall stateless_rule (SecurityManager.securityRules sm) ->
  snd (SecurityManager.checkUrl sm url) = sm.
Proof.
  intros Hs. apply checkUrl_same_rules.
  unfold SecurityManager.checkUrl.
  destruct (URL_new url) as [urlObj|]; [|reflexivity].
  destruct (SecurityManager.threatDatabase sm !! _); [reflexivity|].
  pose proof (scanRules_stateless _ (JS.toLowerCase url) Hs) as Hr.
  destruct (SecurityManager.scanRules _ _) as [scan rules'].
  simpl in Hr. subst rules'.
  destruct scan; try reflexivity.
  destruct (SecurityManager.checkDomainSpoofing _); [reflexivity|].
  destruct (SecurityManager.checkSuspiciousTLD _); [reflexivity|].
  destruct (SecurityManager.checkUrlStructure _); reflexivity.
Qed.

End CheckUrl.

(** Every rule the constructor installs is without [g] and [y]. *)
Lemma builtin_rules_stateless :
  Forall stateless_rule (SecurityManager.securityRules SecurityManager.new).
Proof. repeat constructor. Qed.

(** All built-in patterns are read without a syntax error. *)
Lemma builtin_patterns_parse :
  Forall
    (fun rule =>
       match SecurityManager.pattern rule with
       | Some p => Regex.parse (Regex.source p) = Some (Regex.pattern p)
       | None => False
       end)
    (SecurityManager.securityRules SecurityManager.new).
Proof. repeat (constructor; [vm_compute; reflexivity|]). constructor. Qed.

Lemma default_filters_parse :
  Forall
    (fun f =>
       match AdBlocker.pattern f with
       | AdBlocker.PRegExp p =>
           Regex.parse (Regex.source p) = Some (Regex.pattern p)
       | _ => True
       end)
    AdBlocker.defaultFilters.
Proof.
  repeat (constructor; [first [exact I | vm_compute; reflexivity]|]).
  constructor.
Qed.

(** ** Claims on classification *)

(** C10. [checkDomainSpoofing] reports spoofing for every host name that
    lacks one of the letters [o], [i], [l], [e]: the substitution is
    applied to the host name itself, so the host name is among its own
    variants; and [checkUrl] returns that verdict for every URL with such a
    host that is not in the threat database and matches no rule. *)
Theorem C10_letter_lacking_host_is_spoofing `{Host} (host : string) :
  lacks_letter host ->
  SecurityManager.checkDomainSpoofing host
  = Some (SecurityManager.spoofingOf (reportedAgainst host))
  /\ forall (sm : SecurityManager.t) (url : string) (urlObj : URL),
       URL_new url = Some urlObj ->
       JS.toLowerCase (hostname urlObj) = host ->
       SecurityManager.threatDatabase sm !! host = None ->
       fst (SecurityManager.scanRules (SecurityManager.securityRules sm)
              (JS.toLowerCase url)) = SecurityManager.NoMatch ->
       fst (SecurityManager.checkUrl sm url)
       = Some (SecurityManager.spoofingOf (reportedAgainst host)).
Proof.
  intros Hl. split; [apply checkDomainSpoofing_lacks; assumption|].
  intros sm url urlObj Hu Hh Hdb Hscan.
  unfold SecurityManager.checkUrl. rewrite Hu, Hh, Hdb.
  destruct (SecurityManager.scanRules _ _) as [scan rules'].
  simpl in Hscan. subst scan.
  rewrite (checkDomainSpoofing_lacks _ Hl). reflexivity.
Qed.

Lemma C10_witness :
  lacks_letter "github.com"
  /\ SecurityManager.checkDomainSpoofing "github.com"
     = Some (SecurityManager.spoofingOf "google.com")
  /\ fst (SecurityManager.checkUrl (H := RefHost.host) SecurityManager.new
            "https://github.com/")
     = Some (SecurityManager.spoofingOf "google.com").
Proof.
  assert (Hl : lacks_letter "github.com")
    by (right; right; left; reflexivity).
  destruct (C10_letter_lacking_host_is_spoofing (H := RefHost.host)
              "github.com" Hl) as [Hstage Hurl].
  split; [exact Hl|]. split; [exact Hstage|].
  apply (Hurl SecurityManager.new "https://github.com/"
           (mkURL "https://github.com/" "github.com"));
    vm_compute; reflexivity.
Defined.

(** C4. The spoofing stage does not classify by variants of the
    legitimate domains: it substitutes in the candidate host name, so
    [github.com], itself on the list of legitimate domains and a variant of
    none of the others, is reported as spoofing of [google.com], just as
    [g00gle.com], which is a variant, is; and
    [checkUrl] on [https://g00gle.com] answers with the executable-download
    rule, whose [.com] alternative matches the end of the URL, before the
    spoofing stage is reached. *)
Theorem C4_spoofing_stage_substitutes_in_hostname :
  In "github.com" SecurityManager.legitimateDomains
  /\ Spec.isSpoofing "github.com" = false
  /\ Spec.isSpoofing "g00gle.com" = true
  /\ SecurityManager.checkDomainSpoofing "github.com"
     = Some (SecurityManager.spoofingOf "google.com")
  /\ SecurityManager.checkDomainSpoofing "g00gle.com"
     = Some (SecurityManager.spoofingOf "google.com")
  /\ fst (SecurityManager.checkUrl (H := RefHost.host) SecurityManager.new
            "https://g00gle.com")
     = Some SecurityManager.malwareExtensionRule
  /\ SecurityManager.type SecurityManager.malwareExtensionRule = "malware".
Proof.
  split; [simpl; tauto|].
  repeat split; vm_compute; reflexivity.
Qed.

(** With the rules the constructor installs, and with any rules without
    the [g] and [y] flags, consecutive calls agree unconditionally. *)
Corollary checkUrl_twice_stateless `{Host} (sm : SecurityManager.t)
    (url : string) :
  Forall stateless_rule (SecurityManager.securityRules sm) ->
  SecurityManager.checkUrl (snd (SecurityManager.checkUrl sm url)) url
  = SecurityManager.checkUrl sm url.
Proof. intros Hs. rewrite (checkUrl_stateless sm url Hs). reflexivity. Qed.

(** C9 (as amended). For a manager none of whose rule patterns carries
    the [g] or [y] flag, [checkUrl] leaves the manager as it is, so a
    second call on the same URL returns the same verdict (and again the
    same manager).  The rules the constructor installs are of this kind,
    and appending such a rule with [addSecurityRule] keeps the rules of
    this kind.  The condition is on the rules before the first call, not
    on what the call does. *)
Theorem C9_checkUrl_idempotent `{Host} (sm : SecurityManager.t)
    (url : string) :
  Forall stateless_rule (SecurityManager.securityRules sm) ->
  snd (SecurityManager.checkUrl sm url) = sm
  /\ SecurityManager.checkUrl (snd (SecurityManager.checkUrl sm url)) url
     = SecurityManager.checkUrl sm url
  /\ Forall stateless_rule (SecurityManager.securityRules SecurityManager.new)
  /\ forall rule : SecurityManager.Threat,
       stateless_rule rule ->
       Forall stateless_rule
         (SecurityManager.securityRules
            (SecurityManager.addSecurityRule sm rule)).
Proof.
  intros Hs. split; [exact (checkUrl_stateless sm url Hs)|].
  split; [exact (checkUrl_twice_stateless sm url Hs)|].
  split; [exact builtin_rules_stateless|].
  intros rule Hrule. cbn [SecurityManager.addSecurityRule
                          SecurityManager.set_securityRules
                          SecurityManager.securityRules].
  apply Forall_app. split; [exact Hs|]. constructor; [exact Hrule|].
  constructor.
Qed.

Lemma C9_witness :
  Forall stateless_rule (SecurityManager.securityRules SecurityManager.new)
  /\ snd (SecurityManager.checkUrl (H := RefHost.host) SecurityManager.new
            "https://g00gle.com/") = SecurityManager.new
  /\ SecurityManager.checkUrl (H := RefHost.host)
       (snd (SecurityManager.checkUrl (H := RefHost.host)
               SecurityManager.new "https://g00gle.com/"))
       "https://g00gle.com/"
     = SecurityManager.checkUrl (H := RefHost.host) SecurityManager.new
         "https://g00gle.com/".
Proof.
  assert (Hs : Forall stateless_rule
                 (SecurityManager.securityRules SecurityManager.new))
    by (repeat constructor).
  destruct (C9_checkUrl_idempotent (H := RefHost.host) SecurityManager.new
              "https://g00gle.com/" Hs) as (Hsame & Htwice & _).
  split; [exact Hs|]. split; [exact Hsame | exact Htwice].
Defined.

(** C9 as stated fails: it is claimed of every manager, and the database,
    the rule list and the whitelist are not touched between the calls
    below, yet the verdicts differ.  A rule whose pattern has the [g]
    flag, added through [addSecurityRule], is matched by the first call,
    which leaves its [lastIndex] behind the match; the second call
    searches from there, misses, and the URL falls through to the
    spoofing stage; the third call matches again. *)
Lemma C9_counterexample :
  let rule := SecurityManager.patternThreat (Regex.literal "evil" "g")
                "malware" "custom" in
  let sm := SecurityManager.addSecurityRule SecurityManager.new rule in
  let url := "https://evil.example/" in
  let first := SecurityManager.checkUrl (H := RefHost.host) sm url in
  let second := SecurityManager.checkUrl (H := RefHost.host) (snd first) url in
  let third := SecurityManager.checkUrl (H := RefHost.host) (snd second) url in
  option_map SecurityManager.type (fst first) = Some "malware"
  /\ option_map SecurityManager.description (fst first) = Some "custom"
  /\ fst second = Some (SecurityManager.spoofingOf "google.com")
  /\ option_map SecurityManager.type (fst second) = Some "spoofing"
  /\ fst second <> fst first
  /\ option_map SecurityManager.type (fst third) = Some "malware"
  /\ SecurityManager.threatDatabase (snd first)
     = SecurityManager.threatDatabase sm
  /\ map SecurityManager.type (SecurityManager.securityRules (snd first))
     = map SecurityManager.type (SecurityManager.securityRules sm).
Proof.
  cbv zeta.
  repeat match goal with |- _ /\ _ => split end;
    try (vm_compute; reflexivity).
  vm_compute. discriminate.
Qed.

(** A rule with the [g] flag is changed by the call that matches it: its
    [lastIndex] moves to the end of the match, where the next search
    starts. *)
Example global_rule_advances :
  let rule := SecurityManager.patternThreat (Regex.literal "evil" "g")
                "malware" "custom" in
  let sm := SecurityManager.addSecurityRule SecurityManager.new rule in
  let sm' := snd (SecurityManager.checkUrl (H := RefHost.host) sm
                    "https://evil.example/") in
  option_map Regex.lastIndex
    (nth_error (SecurityManager.securityRules sm') 7
       ≫= SecurityManager.pattern)
  = Some 12%nat.
Proof. vm_compute. reflexivity. Qed.

(** C5 (as amended). For an input that the [URL] constructor rejects,
    [checkUrl] returns the invalid-URL verdict and leaves the manager as
    it is, while [AdBlocker.shouldBlockUrl] answers [false]: the ad
    blocker does not block what it cannot parse.  At the navigation
    gates: [SecurityManager.handleBeforeNavigation] answers [false] when
    the manager is enabled and [true] when it is disabled (it then does
    not classify at all), [UmbraBrowser.handleBeforeNavigation] answers
    [false] when the [securityEnabled] setting is on and [true]
    otherwise, and [AdBlocker.handleBeforeNavigation] answers [true] in
    every state, without recording a blocked item. *)
Theorem C5_unparsable_url `{Host} (sm : SecurityManager.t) (ab : AdBlocker.t)
    (url : string) :
  URL_new url = None ->
  SecurityManager.checkUrl sm url = (Some SecurityManager.invalidUrl, sm)
  /\ SecurityManager.type SecurityManager.invalidUrl = "invalid"
  /\ AdBlocker.shouldBlockUrl ab url = (false, ab)
  /\ forall (a : Umbra.App) (tabId : nat),
       let data := Umbra.mkNavData url tabId in
       fst (Umbra.security_handleBeforeNavigation data a)
       = Returned
           (Umbra.JSBool
              (negb (SecurityManager.isEnabled (Umbra.securityManager a))))
       /\ fst (Umbra.handleBeforeNavigation data a)
          = Returned
              (Umbra.JSBool (negb (Umbra.securityEnabled (Umbra.settings a))))
       /\ Umbra.adblock_handleBeforeNavigation data a
          = (Returned (Umbra.JSBool true), a).
Proof.
  intros Hu.
  assert (forall sm, SecurityManager.checkUrl sm url
                     = (Some SecurityManager.invalidUrl, sm)) as Hcheck
    by (intros sm0; unfold SecurityManager.checkUrl; rewrite Hu;
        reflexivity).
  assert (forall ab, AdBlocker.shouldBlockUrl ab url = (false, ab)) as Hblock
    by (intros ab0; unfold AdBlocker.shouldBlockUrl; rewrite Hu;
        reflexivity).
  split; [apply Hcheck|]. split; [reflexivity|]. split; [apply Hblock|].
  intros a tabId. cbn zeta. split; [|split].
  - unfold Umbra.security_handleBeforeNavigation. cbn [Umbra.url].
    destruct (SecurityManager.isEnabled (Umbra.securityManager a));
      [|reflexivity].
    cbn [negb]. rewrite Hcheck. reflexivity.
  - unfold Umbra.handleBeforeNavigation. cbn [Umbra.url].
    destruct (Umbra.securityEnabled (Umbra.settings a)); [|reflexivity].
    rewrite Hcheck. reflexivity.
  - unfold Umbra.adblock_handleBeforeNavigation. cbn [Umbra.url].
    destruct (AdBlocker.isEnabled (Umbra.adBlocker a)); [|reflexivity].
    cbn [negb]. rewrite Hblock. destruct a. reflexivity.
Qed.

Lemma C5_witness :
  URL_new (Host := RefHost.host) "not a url" = None
  /\ SecurityManager.checkUrl (H := RefHost.host) SecurityManager.new
       "not a url"
     = (Some SecurityManager.invalidUrl, SecurityManager.new)
  /\ AdBlocker.shouldBlockUrl (H := RefHost.host) AdBlocker.new "not a url"
     = (false, AdBlocker.new)
  /\ fst (Umbra.security_handleBeforeNavigation (H := RefHost.host)
            (Umbra.mkNavData "not a url" 1) Umbra.initial)
     = Returned (Umbra.JSBool false)
  /\ Umbra.adblock_handleBeforeNavigation (H := RefHost.host)
       (Umbra.mkNavData "not a url" 1) Umbra.initial
     = (Returned (Umbra.JSBool true), Umbra.initial).
Proof.
  assert (Hu : URL_new (Host := RefHost.host) "not a url" = None)
    by reflexivity.
  destruct (C5_unparsable_url (H := RefHost.host) SecurityManager.new
              AdBlocker.new "not a url" Hu) as (Hc & _ & Hb & Hgates).
  destruct (Hgates Umbra.initial 1%nat) as (Hsec & _ & Had).
  split; [exact Hu|]. split; [exact Hc|]. split; [exact Hb|].
  split; [exact Hsec | exact Had].
Defined.

(** C5 as stated fails: an input that does not parse is not blocked by
    the ad blocker's classification, whose navigation gate lets it
    through. *)
Lemma C5_counterexample :
  URL_new (Host := RefHost.host) "not a url" = None
  /\ fst (AdBlocker.shouldBlockUrl (H := RefHost.host) AdBlocker.new
            "not a url") = false
  /\ fst (Umbra.adblock_handleBeforeNavigation (H := RefHost.host)
            (Umbra.mkNavData "not a url" 1) Umbra.initial)
     = Returned (Umbra.JSBool true).
Proof. repeat split. Qed.

(** ** Whitelists *)

(** C2 (as amended). A URL whose host name is in the ad blocker's
    whitelist is not blocked by [shouldBlockUrl], whatever the filter lists
    and the custom filters hold, and no filter is even tried.  The security
    manager has no whitelist to consult: [whitelistDomain] deletes the
    entry of the domain from the threat database and leaves the rules as
    they are. *)
Theorem C2_whitelist_precedence `{Host} (ab : AdBlocker.t) (url : string)
    (urlObj : URL) :
  URL_new url = Some urlObj ->
  In (JS.toLowerCase (hostname urlObj)) (AdBlocker.whitelist ab) ->
  AdBlocker.shouldBlockUrl ab url = (false, ab)
  /\ forall (a : Umbra.App) (domain : string),
       let sm := Umbra.securityManager (Umbra.whitelistDomain domain a) in
       SecurityManager.threatDatabase sm !! domain = None
       /\ SecurityManager.securityRules sm
          = SecurityManager.securityRules (Umbra.securityManager a).
Proof.
  intros Hu Hw. split.
  - unfold AdBlocker.shouldBlockUrl. rewrite Hu.
    apply array_includes_In in Hw. rewrite Hw. reflexivity.
  - intros a domain. simpl. split; [apply lookup_delete_eq | reflexivity].
Qed.

Lemma C2_witness :
  let a := Umbra.addToWhitelist "CDN.DoubleClick.net" Umbra.initial in
  AdBlocker.shouldBlockUrl (H := RefHost.host) (Umbra.adBlocker a)
    "https://cdn.doubleclick.net/x"
  = (false, Umbra.adBlocker a)
  /\ fst (AdBlocker.shouldBlockUrl (H := RefHost.host)
            (Umbra.adBlocker Umbra.initial) "https://cdn.doubleclick.net/x")
     = true.
Proof.
  split.
  - apply (C2_whitelist_precedence (H := RefHost.host) _
             "https://cdn.doubleclick.net/x"
             (mkURL "https://cdn.doubleclick.net/x" "cdn.doubleclick.net")).
    + reflexivity.
    + simpl. left. reflexivity.
  - vm_compute. reflexivity.
Defined.

(** C2 as stated fails for [checkUrl]: with [g00gle.com] on the ad
    blocker's whitelist and whitelisted in the security manager as well,
    and with [secure-paypal-verification.com] on the ad blocker's
    whitelist, both URLs are still classified as threats and the security
    manager's gate answers [false]. *)
Lemma C2_counterexample :
  let a := Umbra.whitelistDomain "g00gle.com"
             (Umbra.addToWhitelist "g00gle.com"
                (Umbra.addToWhitelist "secure-paypal-verification.com"
                   Umbra.initial)) in
  In "g00gle.com" (AdBlocker.whitelist (Umbra.adBlocker a))
  /\ In "secure-paypal-verification.com"
       (AdBlocker.whitelist (Umbra.adBlocker a))
  /\ fst (SecurityManager.checkUrl (H := RefHost.host)
            (Umbra.securityManager a) "https://g00gle.com/")
     = Some (SecurityManager.spoofingOf "google.com")
  /\ option_map SecurityManager.type
       (fst (SecurityManager.checkUrl (H := RefHost.host)
               (Umbra.securityManager a)
               "https://secure-paypal-verification.com/login"))
     = Some "phishing"
  /\ fst (Umbra.security_handleBeforeNavigation (H := RefHost.host)
            (Umbra.mkNavData "https://g00gle.com/" 1) a)
     = Returned (Umbra.JSBool false).
Proof.
  cbv zeta. split; [simpl; tauto|]. split; [simpl; tauto|].
  repeat split; vm_compute; reflexivity.
Qed.

(** ** Custom filters *)

(** C7. [addCustomFilter] with a pattern the [RegExp] constructor rejects
    throws at once (the constructor's [SyntaxError]): the custom filters
    are as before, nothing is written to storage, and nothing else of the
    application has changed. *)
Theorem C7_invalid_pattern_rejected `{Host} (pattern ty description : string)
    (a : Umbra.App) :
  RegExp_new pattern "i" = None ->
  let '(outcome, a') := Umbra.addCustomFilter pattern ty description a in
  outcome = Thrown "SyntaxError"
  /\ AdBlocker.customFilters (Umbra.adBlocker a')
     = AdBlocker.customFilters (Umbra.adBlocker a)
  /\ Umbra.localStorage a' = Umbra.localStorage a
  /\ a' = a.
Proof.
  intros Hr. unfold Umbra.addCustomFilter. rewrite Hr. repeat split.
Qed.

Lemma C7_witness :
  RegExp_new (Host := RefHost.host) "ads(" "i" = None
  /\ Umbra.addCustomFilter (H := RefHost.host) "ads(" "url" "broken"
       Umbra.initial
     = (Thrown "SyntaxError", Umbra.initial).
Proof.
  assert (Hr : RegExp_new (Host := RefHost.host) "ads(" "i" = None)
    by reflexivity.
  split; [exact Hr|].
  pose proof (C7_invalid_pattern_rejected (H := RefHost.host)
                "ads(" "url" "broken" Umbra.initial Hr) as Hc.
  destruct (Umbra.addCustomFilter (H := RefHost.host) "ads(" "url" "broken"
              Umbra.initial) as [outcome a'].
  destruct Hc as (-> & _ & _ & ->). reflexivity.
Defined.

(** A pattern that compiles is registered and persisted. *)
Example addCustomFilter_valid :
  let '(outcome, a') :=
    Umbra.addCustomFilter (H := RefHost.host) "ads\d+" "url" "numbered"
      Umbra.initial in
  outcome = Returned tt
  /\ length (AdBlocker.customFilters (Umbra.adBlocker a')) = 1%nat
  /\ Umbra.localStorage a' !! "umbra-custom-filters"
     = Some (Storage.Json (Storage.JArr [
         Storage.JObj [("pattern", Storage.JObj []);
                       ("type", Storage.JStr "url");
                       ("description", Storage.JStr "numbered");
                       ("custom", Storage.JBool true)]])).
Proof. vm_compute. repeat split. Qed.

(** ** The navigation gate *)

(** [emit] gives [undefined] back, whatever the listeners return. *)
Lemma emit_undefined {D : Type} (listeners : list (Umbra.Listener D))
    (data : D) (a : Umbra.App) :
  fst (Umbra.emit listeners data a) = Umbra.undefined.
Proof. reflexivity. Qed.

(** So [navigate] never takes its early return after [beforeNavigate]: for
    every non-empty input the load is scheduled. *)
Lemma navigate_schedules_load `{Host} (url : string) (a : Umbra.App) :
  url <> "" ->
  exists a',
    Umbra.navigate url a
    = Umbra.setTimeout
        (Umbra.LoadUrl (Umbra.normalize url) (default 1 (Umbra.currentTab a)))
        500 (Umbra.showLoading a').
Proof.
  intros Hne. unfold Umbra.navigate.
  destruct (String.eqb url "") eqn:E; [apply String.eqb_eq in E; contradiction|].
  eexists. reflexivity.
Qed.

(** The security manager's gate itself answers [false] for every URL that
    [checkUrl] flags. *)
Lemma security_gate_answers_false `{Host} (data : Umbra.NavData)
    (a : Umbra.App) (threat : SecurityManager.Threat) :
  SecurityManager.isEnabled (Umbra.securityManager a) = true ->
  fst (SecurityManager.checkUrl (Umbra.securityManager a) (Umbra.url data))
  = Some threat ->
  fst (Umbra.security_handleBeforeNavigation data a)
  = Returned (Umbra.JSBool false).
Proof.
  intros He Ht. unfold Umbra.security_handleBeforeNavigation. rewrite He.
  destruct (SecurityManager.checkUrl _ _) as [t sm]. simpl in *. subst t.
  reflexivity.
Qed.

(** [loadUrl] points the frame at the URL whenever the page has one. *)
Lemma loadUrl_sets_frame (url : string) (tabId : nat) (a : Umbra.App)
    (f : Umbra.Frame) :
  Umbra.siteFrame (Umbra.chrome a) = Some f ->
  Umbra.siteFrame (Umbra.chrome (Umbra.loadUrl url tabId a))
  = Some (Umbra.mkFrame url false).
Proof.
  intros Hf. unfold Umbra.loadUrl. rewrite Hf.
  unfold Umbra.emit, Umbra.on_navigate, Umbra.privacy_handleNavigation,
    Umbra.adblock_handleNavigation, Umbra.handleNavigation.
  cbn [fold_left snd].
  repeat match goal with
         | |- context [if ?c then _ else _] => destruct c
         end; reflexivity.
Qed.

(** C3. The claim does not hold of the code: for [https://g00gle.com/],
    which [checkUrl] flags as spoofing, the security manager's gate and the
    browser's own gate both answer [false], but [emit] returns
    [undefined], so [navigate] goes on, schedules [loadUrl], and the frame
    is pointed at the URL with the blocked-page overlay hidden again. *)
Theorem C3_flagged_navigation_is_loaded :
  let url := "https://g00gle.com/" in
  let data := Umbra.mkNavData url 1 in
  let a := Umbra.navigate (H := RefHost.host) url Umbra.initial in
  let loaded := Umbra.loadUrl url 1 a in
  fst (SecurityManager.checkUrl (H := RefHost.host) SecurityManager.new url)
  = Some (SecurityManager.spoofingOf "google.com")
  /\ fst (Umbra.security_handleBeforeNavigation (H := RefHost.host) data
            Umbra.initial) = Returned (Umbra.JSBool false)
  /\ fst (Umbra.handleBeforeNavigation (H := RefHost.host) data
            Umbra.initial) = Returned (Umbra.JSBool false)
  /\ fst (Umbra.emit (Umbra.on_beforeNavigate (H := RefHost.host)) data
            Umbra.initial) = Umbra.undefined
  /\ Umbra.timers a = [(500%nat, Umbra.LoadUrl url 1)]
  /\ Umbra.siteFrame (Umbra.chrome loaded) = Some (Umbra.mkFrame url false)
  /\ Umbra.blockedOverlay (Umbra.chrome loaded)
     = Some (Umbra.mkOverlay "google.comのドメインスプーフィング" true).
Proof. cbv zeta. repeat split; vm_compute; reflexivity. Qed.

(** ** Private mode and persistence *)

Lemma logSecurityEvent_storage_private (ty details : string) (now : nat)
    (w : Scripts.Window) :
  Scripts.browser_persists w = false ->
  Scripts.localStorage (snd (Scripts.logSecurityEvent ty details now w))
  = Scripts.localStorage w.
Proof.
  intros Hp. unfold Scripts.logSecurityEvent.
  destruct (Storage.getArray _ _); [|reflexivity].
  rewrite Hp. simpl. unfold Scripts.updateSecurityStats.
  destruct (Scripts.statusText w); [|reflexivity].
  destruct (JS.includes _ _); reflexivity.
Qed.

Lemma logBlockedRequest_storage_private (ty url : string) (now : nat)
    (w : Scripts.Window) :
  Scripts.privateMode (Scripts.privacyManager w) = true ->
  Scripts.localStorage (snd (Scripts.logBlockedRequest ty url now w))
  = Scripts.localStorage w.
Proof.
  intros Hp. unfold Scripts.logBlockedRequest.
  destruct (Storage.getArray _ _); [|reflexivity].
  rewrite Hp. reflexivity.
Qed.

Lemma private_browser_does_not_persist (w : Scripts.Window)
    (b : Scripts.Browser) :
  Scripts.umbraBrowser w = Some b -> Scripts.isPrivateMode b = true ->
  Scripts.browser_persists w = false.
Proof. intros Hb Hp. unfold Scripts.browser_persists. rewrite Hb, Hp. reflexivity. Qed.

(** C1 (as amended). In the [scripts/] tree nothing is written to
    [localStorage] in private mode: [logSecurityEvent],
    [saveSecuritySettings] and the browser's [saveSettings] are gated on
    [umbraBrowser.isPrivateMode], [logBlockedRequest] and
    [savePrivacySettings] on the privacy manager's [privateMode]; the
    counter of blocked ads still goes up.  The browser of [js/core] is not
    gated: its [saveSettings], which [handlePrivacyModeToggle] calls,
    writes [umbra-settings] in either mode. *)
Theorem C1_private_mode_persistence (w : Scripts.Window)
    (b : Scripts.Browser) (ty details url : string) (now id : nat)
    (element : Dom.Element) :
  Scripts.umbraBrowser w = Some b ->
  Scripts.isPrivateMode b = true ->
  Scripts.privateMode (Scripts.privacyManager w) = true ->
  Dom.nodes (Scripts.document w) !! id = Some element ->
  Scripts.localStorage (snd (Scripts.logSecurityEvent ty details now w))
  = Scripts.localStorage w
  /\ Scripts.localStorage (snd (Scripts.logBlockedRequest ty url now w))
     = Scripts.localStorage w
  /\ Scripts.localStorage (Scripts.saveSecuritySettings w)
     = Scripts.localStorage w
  /\ Scripts.localStorage (Scripts.savePrivacySettings w)
     = Scripts.localStorage w
  /\ Scripts.localStorage (Scripts.saveSettings w) = Scripts.localStorage w
  /\ (let w' := snd (Scripts.blockAd id now w) in
      Scripts.localStorage w' = Scripts.localStorage w
      /\ Scripts.blockedAds (Scripts.securityManager w')
         = S (Scripts.blockedAds (Scripts.securityManager w)))
  /\ forall (a : Umbra.App) (enabled : bool),
       Umbra.localStorage (Umbra.saveSettings a) !! "umbra-settings"
       = Some (Storage.Json (Umbra.settings_json (Umbra.settings a)))
       /\ Umbra.localStorage (Umbra.handlePrivacyModeToggle enabled a)
            !! "umbra-settings"
          = Some (Storage.Json
                    (Umbra.settings_json
                       (Umbra.settings (Umbra.with_privacy enabled a)))).
Proof.
  intros Hb Hp Hpm He.
  pose proof (private_browser_does_not_persist w b Hb Hp) as Hnp.
  split; [apply logSecurityEvent_storage_private; assumption|].
  split; [apply logBlockedRequest_storage_private; assumption|].
  split; [unfold Scripts.saveSecuritySettings; rewrite Hnp; reflexivity|].
  split; [unfold Scripts.savePrivacySettings; rewrite Hpm; reflexivity|].
  split; [unfold Scripts.saveSettings; rewrite Hb, Hp; reflexivity|].
  split.
  - unfold Scripts.blockAd. rewrite He. cbv zeta. split.
    + rewrite logSecurityEvent_storage_private; [reflexivity|].
      unfold Scripts.browser_persists in *. simpl. exact Hnp.
    + unfold Scripts.logSecurityEvent.
      destruct (Storage.getArray _ _); [|reflexivity].
      match goal with
      | |- context [if ?c then _ else _] => destruct c
      end; simpl; unfold Scripts.updateSecurityStats; simpl;
        destruct (Scripts.statusText w); try reflexivity;
        destruct (JS.includes _ _); reflexivity.
  - intros a enabled. split.
    + unfold Umbra.saveSettings. simpl. apply lookup_insert_eq.
    + unfold Umbra.handlePrivacyModeToggle.
      destruct enabled; simpl; apply lookup_insert_eq.
Qed.

Lemma C1_witness :
  let w := Examples.privateWindow in
  Scripts.localStorage
    (snd (Scripts.logSecurityEvent "ad" "inline ad" 1 w)) = ∅
  /\ Scripts.localStorage
       (snd (Scripts.logBlockedRequest "tracking" "https://t.example/p" 1 w))
     = ∅
  /\ Scripts.blockedAds (Scripts.securityManager (snd (Scripts.blockAd 0 1 w)))
     = 1%nat.
Proof.
  pose proof (C1_private_mode_persistence Examples.privateWindow
                (Scripts.mkBrowser true "light-theme" true true)
                "ad" "inline ad" "https://t.example/p" 1 0 Examples.banner
                eq_refl eq_refl eq_refl eq_refl)
    as (Hlog & Hreq & _ & _ & _ & (_ & Hcount) & _).
  cbv zeta. split; [exact Hlog|]. split; [exact Hreq | exact Hcount].
Defined.

(** C1 as stated fails for the settings of the [js/core] browser: the
    application starts in privacy mode with empty storage, and both a plain
    [saveSettings] and switching privacy mode on leave [umbra-settings] in
    [localStorage]. *)
Lemma C1_counterexample :
  Umbra.isPrivacyMode Umbra.initial = true
  /\ Umbra.localStorage Umbra.initial = ∅
  /\ Umbra.localStorage (Umbra.saveSettings Umbra.initial)
     <> Umbra.localStorage Umbra.initial
  /\ Umbra.isPrivacyMode (Umbra.handlePrivacyModeToggle true Umbra.initial)
     = true
  /\ Umbra.localStorage (Umbra.handlePrivacyModeToggle true Umbra.initial)
     <> Umbra.localStorage Umbra.initial.
Proof.
  split; [reflexivity|]. split; [reflexivity|].
  split; [|split; [reflexivity|]].
  - intros Heq. apply (f_equal (fun ls => ls !! "umbra-settings")) in Heq.
    vm_compute in Heq. discriminate Heq.
  - intros Heq. apply (f_equal (fun ls => ls !! "umbra-settings")) in Heq.
    vm_compute in Heq. discriminate Heq.
Qed.

(** The two gates of the [scripts/] tree read different flags:
    [logBlockedRequest] looks at the privacy manager's [privateMode], not
    at [umbraBrowser.isPrivateMode]. *)
Example blocked_request_follows_privacy_manager_flag :
  let w := Examples.browserPrivateWindow in
  option_map Scripts.isPrivateMode (Scripts.umbraBrowser w) = Some true
  /\ Scripts.privateMode (Scripts.privacyManager w) = false
  /\ Scripts.localStorage
       (snd (Scripts.logSecurityEvent "ad" "inline ad" 1 w)) = ∅
  /\ storedLog "umbraBlockedRequests"
       (Scripts.localStorage
          (snd (Scripts.logBlockedRequest "tracking" "https://t.example/p" 1
                  w)))
     = [Scripts.blockedRequest "tracking" "https://t.example/p" 1].
Proof. repeat split; vm_compute; reflexivity. Qed.

(** ** The bounded logs *)

Lemma keepLast_drop {A : Type} (cap : nat) (l : list A) :
  Scripts.keepLast cap l = drop (length l - cap) l.
Proof.
  unfold Scripts.keepLast. destruct (cap <? length l)%nat eqn:E.
  - reflexivity.
  - apply Nat.ltb_ge in E. replace (length l - cap)%nat with 0%nat by lia.
    reflexivity.
Qed.

Lemma keepLast_app {A : Type} (cap : nat) (l x : list A) :
  Scripts.keepLast cap (Scripts.keepLast cap l ++ x)
  = Scripts.keepLast cap (l ++ x).
Proof.
  rewrite !keepLast_drop, !length_app, length_drop.
  destruct (Nat.le_gt_cases (length l) cap) as [Hle|Hgt].
  - replace (length l - cap)%nat with 0%nat by lia. rewrite drop_0.
    f_equal. lia.
  - destruct (Nat.le_gt_cases (length x) cap) as [Hx|Hx].
    + rewrite drop_app_le by (rewrite length_drop; lia).
      rewrite drop_drop.
      rewrite (drop_app_le l x) by lia.
      f_equal. f_equal. lia.
    + rewrite drop_app_ge by (rewrite length_drop; lia).
      rewrite (drop_app_ge l x) by lia.
      rewrite length_drop. f_equal. lia.
Qed.

Lemma runLog_keepLast (cap : nat) (entries log : list Storage.JSON) :
  entries <> [] ->
  runLog cap entries log = Scripts.keepLast cap (log ++ entries).
Proof.
  revert log. induction entries as [|e rest IH]; [congruence|].
  intros log _. simpl. destruct rest as [|e' rest'].
  - reflexivity.
  - rewrite IH by congruence. rewrite keepLast_app.
    rewrite <- app_assoc. reflexivity.
Qed.

Lemma keepLast_exact (cap k : nat) (log entries : list Storage.JSON) :
  length entries = (cap + k)%nat ->
  Scripts.keepLast cap (log ++ entries) = drop k entries.
Proof.
  intros Hlen. rewrite keepLast_drop, length_app, Hlen.
  replace (length log + (cap + k) - cap)%nat with (length log + k)%nat by lia.
  rewrite drop_app_ge by lia. f_equal. lia.
Qed.

Lemma getArray_setItem (key : string) (l : list Storage.JSON)
    (ls : Storage.t) :
  Storage.getArray key (Storage.setItem key (Storage.JArr l) ls) = Returned l.
Proof.
  unfold Storage.getArray, Storage.setItem. rewrite lookup_insert_eq.
  reflexivity.
Qed.

Lemma updateSecurityStats_frame (w : Scripts.Window) :
  Scripts.localStorage (Scripts.updateSecurityStats w) = Scripts.localStorage w
  /\ Scripts.umbraBrowser (Scripts.updateSecurityStats w)
     = Scripts.umbraBrowser w
  /\ Scripts.location_href (Scripts.updateSecurityStats w)
     = Scripts.location_href w.
Proof.
  unfold Scripts.updateSecurityStats.
  destruct (Scripts.statusText w); [|repeat split].
  destruct (JS.includes _ _); repeat split.
Qed.

(** One record call in normal mode. *)
Lemma logSecurityEvent_normal (ty details : string) (now : nat)
    (w : Scripts.Window) (l : list Storage.JSON) :
  Scripts.browser_persists w = true ->
  Storage.getArray "umbraSecurityLog" (Scripts.localStorage w) = Returned l ->
  let w' := snd (Scripts.logSecurityEvent ty details now w) in
  Scripts.localStorage w'
  = Storage.setItem "umbraSecurityLog"
      (Storage.JArr
         (Scripts.keepLast 1000 (l ++ [Scripts.securityEvent w ty details now])))
      (Scripts.localStorage w)
  /\ Scripts.umbraBrowser w' = Scripts.umbraBrowser w
  /\ Scripts.location_href w' = Scripts.location_href w.
Proof.
  intros Hp Hl. unfold Scripts.logSecurityEvent. rewrite Hl, Hp. simpl.
  destruct (updateSecurityStats_frame
              (Scripts.with_localStorage
                 (Storage.setItem "umbraSecurityLog"
                    (Storage.JArr
                       (Scripts.keepLast 1000
                          (l ++ [Scripts.securityEvent w ty details now])))
                    (Scripts.localStorage w)) w)) as (H1 & H2 & H3).
  rewrite H1, H2, H3. repeat split.
Qed.

Lemma logSecurityEvents_normal (events : list (string * string * nat))
    (w : Scripts.Window) (l : list Storage.JSON) :
  Scripts.browser_persists w = true ->
  Storage.getArray "umbraSecurityLog" (Scripts.localStorage w) = Returned l ->
  Storage.getArray "umbraSecurityLog"
    (Scripts.localStorage (logSecurityEvents events w))
  = Returned
      (runLog 1000
         (map (fun '(ty, details, now) =>
                 Scripts.securityEvent w ty details now) events) l).
Proof.
  unfold logSecurityEvents. revert w l.
  induction events as [|[[ty details] now] rest IH]; intros w l Hp Hl.
  - exact Hl.
  - simpl.
    destruct (logSecurityEvent_normal ty details now w l Hp Hl)
      as (Hs & Hb & Hh).
    set (w' := snd (Scripts.logSecurityEvent ty details now w)) in *.
    assert (Hp' : Scripts.browser_persists w' = true)
      by (unfold Scripts.browser_persists in *; rewrite Hb; exact Hp).
    rewrite (IH w' (Scripts.keepLast 1000
                      (l ++ [Scripts.securityEvent w ty details now])) Hp')
      by (rewrite Hs; apply getArray_setItem).
    f_equal. f_equal. apply map_ext. intros [[ty' d'] n'].
    unfold Scripts.securityEvent. rewrite Hh. reflexivity.
Qed.

Lemma logBlockedRequest_normal (ty url : string) (now : nat)
    (w : Scripts.Window) (l : list Storage.JSON) :
  Scripts.privateMode (Scripts.privacyManager w) = false ->
  Storage.getArray "umbraBlockedRequests" (Scripts.localStorage w)
  = Returned l ->
  snd (Scripts.logBlockedRequest ty url now w)
  = Scripts.with_localStorage
      (Storage.setItem "umbraBlockedRequests"
         (Storage.JArr
            (Scripts.keepLast 100 (l ++ [Scripts.blockedRequest ty url now])))
         (Scripts.localStorage w)) w.
Proof.
  intros Hp Hl. unfold Scripts.logBlockedRequest. rewrite Hl, Hp. reflexivity.
Qed.

Lemma logBlockedRequests_normal (events : list (string * string * nat))
    (w : Scripts.Window) (l : list Storage.JSON) :
  Scripts.privateMode (Scripts.privacyManager w) = false ->
  Storage.getArray "umbraBlockedRequests" (Scripts.localStorage w)
  = Returned l ->
  Storage.getArray "umbraBlockedRequests"
    (Scripts.localStorage (logBlockedRequests events w))
  = Returned
      (runLog 100
         (map (fun '(ty, url, now) => Scripts.blockedRequest ty url now)
            events) l).
Proof.
  unfold logBlockedRequests. revert w l.
  induction events as [|[[ty url] now] rest IH]; intros w l Hp Hl.
  - exact Hl.
  - simpl. rewrite (logBlockedRequest_normal ty url now w l Hp Hl).
    apply IH; [exact Hp | apply getArray_setItem].
Qed.

(** After at least one insertion the stored item is the array itself. *)
Lemma storedLog_getArray (key : string) (ls : Storage.t)
    (l : list Storage.JSON) :
  Storage.getArray key ls = Returned l -> l <> [] -> storedLog key ls = l.
Proof.
  unfold Storage.getArray, storedLog.
  destruct (ls !! key) as [[j|s]|].
  - destruct j; try discriminate. intros [= ->] _. reflexivity.
  - destruct (String.eqb s ""); [|discriminate]. intros [= <-]. congruence.
  - intros [= <-]. congruence.
Qed.

(** C6 (as amended). In normal mode each log is bounded with oldest-first
    eviction: after [cap + k] record calls, on storage where the log is
    absent or an array, the security log holds 1000 entries and the
    blocked-requests log 100, and they are the last [cap] insertions in
    insertion order. *)
Theorem C6_logs_keep_most_recent (w : Scripts.Window) (b : Scripts.Browser)
    (k1 k2 : nat) (secEvents reqEvents : list (string * string * nat))
    (l1 l2 : list Storage.JSON) :
  Scripts.umbraBrowser w = Some b ->
  Scripts.isPrivateMode b = false ->
  Scripts.privateMode (Scripts.privacyManager w) = false ->
  Storage.getArray "umbraSecurityLog" (Scripts.localStorage w) = Returned l1 ->
  Storage.getArray "umbraBlockedRequests" (Scripts.localStorage w)
  = Returned l2 ->
  length secEvents = (1000 + k1)%nat ->
  length reqEvents = (100 + k2)%nat ->
  let securityLog :=
    storedLog "umbraSecurityLog"
      (Scripts.localStorage (logSecurityEvents secEvents w)) in
  let blockedRequests :=
    storedLog "umbraBlockedRequests"
      (Scripts.localStorage (logBlockedRequests reqEvents w)) in
  length securityLog = 1000%nat
  /\ securityLog
     = drop k1 (map (fun '(ty, details, now) =>
                       Scripts.securityEvent w ty details now) secEvents)
  /\ length blockedRequests = 100%nat
  /\ blockedRequests
     = drop k2 (map (fun '(ty, url, now) =>
                       Scripts.blockedRequest ty url now) reqEvents).
Proof.
  intros Hb Hn Hpm Hl1 Hl2 Hlen1 Hlen2.
  assert (Hp : Scripts.browser_persists w = true)
    by (unfold Scripts.browser_persists; rewrite Hb, Hn; reflexivity).
  pose proof (logSecurityEvents_normal secEvents w l1 Hp Hl1) as H1.
  pose proof (logBlockedRequests_normal reqEvents w l2 Hpm Hl2) as H2.
  set (ev1 := map _ secEvents) in *. set (ev2 := map _ reqEvents) in *.
  assert (Hev1 : length ev1 = (1000 + k1)%nat)
    by (subst ev1; rewrite length_map; exact Hlen1).
  assert (Hev2 : length ev2 = (100 + k2)%nat)
    by (subst ev2; rewrite length_map; exact Hlen2).
  rewrite runLog_keepLast in H1 by (destruct ev1; [discriminate|congruence]).
  rewrite runLog_keepLast in H2 by (destruct ev2; [discriminate|congruence]).
  rewrite (keepLast_exact 1000 k1 l1 ev1 Hev1) in H1.
  rewrite (keepLast_exact 100 k2 l2 ev2 Hev2) in H2.
  assert (Hd1 : length (drop k1 ev1) = 1000%nat)
    by (rewrite length_drop; lia).
  assert (Hd2 : length (drop k2 ev2) = 100%nat)
    by (rewrite length_drop; lia).
  cbv zeta.
  rewrite (storedLog_getArray _ _ _ H1)
    by (destruct (drop k1 ev1); [discriminate|congruence]).
  rewrite (storedLog_getArray _ _ _ H2)
    by (destruct (drop k2 ev2); [discriminate|congruence]).
  repeat split; assumption.
Qed.

Lemma C6_witness :
  length
    (storedLog "umbraSecurityLog"
       (Scripts.localStorage
          (logSecurityEvents (Examples.adEvents 1001) Examples.normalWindow)))
  = 1000%nat
  /\ length
       (storedLog "umbraBlockedRequests"
          (Scripts.localStorage
             (logBlockedRequests (Examples.adEvents 101)
                Examples.normalWindow)))
     = 100%nat.
Proof.
  pose proof (C6_logs_keep_most_recent Examples.normalWindow
                (Scripts.mkBrowser false "light-theme" true true) 1 1
                (Examples.adEvents 1001) (Examples.adEvents 101) [] []
                eq_refl eq_refl eq_refl eq_refl eq_refl) as Hc.
  assert (H1 : length (Examples.adEvents 1001) = (1000 + 1)%nat)
    by (vm_compute; reflexivity).
  assert (H2 : length (Examples.adEvents 101) = (100 + 1)%nat)
    by (vm_compute; reflexivity).
  destruct (Hc H1 H2) as (Hs & _ & Hr & _).
  split; [exact Hs | exact Hr].
Defined.

Lemma logSecurityEvent_frame (ty details : string) (now : nat)
    (w : Scripts.Window) :
  let w' := snd (Scripts.logSecurityEvent ty details now w) in
  Scripts.umbraBrowser w' = Scripts.umbraBrowser w
  /\ Scripts.securityManager w' = Scripts.securityManager w
  /\ Scripts.document w' = Scripts.document w.
Proof.
  unfold Scripts.logSecurityEvent.
  destruct (Storage.getArray _ _); [|repeat split].
  destruct (Scripts.browser_persists w); simpl;
    unfold Scripts.updateSecurityStats; simpl;
    destruct (Scripts.statusText w); try (repeat split; fail);
    destruct (JS.includes _ _); repeat split.
Qed.

Lemma logSecurityEvents_private (events : list (string * string * nat))
    (w : Scripts.Window) :
  Scripts.browser_persists w = false ->
  Scripts.localStorage (logSecurityEvents events w) = Scripts.localStorage w.
Proof.
  unfold logSecurityEvents. revert w.
  induction events as [|[[ty details] now] rest IH]; intros w Hp;
    [reflexivity|].
  simpl. rewrite IH.
  - apply logSecurityEvent_storage_private. exact Hp.
  - destruct (logSecurityEvent_frame ty details now w) as (Hb & _ & _).
    unfold Scripts.browser_persists in *. rewrite Hb. exact Hp.
Qed.

(** C6 as stated fails in private mode: 1001 record calls leave the
    security log without any entry. *)
Lemma C6_counterexample :
  length (Examples.adEvents 1001) = 1001%nat
  /\ storedLog "umbraSecurityLog"
       (Scripts.localStorage
          (logSecurityEvents (Examples.adEvents 1001) Examples.privateWindow))
     = [].
Proof.
  split; [vm_compute; reflexivity|].
  rewrite logSecurityEvents_private by reflexivity. reflexivity.
Qed.

(** ** Hidden advertisements *)

Lemma set_style_lookup_eq (p v : string) (e : Dom.Element) :
  v <> "" -> Dom.style (Dom.set_style p v e) !! p = Some v.
Proof.
  intros Hv. unfold Dom.set_style; cbn [Dom.style].
  destruct (String.eqb v "") eqn:E; [apply String.eqb_eq in E; contradiction|].
  apply lookup_insert_eq.
Qed.

Lemma set_style_lookup_ne (p q v : string) (e : Dom.Element) :
  q <> p -> Dom.style (Dom.set_style q v e) !! p = Dom.style e !! p.
Proof.
  intros Hne. unfold Dom.set_style; cbn [Dom.style].
  destruct (String.eqb v "");
    [apply lookup_delete_ne | apply lookup_insert_ne]; exact Hne.
Qed.

(** What [toggleAdBlocker] does to each hidden ad. *)
Lemma restored_element (e : Dom.Element) :
  let e' := Dom.removeAttribute "data-umbra-blocked"
              (Dom.set_style "display" "" e) in
  Dom.style e' !! "display" = None
  /\ Dom.attributes e' !! "data-umbra-blocked" = None.
Proof. simpl. split; apply lookup_delete_eq. Qed.

Lemma restore_fold_tree (ids : list nat) (d : Dom.Document) :
  Dom.tree
    (fold_left
       (fun d ad =>
          Dom.update ad
            (fun e => Dom.removeAttribute "data-umbra-blocked"
                        (Dom.set_style "display" "" e)) d) ids d)
  = Dom.tree d.
Proof.
  revert d. induction ids as [|a rest IH]; intros d; [reflexivity|].
  simpl. rewrite IH. reflexivity.
Qed.

Lemma restore_fold_keeps (id : nat) (ids : list nat) (d : Dom.Document) :
  (exists e, Dom.nodes d !! id = Some e
             /\ Dom.style e !! "display" = None
             /\ Dom.attributes e !! "data-umbra-blocked" = None) ->
  exists e, Dom.nodes
              (fold_left
                 (fun d ad =>
                    Dom.update ad
                      (fun e => Dom.removeAttribute "data-umbra-blocked"
                                  (Dom.set_style "display" "" e)) d) ids d)
            !! id = Some e
            /\ Dom.style e !! "display" = None
            /\ Dom.attributes e !! "data-umbra-blocked" = None.
Proof.
  revert d. induction ids as [|a rest IH]; intros d Hd; [exact Hd|].
  simpl. apply IH. destruct Hd as (e & He & Hrest).
  unfold Dom.update. simpl. destruct (decide (a = id)) as [->|Hne].
  - rewrite lookup_alter_eq, He. simpl. eexists. split; [reflexivity|].
    apply restored_element.
  - rewrite lookup_alter_ne by exact Hne. eauto.
Qed.

Lemma restore_fold_hits (id : nat) (ids : list nat) (d : Dom.Document)
    (e : Dom.Element) :
  In id ids -> Dom.nodes d !! id = Some e ->
  exists e', Dom.nodes
               (fold_left
                  (fun d ad =>
                     Dom.update ad
                       (fun e => Dom.removeAttribute "data-umbra-blocked"
                                   (Dom.set_style "display" "" e)) d) ids d)
             !! id = Some e'
             /\ Dom.style e' !! "display" = None
             /\ Dom.attributes e' !! "data-umbra-blocked" = None.
Proof.
  revert d e. induction ids as [|a rest IH]; intros d e Hin He; [destruct Hin|].
  simpl. destruct (decide (a = id)) as [->|Hne].
  - apply restore_fold_keeps. unfold Dom.update. simpl.
    rewrite lookup_alter_eq, He. simpl. eexists. split; [reflexivity|].
    apply restored_element.
  - destruct Hin as [Heq|Hin]; [contradiction|].
    apply (IH _ e Hin). unfold Dom.update. simpl.
    rewrite lookup_alter_ne by exact Hne. exact He.
Qed.

(** C8 (as amended). In the [scripts/] tree, [blockAd] hides the element
    and marks it with [data-umbra-blocked="ad"] without detaching it, and
    switching the ad blocker off with [toggleAdBlocker] clears the
    [display] style and the marker of the attached element.  In the [js/]
    tree [hideElement] hides and marks the element (with the value
    [true]) and leaves it attached, and [disable] does not touch the
    document. *)
Theorem C8_hidden_ad_elements (scanCurrentPage : Scripts.Window -> Scripts.Window)
    (w : Scripts.Window) (id now : nat) (element : Dom.Element) :
  Dom.nodes (Scripts.document w) !! id = Some element ->
  In id (Dom.tree (Scripts.document w)) ->
  Scripts.adBlockEnabled (Scripts.securityManager w) = true ->
  let w1 := snd (Scripts.blockAd id now w) in
  let w2 := Scripts.toggleAdBlocker scanCurrentPage w1 in
  (exists e1, Dom.nodes (Scripts.document w1) !! id = Some e1
              /\ Dom.style e1 !! "display" = Some "none"
              /\ Dom.attributes e1 !! "data-umbra-blocked" = Some "ad")
  /\ In id (Dom.tree (Scripts.document w1))
  /\ (exists e2, Dom.nodes (Scripts.document w2) !! id = Some e2
                 /\ Dom.style e2 !! "display" = None
                 /\ Dom.attributes e2 !! "data-umbra-blocked" = None)
  /\ In id (Dom.tree (Scripts.document w2))
  /\ forall (a : Umbra.App) (id' : nat) (e : Dom.Element),
       Dom.nodes (Umbra.frameDocument a) !! id' = Some e ->
       let a1 := Umbra.hideElement id' a in
       (exists e1, Dom.nodes (Umbra.frameDocument a1) !! id' = Some e1
                   /\ Dom.style e1 !! "display" = Some "none"
                   /\ Dom.attributes e1 !! "data-umbra-blocked" = Some "true")
       /\ Dom.tree (Umbra.frameDocument a1) = Dom.tree (Umbra.frameDocument a)
       /\ Umbra.frameDocument (Umbra.adblock_disable a1)
          = Umbra.frameDocument a1.
Proof.
  intros He Hin Hen. cbv zeta.
  assert (Hdoc : Scripts.document (snd (Scripts.blockAd id now w))
                 = Dom.update id
                     (fun e => Dom.setAttribute "data-umbra-blocked" "ad"
                                 (Dom.set_style "display" "none" e))
                     (Scripts.document w)).
  { unfold Scripts.blockAd. rewrite He.
    match goal with
    | |- Scripts.document (snd (Scripts.logSecurityEvent ?t ?d ?n ?w0)) = _ =>
        destruct (logSecurityEvent_frame t d n w0) as (_ & _ & ->)
    end. reflexivity. }
  assert (Hsm : Scripts.adBlockEnabled
                  (Scripts.securityManager (snd (Scripts.blockAd id now w)))
                = true).
  { unfold Scripts.blockAd. rewrite He.
    match goal with
    | |- Scripts.adBlockEnabled
           (Scripts.securityManager
              (snd (Scripts.logSecurityEvent ?t ?d ?n ?w0))) = _ =>
        destruct (logSecurityEvent_frame t d n w0) as (_ & -> & _)
    end. simpl. exact Hen. }
  assert (H1 : exists e1,
             Dom.nodes (Scripts.document (snd (Scripts.blockAd id now w)))
               !! id = Some e1
             /\ Dom.style e1 !! "display" = Some "none"
             /\ Dom.attributes e1 !! "data-umbra-blocked" = Some "ad").
  { rewrite Hdoc. unfold Dom.update. cbn [Dom.nodes].
    rewrite lookup_alter_eq, He. cbn [fmap option_fmap option_map].
    eexists. split; [reflexivity|]. split.
    - cbn [Dom.setAttribute Dom.style]. apply set_style_lookup_eq.
      discriminate.
    - cbn [Dom.setAttribute Dom.attributes]. apply lookup_insert_eq. }
  assert (Ht1 : In id (Dom.tree (Scripts.document
                                   (snd (Scripts.blockAd id now w)))))
    by (rewrite Hdoc; exact Hin).
  set (w1 := snd (Scripts.blockAd id now w)) in *.
  assert (Hw2 : Scripts.document (Scripts.toggleAdBlocker scanCurrentPage w1)
                = Scripts.restoreAds (Scripts.document w1)).
  { unfold Scripts.toggleAdBlocker. cbv zeta. rewrite Hsm.
    unfold Scripts.saveSecuritySettings. simpl.
    destruct (Scripts.browser_persists _); reflexivity. }
  split; [exact H1|]. split; [exact Ht1|].
  split; [|split].
  - rewrite Hw2. destruct H1 as (e1 & Hn1 & _ & Ha1).
    unfold Scripts.restoreAds. apply (restore_fold_hits id _ _ e1); [|exact Hn1].
    unfold Dom.queryAttribute. apply filter_In. split; [exact Ht1|].
    rewrite Hn1. unfold Dom.has_attribute. apply bool_decide_eq_true.
    exact Ha1.
  - rewrite Hw2. unfold Scripts.restoreAds. rewrite restore_fold_tree.
    exact Ht1.
  - intros a id' e Hn. cbv zeta. split; [|split; reflexivity].
    unfold Umbra.hideElement, AdBlocker.hideElement, Dom.update.
    cbn [Umbra.frameDocument Umbra.with_frameDocument Dom.nodes].
    rewrite lookup_alter_eq, Hn. cbn [fmap option_fmap option_map].
    eexists. split; [reflexivity|]. split.
    + cbn [Dom.setAttribute Dom.style].
      rewrite !set_style_lookup_ne by discriminate.
      apply set_style_lookup_eq. discriminate.
    + cbn [Dom.setAttribute Dom.attributes]. apply lookup_insert_eq.
Qed.

Lemma C8_witness :
  let w1 := snd (Scripts.blockAd 0 1 Examples.normalWindow) in
  let w2 := Scripts.toggleAdBlocker (fun w => w) w1 in
  (exists e1, Dom.nodes (Scripts.document w1) !! 0%nat = Some e1
              /\ Dom.style e1 !! "display" = Some "none"
              /\ Dom.attributes e1 !! "data-umbra-blocked" = Some "ad")
  /\ (exists e2, Dom.nodes (Scripts.document w2) !! 0%nat = Some e2
                 /\ Dom.style e2 !! "display" = None
                 /\ Dom.attributes e2 !! "data-umbra-blocked" = None)
  /\ In 0%nat (Dom.tree (Scripts.document w2)).
Proof.
  assert (Hn : Dom.nodes (Scripts.document Examples.normalWindow) !! 0%nat
               = Some Examples.banner) by reflexivity.
  assert (Hin : In 0%nat (Dom.tree (Scripts.document Examples.normalWindow)))
    by (simpl; tauto).
  destruct (C8_hidden_ad_elements (fun w => w) Examples.normalWindow 0 1
              Examples.banner Hn Hin eq_refl)
    as (Hhidden & _ & Hrestored & Hattached & _).
  cbv zeta. split; [exact Hhidden|]. split; [exact Hrestored | exact Hattached].
Defined.

(** C8 as stated fails for the [js/] ad blocker: after [hideElement] and an
    explicit [disable], the element is still hidden and still carries the
    marker. *)
Lemma C8_counterexample :
  let a := Umbra.adblock_disable (Umbra.hideElement 0 Examples.appWithBanner) in
  AdBlocker.isEnabled (Umbra.adBlocker a) = false
  /\ In 0%nat (Dom.tree (Umbra.frameDocument a))
  /\ Dom.nodes (Umbra.frameDocument a) !! 0%nat
       ≫= (fun e => Dom.style e !! "display") = Some "none"
  /\ Dom.nodes (Umbra.frameDocument a) !! 0%nat
       ≫= (fun e => Dom.attributes e !! "data-umbra-blocked") = Some "true".
Proof.
  cbv zeta. split; [reflexivity|]. split; [simpl; tauto|].
  split; vm_compute; reflexivity.
Qed.

(** * Further properties *)

(** ** Strings and patterns *)

Lemma lower_char_idempotent (c : ascii) :
  JS.lower_char (JS.lower_char c) = JS.lower_char c.
Proof.
  destruct c as [[] [] [] [] [] [] [] []]; vm_compute; reflexivity.
Qed.

Lemma toLowerCase_idempotent (s : string) :
  JS.toLowerCase (JS.toLowerCase s) = JS.toLowerCase s.
Proof.
  induction s as [|c s IH]; simpl; [reflexivity|].
  rewrite lower_char_idempotent, IH. reflexivity.
Qed.

Lemma list_ascii_of_string_append (a b : string) :
  list_ascii_of_string (String.append a b)
  = list_ascii_of_string a ++ list_ascii_of_string b.
Proof. induction a as [|c a IH]; simpl; [reflexivity | now rewrite IH]. Qed.

Lemma startsWith_append (p s : string) :
  JS.startsWith (String.append p s) p = true.
Proof.
  induction p as [|c p IH]; simpl; [destruct s; reflexivity|].
  rewrite Ascii.eqb_refl. exact IH.
Qed.

Lemma startsWith_split (s p : string) :
  JS.startsWith s p = true -> exists rest, s = String.append p rest.
Proof.
  revert s. induction p as [|c p IH]; intros s Hs.
  - exists s. reflexivity.
  - destruct s as [|b s]; simpl in Hs; [discriminate|].
    apply andb_true_iff in Hs as [Hc Hs].
    apply Ascii.eqb_eq in Hc as ->.
    destruct (IH s Hs) as [rest ->]. exists rest. reflexivity.
Qed.

Lemma endsWith_split (s p : string) :
  JS.endsWith s p = true -> exists pre, s = String.append pre p.
Proof.
  induction s as [|c s IH]; cbn [JS.endsWith]; intros Hs.
  - rewrite orb_false_r in Hs. apply String.eqb_eq in Hs as <-.
    exists "". reflexivity.
  - apply orb_true_iff in Hs as [Hs|Hs].
    + apply String.eqb_eq in Hs as <-. exists "". reflexivity.
    + destruct (IH Hs) as [pre ->]. exists (String c pre). reflexivity.
Qed.

Lemma includes_split (s p : string) :
  JS.includes s p = true ->
  exists pre rest, s = String.append pre (String.append p rest).
Proof.
  induction s as [|c s IH]; cbn [JS.includes]; intros Hs.
  - rewrite orb_false_r in Hs.
    destruct (startsWith_split _ _ Hs) as [rest Hr].
    exists "", rest. exact Hr.
  - apply orb_true_iff in Hs as [Hs|Hs].
    + destruct (startsWith_split _ _ Hs) as [rest Hr].
      exists "", rest. exact Hr.
    + destruct (IH Hs) as (pre & rest & ->).
      exists (String c pre), rest. reflexivity.
Qed.

(** A match of the pattern at the end of a prefix is found by the
    search, at that place or before. *)
Lemma search_after (ic : bool) (r : Regex.re) (pre suf : list ascii)
    (i : nat) :
  is_Some (Regex.m ic r suf (i + length pre) (fun _ e => Some e)) ->
  is_Some (Regex.search ic r (pre ++ suf) i).
Proof.
  revert i. induction pre as [|c pre IH]; intros i Hm.
  - simpl in *. rewrite Nat.add_0_r in Hm.
    destruct suf as [|a suf]; simpl;
      destruct (Regex.m ic r _ i _) eqn:E; eauto;
      destruct Hm as [? Hm]; discriminate.
  - simpl. destruct (Regex.m ic r (c :: pre ++ suf) i _); [eauto|].
    apply IH. simpl in Hm. rewrite Nat.add_succ_r in Hm. exact Hm.
Qed.

Lemma test_found (p : Regex.RegExp) (s : string) :
  Regex.stateful p = false ->
  is_Some (Regex.search (Regex.ignoreCase (Regex.flags p)) (Regex.pattern p)
             (list_ascii_of_string s) 0) ->
  fst (Regex.test p s) = true.
Proof.
  intros Hp [e He]. unfold Regex.test. rewrite Hp, He. reflexivity.
Qed.

(** A pattern without [g] and [y] matches every string that ends in a
    text it matches up to the end. *)
Lemma test_suffix (p : Regex.RegExp) (pre suf : string) :
  Regex.stateful p = false ->
  (forall i, is_Some (Regex.m (Regex.ignoreCase (Regex.flags p))
                        (Regex.pattern p) (list_ascii_of_string suf) i
                        (fun _ e => Some e))) ->
  fst (Regex.test p (String.append pre suf)) = true.
Proof.
  intros Hp Hm. apply test_found; [exact Hp|].
  rewrite list_ascii_of_string_append. apply search_after, Hm.
Qed.

(** ** The rule loop *)

Lemma scanRules_reaches (rs1 rs2 : list SecurityManager.Threat)
    (rule : SecurityManager.Threat) (p : Regex.RegExp) (fullUrl : string) :
  SecurityManager.pattern rule = Some p ->
  fst (Regex.test p fullUrl) = true ->
  fst (SecurityManager.scanRules (rs1 ++ rule :: rs2) fullUrl)
  <> SecurityManager.NoMatch.
Proof.
  intros Hp Ht. induction rs1 as [|r rs1 IH]; simpl.
  - rewrite Hp. destruct (Regex.test p fullUrl) as [hit p']. simpl in Ht.
    subst hit. simpl. discriminate.
  - destruct (SecurityManager.pattern r) as [q|]; [|simpl; discriminate].
    destruct (Regex.test q fullUrl) as [[] q']; [simpl; discriminate|].
    destruct (SecurityManager.scanRules (rs1 ++ rule :: rs2) fullUrl).
    simpl in *. exact IH.
Qed.

Lemma scanRules_patternless (rs : list SecurityManager.Threat)
    (rule : SecurityManager.Threat) (fullUrl : string) :
  SecurityManager.pattern rule = None ->
  fst (SecurityManager.scanRules (rs ++ [rule]) fullUrl)
  <> SecurityManager.NoMatch.
Proof.
  intros Hp. induction rs as [|r rs IH]; simpl.
  - rewrite Hp. simpl. discriminate.
  - destruct (SecurityManager.pattern r) as [q|]; [|simpl; discriminate].
    destruct (Regex.test q fullUrl) as [[] q']; [simpl; discriminate|].
    destruct (SecurityManager.scanRules (rs ++ [rule]) fullUrl).
    simpl in *. exact IH.
Qed.

(** When the rule loop does not run to its end, [checkUrl] returns a
    verdict. *)
Lemma checkUrl_flags `{Host} (sm : SecurityManager.t) (url : string) :
  fst (SecurityManager.scanRules (SecurityManager.securityRules sm)
         (JS.toLowerCase url)) <> SecurityManager.NoMatch ->
  is_Some (fst (SecurityManager.checkUrl sm url)).
Proof.
  intros Hscan. unfold SecurityManager.checkUrl.
  destruct (URL_new url) as [urlObj|]; [|simpl; eauto].
  destruct (SecurityManager.threatDatabase sm !! _); [simpl; eauto|].
  destruct (SecurityManager.scanRules _ _) as [scan rules'].
  simpl in Hscan. destruct scan; simpl; eauto. congruence.
Qed.

Lemma malware_rule_matches_dot_com (i : nat) :
  is_Some
    (Regex.m true
       (Regex.pattern (Regex.literal "\.(exe|scr|pif|bat|cmd|com|vbs|jar)$" "i"))
       (list_ascii_of_string ".com") i (fun _ e => Some e)).
Proof. vm_compute. eauto. Qed.

(** X1: with the rules the constructor installs, [checkUrl] returns a
    verdict, never [null], for every address whose text ends in [.com]
    in any letter case: the executable-download rule
    [/\.(exe|scr|pif|bat|cmd|com|vbs|jar)$/i] is tested on the whole
    lower-cased URL and matches the ending, unless the threat database or
    an earlier rule has answered already. *)
Theorem checkUrl_flags_dot_com `{Host} (url : string) :
  JS.endsWith (JS.toLowerCase url) ".com" = true ->
  is_Some (fst (SecurityManager.checkUrl SecurityManager.new url)).
Proof.
  intros Hend. apply checkUrl_flags.
  destruct (endsWith_split _ _ Hend) as [pre Hpre]. rewrite Hpre.
  change (SecurityManager.securityRules SecurityManager.new)
    with (firstn 4 (SecurityManager.securityRules SecurityManager.new)
          ++ SecurityManager.malwareExtensionRule
          :: skipn 5 (SecurityManager.securityRules SecurityManager.new)).
  eapply scanRules_reaches; [reflexivity|].
  apply test_suffix; [reflexivity|]. apply malware_rule_matches_dot_com.
Qed.

Lemma checkUrl_flags_dot_com_witness :
  JS.endsWith (JS.toLowerCase "https://www.Wikipedia.COM") ".com" = true
  /\ is_Some (fst (SecurityManager.checkUrl (H := RefHost.host)
                     SecurityManager.new "https://www.Wikipedia.COM")).
Proof.
  split; [reflexivity|].
  apply (checkUrl_flags_dot_com (H := RefHost.host)). reflexivity.
Defined.

(** ** Blocking and unblocking a domain *)

(** X2: after [blockDomain(domain)], [checkUrl] returns the entry
    [{type: 'blocked'}] for every URL whose lower-cased host name is
    [domain]: the threat database is consulted before every rule. *)
Theorem blockDomain_blocks `{Host} (domain url : string) (urlObj : URL)
    (a : Umbra.App) :
  URL_new url = Some urlObj ->
  JS.toLowerCase (hostname urlObj) = domain ->
  fst (SecurityManager.checkUrl
         (Umbra.securityManager (SecurityControls.blockDomain domain a)) url)
  = Some SecurityControls.blockedVerdict
  /\ SecurityManager.type SecurityControls.blockedVerdict = "blocked".
Proof.
  intros Hurl Hhost. split; [|reflexivity].
  unfold SecurityManager.checkUrl. rewrite Hurl, Hhost. simpl.
  rewrite lookup_insert_eq. reflexivity.
Qed.

Lemma blockDomain_blocks_witness :
  fst (SecurityManager.checkUrl (H := RefHost.host)
         (Umbra.securityManager
            (SecurityControls.blockDomain "online.example.org" Umbra.initial))
         "https://Online.Example.org/page")
  = Some SecurityControls.blockedVerdict
  /\ fst (SecurityManager.checkUrl (H := RefHost.host)
            (Umbra.securityManager Umbra.initial) "https://Online.Example.org/page")
     = None.
Proof.
  split.
  - eapply (blockDomain_blocks (H := RefHost.host)); reflexivity.
  - vm_compute. reflexivity.
Defined.

(** X3: [blockDomain] stores the domain as given while [checkUrl] looks
    up the lower-cased host name, so blocking a domain written with an
    upper-case letter changes no verdict: the entry is in the database
    and is never found. *)
Theorem blockDomain_upper_case_inert `{Host} (domain : string)
    (a : Umbra.App) :
  JS.toLowerCase domain <> domain ->
  let sm := Umbra.securityManager (SecurityControls.blockDomain domain a) in
  SecurityManager.threatDatabase sm !! domain
  = Some SecurityControls.blockedVerdict
  /\ forall url : string,
       fst (SecurityManager.checkUrl sm url)
       = fst (SecurityManager.checkUrl (Umbra.securityManager a) url).
Proof.
  intros Hcase. simpl. split; [apply lookup_insert_eq|].
  intros url. unfold SecurityManager.checkUrl.
  destruct (URL_new url) as [urlObj|]; [|reflexivity]. simpl.
  rewrite lookup_insert_ne.
  2: { intros Heq. apply Hcase. rewrite Heq.
       apply toLowerCase_idempotent. }
  destruct (SecurityManager.threatDatabase _ !! _); [reflexivity|].
  destruct (SecurityManager.scanRules _ _) as [[] rules']; try reflexivity.
  destruct (SecurityManager.checkDomainSpoofing _); [reflexivity|].
  destruct (SecurityManager.checkSuspiciousTLD _); [reflexivity|].
  destruct (SecurityManager.checkUrlStructure _); reflexivity.
Qed.

Lemma blockDomain_upper_case_inert_witness :
  let sm := Umbra.securityManager
              (SecurityControls.blockDomain "Online.Example.org" Umbra.initial) in
  SecurityManager.threatDatabase sm !! "Online.Example.org"
  = Some SecurityControls.blockedVerdict
  /\ fst (SecurityManager.checkUrl (H := RefHost.host) sm
            "https://Online.Example.org/page") = None.
Proof.
  destruct (blockDomain_upper_case_inert (H := RefHost.host) "Online.Example.org"
              Umbra.initial) as [Hdb Hsame].
  - vm_compute. discriminate.
  - split; [exact Hdb|]. rewrite Hsame. vm_compute. reflexivity.
Defined.

(** X4: [whitelistDomain] after [blockDomain] of a domain that was not
    in the threat database gives back the database and the rules as they
    were before the two calls. *)
Theorem whitelistDomain_undoes_blockDomain (domain : string)
    (a : Umbra.App) :
  SecurityManager.threatDatabase (Umbra.securityManager a) !! domain = None ->
  let sm := Umbra.securityManager
              (Umbra.whitelistDomain domain
                 (SecurityControls.blockDomain domain a)) in
  SecurityManager.threatDatabase sm
  = SecurityManager.threatDatabase (Umbra.securityManager a)
  /\ SecurityManager.securityRules sm
     = SecurityManager.securityRules (Umbra.securityManager a).
Proof.
  intros Hfree. simpl. split; [|reflexivity].
  rewrite delete_insert_eq. apply delete_id. exact Hfree.
Qed.

Lemma whitelistDomain_undoes_blockDomain_witness :
  SecurityManager.threatDatabase
    (Umbra.securityManager
       (Umbra.whitelistDomain "online.example.org"
          (SecurityControls.blockDomain "online.example.org" Umbra.initial)))
  = SecurityManager.threatDatabase (Umbra.securityManager Umbra.initial).
Proof.
  apply (whitelistDomain_undoes_blockDomain "online.example.org" Umbra.initial).
  vm_compute. reflexivity.
Defined.

(** ** Security rules *)

Lemma keepOthers_id (text : string) (rules : list SecurityManager.Threat) :
  forallb
    (fun rule =>
       match SecurityManager.pattern rule with
       | Some q => negb (String.eqb (SecurityControls.toString q) text)
       | None => false
       end) rules = true ->
  SecurityControls.keepOthers text rules = Some rules.
Proof.
  induction rules as [|rule rules IH];
    cbn [SecurityControls.keepOthers forallb]; [reflexivity|].
  intros Hall. apply andb_true_iff in Hall as [Hrule Hall].
  destruct (SecurityManager.pattern rule) as [q|]; [|discriminate].
  rewrite (IH Hall). apply negb_true_iff in Hrule. rewrite Hrule.
  reflexivity.
Qed.

Lemma keepOthers_app (text : string)
    (rules more kept kept' : list SecurityManager.Threat) :
  SecurityControls.keepOthers text rules = Some kept ->
  SecurityControls.keepOthers text more = Some kept' ->
  SecurityControls.keepOthers text (rules ++ more) = Some (kept ++ kept').
Proof.
  revert kept. induction rules as [|rule rules IH];
    cbn [SecurityControls.keepOthers app]; intros kept Hk Hm.
  - injection Hk as <-. exact Hm.
  - destruct (SecurityManager.pattern rule) as [q|]; [|discriminate].
    destruct (SecurityControls.keepOthers text rules) as [rest|];
      [|discriminate].
    rewrite (IH rest eq_refl Hm).
    destruct (String.eqb (SecurityControls.toString q) text);
      injection Hk as <-; reflexivity.
Qed.

(** X5: removing a rule that was just added restores the manager: when
    every rule already installed has a pattern that prints differently,
    [removeSecurityRule(p)] after [addSecurityRule({pattern: p, ...})]
    returns the rule list to what it was. *)
Theorem removeSecurityRule_undoes_add (sm : SecurityManager.t)
    (p : Regex.RegExp) (ty description : string) :
  forallb
    (fun rule =>
       match SecurityManager.pattern rule with
       | Some q =>
           negb (String.eqb (SecurityControls.toString q)
                   (SecurityControls.toString p))
       | None => false
       end) (SecurityManager.securityRules sm) = true ->
  SecurityControls.removeSecurityRule (SecurityControls.toString p)
    (SecurityManager.addSecurityRule sm
       (SecurityManager.patternThreat p ty description))
  = Returned sm.
Proof.
  intros Hother. unfold SecurityControls.removeSecurityRule.
  cbn [SecurityManager.addSecurityRule SecurityManager.set_securityRules
       SecurityManager.securityRules].
  rewrite (keepOthers_app _ _ _ _ [] (keepOthers_id _ _ Hother)).
  - rewrite app_nil_r. destruct sm; reflexivity.
  - cbn [SecurityControls.keepOthers SecurityManager.patternThreat
         SecurityManager.pattern].
    rewrite String.eqb_refl. reflexivity.
Qed.

Lemma removeSecurityRule_undoes_add_witness :
  SecurityControls.removeSecurityRule "/evil\.example/i"
    (SecurityManager.addSecurityRule SecurityManager.new
       (SecurityManager.patternThreat (Regex.literal "evil\.example" "i")
          "malware" "custom rule"))
  = Returned SecurityManager.new.
Proof.
  apply (removeSecurityRule_undoes_add SecurityManager.new
           (Regex.literal "evil\.example" "i") "malware" "custom rule").
  vm_compute. reflexivity.
Defined.

(** X6: [addSecurityRule] does not validate the rule.  After a rule
    without a [pattern] property is added, [checkUrl] returns a verdict
    for every URL: the rule loop either stops at an earlier rule or
    throws at the new one, and the [catch] answers [invalid];
    [removeSecurityRule] then throws on every argument. *)
Theorem patternless_rule_flags_every_url `{Host} (sm : SecurityManager.t)
    (rule : SecurityManager.Threat) (url : string) :
  SecurityManager.pattern rule = None ->
  is_Some (fst (SecurityManager.checkUrl
                  (SecurityManager.addSecurityRule sm rule) url))
  /\ forall text : string,
       SecurityControls.removeSecurityRule text
         (SecurityManager.addSecurityRule sm rule) = Thrown "TypeError".
Proof.
  intros Hp. split.
  - apply checkUrl_flags. simpl. apply scanRules_patternless. exact Hp.
  - intros text. unfold SecurityControls.removeSecurityRule. simpl.
    assert (SecurityControls.keepOthers text
              (SecurityManager.securityRules sm ++ [rule]) = None) as ->;
      [|reflexivity].
    induction (SecurityManager.securityRules sm) as [|r rs IH]; simpl.
    + rewrite Hp. reflexivity.
    + destruct (SecurityManager.pattern r); [|reflexivity].
      rewrite IH. reflexivity.
Qed.

Lemma patternless_rule_flags_every_url_witness :
  let sm := SecurityManager.addSecurityRule
              (SecurityManager.mk true ∅ ∅ [] ∅)
              (SecurityManager.verdict "malware" "no pattern") in
  is_Some (fst (SecurityManager.checkUrl (H := RefHost.host) sm
                  "https://online.example.org/"))
  /\ fst (SecurityManager.checkUrl (H := RefHost.host)
            (SecurityManager.mk true ∅ ∅ [] ∅) "https://online.example.org/")
     = None.
Proof.
  split.
  - apply (patternless_rule_flags_every_url (H := RefHost.host)). reflexivity.
  - vm_compute. reflexivity.
Defined.

(** X7: [getSecurityStats().threatsBlocked] counts distinct URLs:
    handling a threat at a URL that is already among the blocked sites
    leaves the count as it is, at a new URL it adds one; in both cases
    the scan results then hold the threat under that URL. *)
Theorem threatsBlocked_counts_distinct_urls (url : string)
    (threat : SecurityManager.Threat) (a : Umbra.App) :
  let sm := Umbra.securityManager a in
  let sm' := Umbra.securityManager
               (Umbra.security_handleSecurityThreat url threat a) in
  SecurityControls.threatsBlocked sm'
  = (if bool_decide (url ∈ SecurityManager.blockedSites sm)
     then SecurityControls.threatsBlocked sm
     else S (SecurityControls.threatsBlocked sm))
  /\ SecurityManager.scanResults sm' !! url
     = Some (SecurityManager.mkLogEntry (Umbra.clock a) url threat true).
Proof.
  simpl. unfold Umbra.security_handleSecurityThreat, Umbra.emit,
    Umbra.on_securityThreat, Umbra.handleSecurityThreat, Umbra.emit,
    Umbra.on_siteBlocked, Umbra.handleSiteBlocked, Umbra.showBlockedPage.
  cbn [fold_left snd]. unfold SecurityControls.threatsBlocked.
  assert (forall blocked : gset string,
            size ({[url]} ∪ blocked)
            = if bool_decide (url ∈ blocked) then size blocked
              else S (size blocked)) as Hsize.
  { intros blocked. destruct (decide (url ∈ blocked)) as [Hin|Hin].
    - rewrite bool_decide_eq_true_2 by exact Hin. f_equal.
      apply subseteq_union_1_L, singleton_subseteq_l, Hin.
    - rewrite bool_decide_eq_false_2 by exact Hin.
      rewrite size_union by (apply disjoint_singleton_l, Hin).
      rewrite size_singleton. reflexivity. }
  destruct (Umbra.viewport _); simpl;
    (split; [apply Hsize | apply lookup_insert_eq]).
Qed.

(** ** File scanning *)

Lemma checkMagicNumber_starts (uint8Array magicBytes : list nat) :
  SecurityControls.checkMagicNumber uint8Array magicBytes = true
  <-> exists rest, uint8Array = magicBytes ++ rest.
Proof.
  unfold SecurityControls.checkMagicNumber. split.
  - destruct (length uint8Array <? length magicBytes)%nat eqn:Hlen;
      [discriminate|].
    apply Nat.ltb_ge in Hlen. intros Hall.
    exists (drop (length magicBytes) uint8Array).
    rewrite <- (take_drop (length magicBytes) uint8Array) at 1.
    f_equal. apply list_eq. intros i.
    destruct (decide (i < length magicBytes)%nat) as [Hi|Hi].
    + rewrite lookup_take_lt by exact Hi.
      rewrite forallb_forall in Hall.
      specialize (Hall i). rewrite bool_decide_eq_true in Hall.
      apply Hall, in_seq. lia.
    + rewrite lookup_take_ge by lia.
      symmetry. apply lookup_ge_None. lia.
  - intros [rest ->]. rewrite length_app.
    destruct (_ <? _)%nat eqn:Hlen; [apply Nat.ltb_lt in Hlen; lia|].
    apply forallb_forall. intros i Hi. apply in_seq in Hi.
    apply bool_decide_eq_true. apply lookup_app_l. lia.
Qed.

(** X8: [checkMagicNumber] answers true exactly when the magic bytes
    are a prefix of the content: the first bytes of the content, as many
    as there are magic bytes, are the magic bytes.  A content shorter
    than the magic sequence is never matched. *)
Theorem checkMagicNumber_prefix (uint8Array magicBytes : list nat) :
  SecurityControls.checkMagicNumber uint8Array magicBytes = true
  <-> take (length magicBytes) uint8Array = magicBytes.
Proof.
  rewrite checkMagicNumber_starts. split.
  - intros [rest ->]. apply take_app_length.
  - intros Htake. exists (drop (length magicBytes) uint8Array).
    rewrite <- Htake at 1. symmetry. apply take_drop.
Qed.

(** X9: [scanFileContent] reports an executable exactly when the
    content starts with the bytes 4D 5A, whatever the file is called. *)
Theorem scanFileContent_executable (bytes : list nat) (filename : string) :
  In SecurityControls.executableFile
    (SecurityControls.scanFileContent bytes filename)
  <-> exists rest, bytes = 77%nat :: 90%nat :: rest.
Proof.
  unfold SecurityControls.scanFileContent.
  rewrite <- (checkMagicNumber_starts bytes [77; 90]%nat).
  rewrite !in_app_iff.
  destruct (SecurityControls.checkMagicNumber bytes _);
    destruct (existsb _ _); destruct (fst _); simpl; split;
    try tauto; try discriminate;
    intros Hin; repeat destruct Hin as [Hin|Hin]; try discriminate;
    try contradiction.
Qed.

Lemma eqb_succ_diag (n : nat) : (S n =? n)%nat = false.
Proof. apply Nat.eqb_neq. lia. Qed.

(** The class [[a-z]] under the [i] flag accepts the ASCII letters. *)
Lemma letter_in_class (c : ascii) :
  SecurityControls.letter c = true ->
  Regex.in_ranges true c [("a"%char, "z"%char)] = true.
Proof.
  destruct c as [[] [] [] [] [] [] [] []]; vm_compute; congruence.
Qed.

Lemma letters_cases (s : string)
    (ok := fun c => Regex.in_ranges true c [("a"%char, "z"%char)] = true) :
  SecurityControls.extension s = true ->
  (exists a b, s = String a (String b "") /\ ok a /\ ok b)
  \/ (exists a b c,
        s = String a (String b (String c "")) /\ ok a /\ ok b /\ ok c)
  \/ (exists a b c d,
        s = String a (String b (String c (String d "")))
        /\ ok a /\ ok b /\ ok c /\ ok d).
Proof.
  unfold SecurityControls.extension. intros Hs.
  apply andb_true_iff in Hs as [Hlen Hall].
  apply andb_true_iff in Hlen as [Hlo Hhi].
  apply Nat.leb_le in Hlo, Hhi.
  destruct s as [|a [|b [|c [|d [|e s]]]]]; simpl in Hlo, Hhi; try lia;
    simpl in Hall;
    repeat match goal with
      | H : _ && _ = true |- _ => apply andb_true_iff in H as [? ?]
      end;
    repeat match goal with
      | H : SecurityControls.letter _ = true |- _ =>
          apply letter_in_class in H
      end.
  - left. exists a, b. auto.
  - right. left. exists a, b, c. auto.
  - right. right. exists a, b, c, d. auto.
Qed.

Lemma doubleExt_matches (a b : string) (i : nat) :
  SecurityControls.extension a = true ->
  SecurityControls.extension b = true ->
  is_Some
    (Regex.m true (Regex.pattern SecurityControls.doubleExtPattern)
       (list_ascii_of_string
          (String "." (String.append a (String "." b)))) i
       (fun _ e => Some e)).
Proof.
  intros Ha Hb.
  assert (Regex.in_ranges true "."%char [("a"%char, "z"%char)] = false)
    as Hdot by reflexivity.
  change (Regex.pattern SecurityControls.doubleExtPattern)
    with (Regex.Seq (Regex.Char ".")
            (Regex.Seq
               (Regex.Repeat 2 (Some 4) true
                  (Regex.Class false [("a"%char, "z"%char)]))
               (Regex.Seq (Regex.Char ".")
                  (Regex.Seq
                     (Regex.Repeat 2 (Some 4) true
                        (Regex.Class false [("a"%char, "z"%char)]))
                     Regex.AssertEnd)))).
  destruct (letters_cases a Ha)
    as [(a1 & a2 & -> & Ha1 & Ha2)
       |[(a1 & a2 & a3 & -> & Ha1 & Ha2 & Ha3)
        |(a1 & a2 & a3 & a4 & -> & Ha1 & Ha2 & Ha3 & Ha4)]];
  destruct (letters_cases b Hb)
    as [(b1 & b2 & -> & Hb1 & Hb2)
       |[(b1 & b2 & b3 & -> & Hb1 & Hb2 & Hb3)
        |(b1 & b2 & b3 & b4 & -> & Hb1 & Hb2 & Hb3 & Hb4)]];
  cbv [String.append list_ascii_of_string];
  repeat progress
    (cbn -[Regex.in_ranges Nat.eqb];
     change (2 =? 0)%nat with false; change (1 =? 0)%nat with false;
     change (0 =? 0)%nat with true;
     rewrite ?Ha1, ?Ha2, ?Ha3, ?Ha4, ?Hb1, ?Hb2, ?Hb3, ?Hb4, ?Hdot,
       ?eqb_succ_diag);
  eauto.
Qed.

(** X10: [scanFileContent] reports a disguised file for every name
    that ends in two extensions of two to four ASCII letters each, such
    as [archive.tar.gz], whatever the content is. *)
Theorem scanFileContent_double_extension (bytes : list nat)
    (base a b : string) :
  SecurityControls.extension a = true ->
  SecurityControls.extension b = true ->
  In SecurityControls.disguisedFile
    (SecurityControls.scanFileContent bytes
       (String.append base (String "." (String.append a (String "." b))))).
Proof.
  intros Ha Hb. unfold SecurityControls.scanFileContent.
  rewrite !in_app_iff. right. right.
  rewrite test_suffix; [left; reflexivity | reflexivity |].
  intros i. apply doubleExt_matches; assumption.
Qed.

Lemma scanFileContent_double_extension_witness :
  In SecurityControls.disguisedFile
    (SecurityControls.scanFileContent [31; 139]%nat "archive.tar.gz").
Proof.
  apply (scanFileContent_double_extension [31; 139]%nat "archive" "tar" "gz");
    reflexivity.
Defined.

(** ** Ad blocker: statistics *)

Lemma blockAds_cons (identifier ty : string) (calls : list (string * string))
    (ab : AdBlocker.t) :
  AdBlockControls.blockAds ((identifier, ty) :: calls) ab
  = AdBlockControls.blockAds calls (AdBlocker.blockAd ab identifier ty).
Proof. reflexivity. Qed.

(** X11: the counters of [blockAd] count calls.  After a run of calls
    with the types the code passes ([url], [css], [script], [image],
    [iframe], [element]; [blockedByType] is a plain object, read here at
    these keys only), [totalBlocked] and [sessionBlocked] have grown by
    the number of calls and every per-type counter by the number of
    calls of that type; filters and whitelist are untouched.  After
    [clearStatistics] the total is the number of calls since. *)
Theorem blockAd_counts_calls (calls : list (string * string))
    (ab : AdBlocker.t) (a : Umbra.App) :
  forallb (fun call => JS.array_includes AdBlockControls.adTypes (snd call))
    calls = true ->
  let before := AdBlocker.statistics ab in
  let ab' := AdBlockControls.blockAds calls ab in
  let after := AdBlocker.statistics ab' in
  AdBlocker.totalBlocked after
  = (AdBlocker.totalBlocked before + length calls)%nat
  /\ AdBlocker.sessionBlocked after
     = (AdBlocker.sessionBlocked before + length calls)%nat
  /\ (forall ty : string,
        default 0%nat (AdBlocker.blockedByType after !! ty)
        = (default 0%nat (AdBlocker.blockedByType before !! ty)
           + length (List.filter (fun call => String.eqb (snd call) ty)
                       calls))%nat)
  /\ AdBlocker.whitelist ab' = AdBlocker.whitelist ab
  /\ AdBlocker.customFilters ab' = AdBlocker.customFilters ab
  /\ AdBlocker.filterLists ab' = AdBlocker.filterLists ab
  /\ AdBlocker.totalBlocked
       (AdBlocker.statistics
          (AdBlockControls.blockAds calls
             (Umbra.adBlocker (AdBlockControls.clearStatistics a))))
     = length calls.
Proof.
  intros _.
  assert (forall ab,
            let before := AdBlocker.statistics ab in
            let ab' := AdBlockControls.blockAds calls ab in
            let after := AdBlocker.statistics ab' in
            AdBlocker.totalBlocked after
            = (AdBlocker.totalBlocked before + length calls)%nat
            /\ AdBlocker.sessionBlocked after
               = (AdBlocker.sessionBlocked before + length calls)%nat
            /\ (forall ty : string,
                  default 0%nat (AdBlocker.blockedByType after !! ty)
                  = (default 0%nat (AdBlocker.blockedByType before !! ty)
                     + length (List.filter
                                 (fun call => String.eqb (snd call) ty)
                                 calls))%nat)
            /\ AdBlocker.whitelist ab' = AdBlocker.whitelist ab
            /\ AdBlocker.customFilters ab' = AdBlocker.customFilters ab
            /\ AdBlocker.filterLists ab' = AdBlocker.filterLists ab) as Hrun;
    [|cbn zeta;
      destruct (Hrun ab) as (H1 & H2 & H3 & H4 & H5 & H6);
      destruct (Hrun (Umbra.adBlocker (AdBlockControls.clearStatistics a)))
        as (Hclear & _);
      repeat split; auto].
  clear ab a.
  induction calls as [|[identifier ty] calls IH]; intros ab.
  - simpl. repeat split; intros; lia.
  - rewrite blockAds_cons.
    destruct (IH (AdBlocker.blockAd ab identifier ty))
      as (Htotal & Hsession & Htype & Hw & Hc & Hf).
    cbn zeta in *. rewrite Htotal, Hsession, Hw, Hc, Hf.
    cbn [AdBlocker.blockAd AdBlocker.statistics AdBlocker.totalBlocked
         AdBlocker.sessionBlocked AdBlocker.whitelist AdBlocker.customFilters
         AdBlocker.filterLists length].
    repeat split; try lia.
    intros ty'. rewrite Htype.
    cbn [AdBlocker.blockAd AdBlocker.statistics AdBlocker.blockedByType
         List.filter snd].
    destruct (String.eqb ty ty') eqn:Heq.
    + apply String.eqb_eq in Heq as ->. rewrite lookup_insert_eq.
      simpl. lia.
    + apply String.eqb_neq in Heq. rewrite lookup_insert_ne by exact Heq.
      simpl. lia.
Qed.

Lemma blockAd_counts_calls_witness :
  let ab' := AdBlockControls.blockAds
               [("https://ads.example/a", "url"); (".banner", "css");
                ("https://ads.example/b", "url")] AdBlocker.new in
  AdBlocker.totalBlocked (AdBlocker.statistics ab') = 3%nat
  /\ AdBlocker.blockedByType (AdBlocker.statistics ab') !! "url"
     = Some 2%nat.
Proof.
  destruct (blockAd_counts_calls
              [("https://ads.example/a", "url"); (".banner", "css");
               ("https://ads.example/b", "url")] AdBlocker.new Umbra.initial)
    as (Htotal & _); [reflexivity|].
  split; [exact Htotal | vm_compute; reflexivity].
Defined.

(** ** Ad blocker: custom filters *)

(** X12: removing the custom filter that [addCustomFilter] has just
    appended (its index is the previous number of filters) gives back
    the previous custom filters, and what is then in storage under
    [umbra-custom-filters] is the saved form of those.  An index below
    zero or not below the number of custom filters changes nothing: no
    filter is removed, nothing is saved, no notification is shown. *)
Theorem removeCustomFilter_undoes_add `{Host} (pattern ty description : string)
    (r : Regex.RegExp) (a : Umbra.App) :
  RegExp_new pattern "i" = Some r ->
  let added := snd (Umbra.addCustomFilter pattern ty description a) in
  let n := length (AdBlocker.customFilters (Umbra.adBlocker a)) in
  let a' := AdBlockControls.removeCustomFilter (Z.of_nat n) added in
  AdBlocker.customFilters (Umbra.adBlocker added)
  = AdBlocker.customFilters (Umbra.adBlocker a)
    ++ [AdBlocker.mkFilter (AdBlocker.PRegExp r) ty description true]
  /\ AdBlocker.customFilters (Umbra.adBlocker a')
     = AdBlocker.customFilters (Umbra.adBlocker a)
  /\ Umbra.localStorage a' !! "umbra-custom-filters"
     = Some (Storage.Json
               (Storage.JArr
                  (map AdBlocker.filter_json
                     (AdBlocker.customFilters (Umbra.adBlocker a)))))
  /\ forall index : Z,
       (index < 0 \/ Z.of_nat (S n) <= index)%Z ->
       AdBlockControls.removeCustomFilter index added = added.
Proof.
  intros Hr. cbn zeta.
  set (filter := AdBlocker.mkFilter (AdBlocker.PRegExp r) ty description true).
  set (ab := AdBlocker.set_filters (AdBlocker.filterLists (Umbra.adBlocker a))
               (AdBlocker.customFilters (Umbra.adBlocker a) ++ [filter])
               (Umbra.adBlocker a)).
  assert (snd (Umbra.addCustomFilter pattern ty description a)
          = Umbra.notify "カスタムフィルターを追加しました" "success"
              (Umbra.with_localStorage
                 (AdBlocker.saveCustomFilters ab (Umbra.localStorage a))
                 (Umbra.with_adBlocker ab a))) as ->
    by (unfold Umbra.addCustomFilter; rewrite Hr; reflexivity).
  split; [reflexivity|].
  assert (forall A (l : list A) (x : A), delete (length l) (l ++ [x]) = l)
    as Hlast
    by (intros A l x; rewrite (delete_middle l []); apply app_nil_r).
  unfold AdBlockControls.removeCustomFilter.
  cbn [Umbra.notify Umbra.with_localStorage Umbra.with_adBlocker
       Umbra.adBlocker Umbra.localStorage].
  replace (AdBlocker.customFilters ab)
    with (AdBlocker.customFilters (Umbra.adBlocker a) ++ [filter])
    by reflexivity.
  rewrite length_app. cbn [length].
  split; [|split].
  - destruct (0 <=? _)%Z eqn:Hlo; [|apply Z.leb_gt in Hlo; lia].
    destruct (_ <? _)%Z eqn:Hhi; [|apply Z.ltb_ge in Hhi; lia].
    cbn [andb Umbra.notify Umbra.with_localStorage Umbra.with_adBlocker
         Umbra.adBlocker AdBlocker.set_filters AdBlocker.customFilters].
    rewrite Nat2Z.id. apply Hlast.
  - destruct (0 <=? _)%Z eqn:Hlo; [|apply Z.leb_gt in Hlo; lia].
    destruct (_ <? _)%Z eqn:Hhi; [|apply Z.ltb_ge in Hhi; lia].
    cbn [andb Umbra.notify Umbra.with_localStorage Umbra.with_adBlocker
         Umbra.adBlocker Umbra.localStorage AdBlocker.set_filters
         AdBlocker.customFilters AdBlocker.saveCustomFilters].
    rewrite Nat2Z.id, Hlast. unfold Storage.setItem.
    apply lookup_insert_eq.
  - intros index Hrange.
    destruct (0 <=? index)%Z eqn:Hlo; [|reflexivity].
    destruct (index <? _)%Z eqn:Hhi; [|reflexivity].
    apply Z.leb_le in Hlo. apply Z.ltb_lt in Hhi. lia.
Qed.

Lemma removeCustomFilter_undoes_add_witness :
  let added := snd (Umbra.addCustomFilter (H := RefHost.host) "tracker" "url"
                      "trackers" Umbra.initial) in
  length (AdBlocker.customFilters (Umbra.adBlocker added)) = 1%nat
  /\ AdBlocker.customFilters
       (Umbra.adBlocker (AdBlockControls.removeCustomFilter 0 added)) = [].
Proof.
  destruct (removeCustomFilter_undoes_add (H := RefHost.host) "tracker" "url"
              "trackers" (Regex.literal "tracker" "i") Umbra.initial)
    as (Hadded & Hremoved & _); [reflexivity|].
  split; [rewrite Hadded; reflexivity | exact Hremoved].
Defined.

(** A filter list in which every URL filter holds a [RegExp]. *)
Lemma scanFilters_no_throw (fs : list AdBlocker.Filter)
    (fullUrl hostname : string) :
  forallb AdBlockControls.testable fs = true ->
  fst (AdBlocker.scanFilters fs fullUrl hostname) <> AdBlocker.Threw.
Proof.
  induction fs as [|f fs IH]; simpl; [discriminate|].
  intros Hall. apply andb_true_iff in Hall as [Hf Hall].
  unfold AdBlockControls.testable in Hf.
  destruct (AdBlocker.url_filter f).
  - destruct (AdBlocker.pattern f); try discriminate.
    destruct (Regex.test r fullUrl) as [[] r1]; [simpl; discriminate|].
    destruct (Regex.test r1 hostname) as [[] r2]; [simpl; discriminate|].
    destruct (AdBlocker.scanFilters fs fullUrl hostname). simpl in *. auto.
  - destruct (AdBlocker.scanFilters fs fullUrl hostname). simpl in *. auto.
Qed.

Lemma scanLists_no_throw (ls : list (string * list AdBlocker.Filter))
    (fullUrl hostname : string) :
  forallb (fun l => forallb AdBlockControls.testable (snd l)) ls = true ->
  fst (AdBlocker.scanLists ls fullUrl hostname) <> AdBlocker.Threw.
Proof.
  induction ls as [|[name fs] ls IH]; simpl; [discriminate|].
  intros Hall. apply andb_true_iff in Hall as [Hfs Hall].
  pose proof (scanFilters_no_throw fs fullUrl hostname Hfs) as Hno.
  destruct (AdBlocker.scanFilters fs fullUrl hostname) as [[] fs'];
    simpl in *; try discriminate; try congruence.
  destruct (AdBlocker.scanLists ls fullUrl hostname). simpl in *. auto.
Qed.

Lemma scanCustom_reaches (cs rest : list AdBlocker.Filter)
    (f : AdBlocker.Filter) (r : Regex.RegExp) (fullUrl : string) :
  AdBlocker.url_filter f = true ->
  AdBlocker.pattern f = AdBlocker.PRegExp r ->
  fst (Regex.test r fullUrl) = true ->
  fst (AdBlocker.scanCustom (cs ++ f :: rest) fullUrl) = true.
Proof.
  intros Hty Hp Ht. induction cs as [|c cs IH]; simpl.
  - rewrite Hty, Hp. destruct (Regex.test r fullUrl) as [hit r'].
    simpl in Ht. subst hit. reflexivity.
  - destruct (AdBlocker.scanCustom (cs ++ f :: rest) fullUrl) as [o rest'].
    simpl in IH. subst o.
    destruct (AdBlocker.url_filter c); [|reflexivity].
    destruct (AdBlocker.pattern c) as [q| |]; try reflexivity.
    destruct (Regex.test q fullUrl) as [[] q']; reflexivity.
Qed.

(** X13: a custom filter takes effect at once.  After
    [addCustomFilter(pattern, type, ...)] with type [domain] or [url],
    [shouldBlockUrl] answers true for every URL that parses, whose host
    is not on the whitelist and whose lower-cased text the new pattern
    matches, provided every URL filter of the filter lists holds a
    [RegExp] (as the default list does). *)
Theorem custom_filter_blocks `{Host} (pattern ty description : string)
    (r : Regex.RegExp) (a : Umbra.App) (url : string) (urlObj : URL) :
  RegExp_new pattern "i" = Some r ->
  String.eqb ty "domain" || String.eqb ty "url" = true ->
  URL_new url = Some urlObj ->
  JS.array_includes (AdBlocker.whitelist (Umbra.adBlocker a))
    (JS.toLowerCase (hostname urlObj)) = false ->
  forallb (fun l => forallb AdBlockControls.testable (snd l))
    (AdBlocker.filterLists (Umbra.adBlocker a)) = true ->
  fst (Regex.test r (JS.toLowerCase url)) = true ->
  fst (AdBlocker.shouldBlockUrl
         (Umbra.adBlocker
            (snd (Umbra.addCustomFilter pattern ty description a))) url)
  = true.
Proof.
  intros Hr Hty Hurl Hwl Hlists Htest.
  unfold Umbra.addCustomFilter. rewrite Hr. cbn [snd]. cbn zeta.
  cbn [Umbra.notify Umbra.with_localStorage Umbra.with_adBlocker
       Umbra.adBlocker].
  unfold AdBlocker.shouldBlockUrl. rewrite Hurl.
  cbn [AdBlocker.set_filters AdBlocker.whitelist AdBlocker.filterLists
       AdBlocker.customFilters].
  rewrite Hwl.
  pose proof (scanLists_no_throw _ (JS.toLowerCase url)
                (JS.toLowerCase (hostname urlObj)) Hlists) as Hno.
  destruct (AdBlocker.scanLists _ _ _) as [[] lists']; simpl in Hno;
    try reflexivity; try congruence.
  pose proof (scanCustom_reaches
                (AdBlocker.customFilters (Umbra.adBlocker a)) []
                (AdBlocker.mkFilter (AdBlocker.PRegExp r) ty description true)
                r (JS.toLowerCase url) Hty eq_refl Htest) as Hhit.
  destruct (AdBlocker.scanCustom _ _) as [hit customs']. simpl in Hhit.
  subst hit. reflexivity.
Qed.

Lemma custom_filter_blocks_witness :
  fst (AdBlocker.shouldBlockUrl (H := RefHost.host)
         (Umbra.adBlocker
            (snd (Umbra.addCustomFilter (H := RefHost.host) "tracker" "url"
                    "trackers" Umbra.initial)))
         "https://online.example.org/Tracker.js") = true
  /\ fst (AdBlocker.shouldBlockUrl (H := RefHost.host)
            (Umbra.adBlocker Umbra.initial)
            "https://online.example.org/Tracker.js") = false.
Proof.
  split.
  - eapply (custom_filter_blocks (H := RefHost.host)); reflexivity.
  - vm_compute. reflexivity.
Defined.

(** ** Ad blocker: whitelist *)

Lemma whitelist_add_includes (d : string) (w : list string) :
  JS.array_includes (AdBlocker.whitelist_add d w) d = true.
Proof.
  unfold AdBlocker.whitelist_add.
  destruct (JS.array_includes w d) eqn:Hin; [exact Hin|].
  unfold JS.array_includes. rewrite existsb_app. simpl.
  rewrite String.eqb_refl. apply orb_true_iff. right. reflexivity.
Qed.

(** X14: [addToWhitelist] lower-cases the domain, as [shouldBlockUrl]
    lower-cases the host name: after [addToWhitelist(domain)] no URL on
    that host, in whatever letter case either is written, is blocked,
    and no filter is tried on it. *)
Theorem addToWhitelist_allows `{Host} (domain url : string) (urlObj : URL)
    (a : Umbra.App) :
  URL_new url = Some urlObj ->
  JS.toLowerCase (hostname urlObj) = JS.toLowerCase domain ->
  let ab := Umbra.adBlocker (Umbra.addToWhitelist domain a) in
  AdBlocker.shouldBlockUrl ab url = (false, ab).
Proof.
  intros Hurl Hhost. cbn zeta. unfold AdBlocker.shouldBlockUrl.
  rewrite Hurl, Hhost.
  cbn [Umbra.addToWhitelist Umbra.notify Umbra.with_localStorage
       Umbra.with_adBlocker Umbra.adBlocker AdBlocker.set_whitelist
       AdBlocker.whitelist].
  rewrite whitelist_add_includes. reflexivity.
Qed.

Lemma addToWhitelist_allows_witness :
  let ab := Umbra.adBlocker
              (Umbra.addToWhitelist "Ads.Example.ORG" Umbra.initial) in
  AdBlocker.shouldBlockUrl (H := RefHost.host) ab
    "https://ads.example.org/popup"
  = (false, ab)
  /\ fst (AdBlocker.shouldBlockUrl (H := RefHost.host)
            (Umbra.adBlocker Umbra.initial) "https://ads.example.org/popup")
     = true.
Proof.
  split.
  - eapply (addToWhitelist_allows (H := RefHost.host)); reflexivity.
  - vm_compute. reflexivity.
Defined.

Lemma whitelist_delete_absent (d : string) (w : list string) :
  JS.array_includes w d = false -> AdBlockControls.whitelist_delete d w = w.
Proof.
  unfold JS.array_includes, AdBlockControls.whitelist_delete.
  induction w as [|x w IH]; simpl; [reflexivity|].
  intros Hin. apply orb_false_iff in Hin as [Hx Hin].
  rewrite String.eqb_sym, Hx. simpl. rewrite (IH Hin). reflexivity.
Qed.

Lemma whitelist_delete_excludes (d : string) (w : list string) :
  JS.array_includes (AdBlockControls.whitelist_delete d w) d = false.
Proof.
  unfold JS.array_includes, AdBlockControls.whitelist_delete.
  induction w as [|x w IH]; simpl; [reflexivity|].
  destruct (String.eqb x d) eqn:Hx; simpl; [exact IH|].
  rewrite String.eqb_sym, Hx. exact IH.
Qed.

(** X15: [removeFromWhitelist] undoes [addToWhitelist]: the domain is
    no longer on the whitelist, whatever case it is written in; when it
    was not there before the two calls the whitelist is what it was, and
    storage holds that whitelist under [umbra-ad-whitelist]. *)
Theorem removeFromWhitelist_undoes_add (domain : string) (a : Umbra.App) :
  let before := AdBlocker.whitelist (Umbra.adBlocker a) in
  let a' := AdBlockControls.removeFromWhitelist domain
              (Umbra.addToWhitelist domain a) in
  let after := AdBlocker.whitelist (Umbra.adBlocker a') in
  JS.array_includes after (JS.toLowerCase domain) = false
  /\ Umbra.localStorage a' !! "umbra-ad-whitelist"
     = Some (Storage.Json (Storage.JArr (map Storage.JStr after)))
  /\ (JS.array_includes before (JS.toLowerCase domain) = false ->
      after = before).
Proof.
  cbn zeta.
  cbn [AdBlockControls.removeFromWhitelist Umbra.addToWhitelist Umbra.notify
       Umbra.with_localStorage Umbra.with_adBlocker Umbra.adBlocker
       Umbra.localStorage AdBlocker.set_whitelist AdBlocker.whitelist
       AdBlocker.saveWhitelist].
  split; [apply whitelist_delete_excludes|].
  split; [unfold Storage.setItem; apply lookup_insert_eq|].
  intros Hfresh. unfold AdBlocker.whitelist_add. rewrite Hfresh.
  unfold AdBlockControls.whitelist_delete. rewrite List.filter_app. simpl.
  rewrite String.eqb_refl. simpl. rewrite app_nil_r.
  apply whitelist_delete_absent. exact Hfresh.
Qed.

(** ** Ad blocker: element classification *)




(** ** Navigation of the [scripts/] browser *)

Lemma loadUrl_fields (url : string) (s : Navigation.t) :
  let s' := snd (Navigation.loadUrl url s) in
  Navigation.history s' = Navigation.history s
  /\ Navigation.historyIndex s' = Navigation.historyIndex s
  /\ Navigation.isPrivateMode s' = Navigation.isPrivateMode s
  /\ Navigation.currentUrl s' = Navigation.currentUrl s.
Proof.
  unfold Navigation.loadUrl. cbn zeta.
  destruct (Navigation.isSecureUrl url); cbn [Navigation.contentFrame];
    [destruct (Navigation.contentFrame (Navigation.page s))|];
    repeat split.
Qed.

Lemma show_fields (url : option string) (s : Navigation.t) :
  let s' := snd (Navigation.show url s) in
  Navigation.history s' = Navigation.history s
  /\ Navigation.historyIndex s' = Navigation.historyIndex s
  /\ Navigation.isPrivateMode s' = Navigation.isPrivateMode s
  /\ Navigation.currentUrl s' = Navigation.currentUrl s.
Proof.
  unfold Navigation.show.
  pose proof (loadUrl_fields (Navigation.text url) s) as Hload.
  destruct (Navigation.loadUrl (Navigation.text url) s) as [[[]|e] s1];
    exact Hload.
Qed.



Lemma search_url_is_visited `{Host} (depth : nat) (query : string)
    (s : Navigation.t) :
  let url := String.append "https://www.google.com/search?q=" query in
  Navigation.navigate_depth (S depth) url s = Navigation.visit url s.
Proof. reflexivity. Qed.

Lemma navigate_depth_unfold `{Host} (depth : nat) (url : string)
    (s : Navigation.t) :
  Navigation.navigate_depth (S depth) url s
  = if String.eqb url "" then (Returned tt, s)
    else if negb (JS.startsWith url "http://")
            && negb (JS.startsWith url "https://")
    then
      if JS.includes url "." && negb (JS.includes url " ")
      then Navigation.visit (String.append "https://" url) s
      else
        Navigation.navigate_depth depth
          (String.append "https://www.google.com/search?q="
             (encodeURIComponent url)) s
    else Navigation.visit url s.
Proof. reflexivity. Qed.

(** Deeper nesting than two calls is never used: [navigate] returns
    what the unbounded recursion returns. *)
Lemma navigate_depth_enough `{Host} (depth : nat) (url : string)
    (s : Navigation.t) :
  Navigation.navigate_depth (S (S depth)) url s = Navigation.navigate url s.
Proof.
  unfold Navigation.navigate.
  rewrite (navigate_depth_unfold (S depth)), (navigate_depth_unfold 1).
  destruct (String.eqb url ""); [reflexivity|].
  destruct (negb _ && negb _); [|reflexivity].
  destruct (JS.includes url "." && _); [reflexivity|].
  rewrite (search_url_is_visited depth), (search_url_is_visited 0).
  reflexivity.
Qed.

Lemma navigate_visits `{Host} (url : string) (s : Navigation.t) :
  url <> "" ->
  Navigation.navigate url s = Navigation.visit (Navigation.target url) s.
Proof.
  intros Hurl. unfold Navigation.navigate, Navigation.target.
  rewrite (navigate_depth_unfold 1).
  apply String.eqb_neq in Hurl. rewrite Hurl.
  destruct (negb _ && negb _); [|reflexivity].
  destruct (JS.includes url "." && _); [reflexivity|].
  apply (search_url_is_visited 0).
Qed.

Lemma target_web_address `{Host} (url : string) :
  JS.startsWith (Navigation.target url) "http://"
  || JS.startsWith (Navigation.target url) "https://" = true.
Proof.
  unfold Navigation.target.
  destruct (JS.startsWith url "http://") eqn:H1;
    destruct (JS.startsWith url "https://") eqn:H2; simpl;
    rewrite ?H1, ?H2; try reflexivity.
  destruct (JS.includes url "." && _); apply orb_true_iff; right;
    [apply startsWith_append | vm_compute; reflexivity].
Qed.

Lemma forallb_take {A : Type} (f : A -> bool) (n : nat) (l : list A) :
  forallb f l = true -> forallb f (take n l) = true.
Proof.
  revert n. induction l as [|x l IH]; intros [|n]; simpl; auto.
  intros Hall. apply andb_true_iff in Hall as [Hx Hall].
  rewrite Hx. simpl. auto.
Qed.

Lemma slice_to_addresses (e : Z) (l : list string) (f : string -> bool) :
  forallb f l = true -> forallb f (Navigation.slice_to e l) = true.
Proof.
  unfold Navigation.slice_to. destruct (e <? 0)%Z; apply forallb_take.
Qed.

Lemma visit_invariant (url : string) (s : Navigation.t) :
  JS.startsWith url "http://" || JS.startsWith url "https://" = true ->
  Navigation.inBounds s = true -> Navigation.webAddresses s = true ->
  let s' := snd (Navigation.visit url s) in
  Navigation.inBounds s' = true /\ Navigation.webAddresses s' = true.
Proof.
  intros Hurl Hb Hw. cbn zeta. unfold Navigation.visit.
  destruct (show_fields (Some url)
              (Navigation.addToHistory url
                 (Navigation.mk (Navigation.isPrivateMode s) (Some url)
                    (Navigation.history s) (Navigation.historyIndex s)
                    (Navigation.page s))))
    as (Hh & Hi & _ & _).
  unfold Navigation.inBounds, Navigation.webAddresses in *.
  rewrite Hh, Hi. unfold Navigation.addToHistory.
  cbn [Navigation.isPrivateMode Navigation.history Navigation.historyIndex].
  destruct (Navigation.isPrivateMode s);
    cbn [negb Navigation.history Navigation.historyIndex]; [auto|].
  split.
  - apply andb_true_iff. rewrite length_app. cbn [length].
    split; [apply Z.leb_le | apply Z.ltb_lt]; lia.
  - rewrite forallb_app. apply andb_true_iff. split.
    + apply slice_to_addresses. exact Hw.
    + cbn [forallb]. rewrite Hurl. reflexivity.
Qed.

Lemma step_invariant `{Host} (s : Navigation.t) (action : Navigation.Action) :
  Navigation.inBounds s = true -> Navigation.webAddresses s = true ->
  Navigation.inBounds (Navigation.step s action) = true
  /\ Navigation.webAddresses (Navigation.step s action) = true.
Proof.
  intros Hb Hw. destruct action as [url| | | |]; cbn [Navigation.step].
  - destruct (String.eqb_spec url "") as [->|Hurl]; [auto|].
    rewrite (navigate_visits url s Hurl).
    apply visit_invariant; auto using target_web_address.
  - unfold Navigation.goBack.
    destruct (0 <? Navigation.historyIndex s)%Z eqn:Hpos; [|auto].
    match goal with |- context [Navigation.show ?u ?s0] =>
      destruct (show_fields u s0) as (Hh & Hi & _ & _) end.
    unfold Navigation.inBounds, Navigation.webAddresses in *.
    rewrite Hh, Hi. cbn [Navigation.history Navigation.historyIndex].
    split; [|exact Hw].
    apply andb_true_iff in Hb as [Hlo Hhi].
    apply Z.ltb_lt in Hpos, Hhi.
    apply andb_true_iff. split; [apply Z.leb_le | apply Z.ltb_lt]; lia.
  - unfold Navigation.goForward.
    destruct (Navigation.historyIndex s <? _)%Z eqn:Hnext; [|auto].
    match goal with |- context [Navigation.show ?u ?s0] =>
      destruct (show_fields u s0) as (Hh & Hi & _ & _) end.
    unfold Navigation.inBounds, Navigation.webAddresses in *.
    rewrite Hh, Hi. cbn [Navigation.history Navigation.historyIndex].
    split; [|exact Hw].
    apply andb_true_iff in Hb as [Hlo Hhi].
    apply Z.leb_le in Hlo. apply Z.ltb_lt in Hnext.
    apply andb_true_iff. split; [apply Z.leb_le | apply Z.ltb_lt]; lia.
  - unfold Navigation.refresh.
    destruct (Navigation.currentUrl s) as [url|]; [|auto].
    destruct (String.eqb url ""); [auto|].
    destruct (loadUrl_fields url s) as (Hh & Hi & _ & _).
    unfold Navigation.inBounds, Navigation.webAddresses in *.
    rewrite Hh, Hi. auto.
  - auto.
Qed.

(** X17: whatever the user does with the address bar and the
    navigation buttons, in either mode, the history index stays -1 or a
    position inside the history, and the history holds only [http://]
    and [https://] addresses. *)
Theorem history_stays_consistent `{Host} (actions : list Navigation.Action)
    (s : Navigation.t) :
  Navigation.inBounds s = true -> Navigation.webAddresses s = true ->
  Navigation.inBounds (Navigation.run actions s) = true
  /\ Navigation.webAddresses (Navigation.run actions s) = true.
Proof.
  revert s. induction actions as [|action actions IH]; intros s Hb Hw.
  - auto.
  - destruct (step_invariant s action Hb Hw) as [Hb' Hw'].
    exact (IH _ Hb' Hw').
Qed.

Lemma history_stays_consistent_witness :
  let s := Navigation.run (H := RefHost.host)
             [Navigation.Navigate "example.org"; Navigation.Navigate "cats";
              Navigation.Back; Navigation.Navigate "http://a.example/";
              Navigation.Forward; Navigation.Back; Navigation.Back]
             (Navigation.initial false) in
  Navigation.inBounds s = true /\ Navigation.webAddresses s = true
  /\ Navigation.historyIndex s = 0%Z
  /\ Navigation.history s = ["https://example.org"; "http://a.example/"].
Proof.
  destruct (history_stays_consistent (H := RefHost.host)
              [Navigation.Navigate "example.org"; Navigation.Navigate "cats";
               Navigation.Back; Navigation.Navigate "http://a.example/";
               Navigation.Forward; Navigation.Back; Navigation.Back]
              (Navigation.initial false)) as [Hb Hw];
    [reflexivity | reflexivity |].
  split; [exact Hb|]. split; [exact Hw|].
  split; vm_compute; reflexivity.
Defined.




(** X19: going back and then forward returns to the same entry: from a
    consistent history with an earlier entry, [goBack] followed by
    [goForward] leaves the history and the index as they were and makes
    the entry at the index the current URL. *)
Theorem back_then_forward (s : Navigation.t) :
  Navigation.inBounds s = true -> (0 < Navigation.historyIndex s)%Z ->
  let s' := snd (Navigation.goForward (snd (Navigation.goBack s))) in
  Navigation.history s' = Navigation.history s
  /\ Navigation.historyIndex s' = Navigation.historyIndex s
  /\ Navigation.currentUrl s'
     = Navigation.history s !! Z.to_nat (Navigation.historyIndex s)
  /\ is_Some (Navigation.currentUrl s').
Proof.
  intros Hb Hpos. cbn zeta.
  apply andb_true_iff in Hb as [Hlo Hhi]. apply Z.ltb_lt in Hhi.
  unfold Navigation.goBack. apply Z.ltb_lt in Hpos. rewrite Hpos.
  apply Z.ltb_lt in Hpos.
  match goal with |- context [Navigation.show ?u ?s0] =>
    destruct (show_fields u s0) as (Hh & Hi & Hp & Hc);
    set (s1 := snd (Navigation.show u s0)) in * end.
  cbn [Navigation.history Navigation.historyIndex Navigation.isPrivateMode
       Navigation.currentUrl] in Hh, Hi, Hp, Hc.
  unfold Navigation.goForward. rewrite Hh, Hi.
  destruct (_ <? _)%Z eqn:Hnext; [|apply Z.ltb_ge in Hnext; lia].
  match goal with |- context [Navigation.show ?u ?s0] =>
    destruct (show_fields u s0) as (Hh' & Hi' & _ & Hc') end.
  rewrite Hh', Hi', Hc'.
  cbn [Navigation.history Navigation.historyIndex Navigation.currentUrl].
  replace (Navigation.historyIndex s - 1 + 1)%Z
    with (Navigation.historyIndex s) by lia.
  unfold Navigation.at_index.
  destruct (_ <? 0)%Z eqn:Hneg; [apply Z.ltb_lt in Hneg; lia|].
  repeat split. apply lookup_lt_is_Some. lia.
Qed.

Lemma back_then_forward_witness :
  let s := Navigation.run (H := RefHost.host)
             [Navigation.Navigate "example.org";
              Navigation.Navigate "example.net"]
             (Navigation.initial false) in
  let s' := snd (Navigation.goForward (snd (Navigation.goBack s))) in
  Navigation.historyIndex s = 1%Z
  /\ Navigation.historyIndex s' = 1%Z
  /\ Navigation.currentUrl s' = Some "https://example.net".
Proof.
  destruct (back_then_forward
              (Navigation.run (H := RefHost.host)
                 [Navigation.Navigate "example.org";
                  Navigation.Navigate "example.net"]
                 (Navigation.initial false)))
    as (_ & Hi & Hc & _); [reflexivity | reflexivity |].
  split; [reflexivity|]. split; [exact Hi|]. rewrite Hc. reflexivity.
Defined.

Lemma step_private `{Host} (s : Navigation.t) (action : Navigation.Action) :
  Navigation.isPrivateMode s = true ->
  Navigation.isPrivateMode (Navigation.step s action) = true
  /\ Navigation.history (Navigation.step s action) = Navigation.history s.
Proof.
  intros Hp. destruct action as [url| | | |]; cbn [Navigation.step].
  - destruct (String.eqb_spec url "") as [->|Hurl]; [auto|].
    rewrite (navigate_visits url s Hurl). unfold Navigation.visit.
    match goal with |- context [Navigation.show ?u ?s0] =>
      destruct (show_fields u s0) as (Hh & _ & Hm & _) end.
    rewrite Hh, Hm. unfold Navigation.addToHistory.
    cbn [Navigation.isPrivateMode]. rewrite Hp. auto.
  - unfold Navigation.goBack. destruct (0 <? _)%Z; [|auto].
    match goal with |- context [Navigation.show ?u ?s0] =>
      destruct (show_fields u s0) as (Hh & _ & Hm & _) end.
    rewrite Hh, Hm. auto.
  - unfold Navigation.goForward. destruct (_ <? _)%Z; [|auto].
    match goal with |- context [Navigation.show ?u ?s0] =>
      destruct (show_fields u s0) as (Hh & _ & Hm & _) end.
    rewrite Hh, Hm. auto.
  - unfold Navigation.refresh.
    destruct (Navigation.currentUrl s) as [url|]; [|auto].
    destruct (String.eqb url ""); [auto|].
    destruct (loadUrl_fields url s) as (Hh & _ & Hm & _).
    rewrite Hh, Hm. auto.
  - auto.
Qed.

(** X20: private browsing leaves no history.  While [isPrivateMode] is
    set, no run of navigations, back, forward, refresh and home actions
    changes the history list; a navigation still makes the visited
    address the current URL. *)
Theorem private_mode_keeps_history `{Host} (actions : list Navigation.Action)
    (s : Navigation.t) :
  Navigation.isPrivateMode s = true ->
  Navigation.history (Navigation.run actions s) = Navigation.history s
  /\ forall url : string,
       url <> "" ->
       Navigation.currentUrl (snd (Navigation.navigate url s))
       = Some (Navigation.target url).
Proof.
  intros Hp. split.
  - revert s Hp. induction actions as [|action actions IH]; intros s Hp.
    + reflexivity.
    + destruct (step_private s action Hp) as [Hp' Hh].
      cbn [Navigation.run fold_left].
      etransitivity; [exact (IH _ Hp')|exact Hh].
  - intros url Hurl. rewrite (navigate_visits url s Hurl).
    unfold Navigation.visit.
    match goal with |- context [Navigation.show ?u ?s0] =>
      destruct (show_fields u s0) as (_ & _ & _ & Hc) end.
    rewrite Hc. unfold Navigation.addToHistory.
    cbn [Navigation.isPrivateMode]. rewrite Hp. reflexivity.
Qed.

Lemma private_mode_keeps_history_witness :
  Navigation.history
    (Navigation.run (H := RefHost.host)
       [Navigation.Navigate "example.org"; Navigation.Navigate "cats";
        Navigation.Back; Navigation.Home]
       (Navigation.initial true)) = [].
Proof.
  apply (private_mode_keeps_history (H := RefHost.host)
           [Navigation.Navigate "example.org"; Navigation.Navigate "cats";
            Navigation.Back; Navigation.Home] (Navigation.initial true)).
  reflexivity.
Defined.

(** X21: outside private mode a navigation drops the forward entries.
    The visited address is appended right after the current position,
    every later entry is discarded, the index points at the new last
    entry, and [goForward] has nothing to go to. *)
Theorem navigate_drops_forward_entries `{Host} (url : string)
    (s : Navigation.t) :
  url <> "" -> Navigation.isPrivateMode s = false ->
  Navigation.inBounds s = true ->
  let s' := snd (Navigation.navigate url s) in
  Navigation.history s'
  = take (Z.to_nat (Navigation.historyIndex s + 1)) (Navigation.history s)
    ++ [Navigation.target url]
  /\ Navigation.historyIndex s' = (Navigation.historyIndex s + 1)%Z
  /\ Navigation.currentUrl s' = Some (Navigation.target url)
  /\ Navigation.goForward s' = (Returned tt, s').
Proof.
  intros Hurl Hp Hb. cbn zeta. rewrite (navigate_visits url s Hurl).
  apply andb_true_iff in Hb as [Hlo Hhi].
  apply Z.leb_le in Hlo. apply Z.ltb_lt in Hhi.
  unfold Navigation.visit.
  match goal with |- context [Navigation.show ?u ?s0] =>
    destruct (show_fields u s0) as (Hh & Hi & _ & Hc);
    set (s' := snd (Navigation.show u s0)) in * end.
  unfold Navigation.addToHistory in Hh, Hi, Hc.
  cbn [Navigation.isPrivateMode] in Hh, Hi, Hc. rewrite Hp in Hh, Hi, Hc.
  cbn [negb Navigation.history Navigation.historyIndex
       Navigation.currentUrl] in Hh, Hi, Hc.
  unfold Navigation.slice_to in Hh, Hi.
  destruct (_ <? 0)%Z eqn:Hneg; [apply Z.ltb_lt in Hneg; lia|].
  assert (length (take (Z.to_nat (Navigation.historyIndex s + 1))
                    (Navigation.history s))
          = Z.to_nat (Navigation.historyIndex s + 1)) as Hlen
    by (rewrite length_take; lia).
  rewrite length_app, Hlen in Hi. cbn [length] in Hi.
  repeat split; [exact Hh | lia | exact Hc |].
  unfold Navigation.goForward. rewrite Hh, Hi, length_app, Hlen.
  cbn [length]. rewrite Z.ltb_irrefl. reflexivity.
Qed.

Lemma navigate_drops_forward_entries_witness :
  let s := Navigation.run (H := RefHost.host)
             [Navigation.Navigate "example.org";
              Navigation.Navigate "example.net"; Navigation.Back]
             (Navigation.initial false) in
  Navigation.history s = ["https://example.org"; "https://example.net"]
  /\ Navigation.history
       (snd (Navigation.navigate (H := RefHost.host) "two words" s))
     = ["https://example.org";
        "https://www.google.com/search?q=two%20words"].
Proof.
  split; [vm_compute; reflexivity|].
  destruct (navigate_drops_forward_entries (H := RefHost.host) "two words"
              (Navigation.run (H := RefHost.host)
                 [Navigation.Navigate "example.org";
                  Navigation.Navigate "example.net"; Navigation.Back]
                 (Navigation.initial false)))
    as (Hh & _); [discriminate | reflexivity | reflexivity |].
  rewrite Hh. vm_compute. reflexivity.
Defined.

(** ** Settings of the [scripts/] tree *)

(** X22: the settings written by [saveSecuritySettings] and
    [savePrivacySettings] outside private mode are the ones
    [loadSecuritySettings] and [loadPrivacySettings] read back: whatever
    the flags of the managers are at the time of loading, they become
    the saved ones again, and the counters and the private-mode flag are
    not touched. *)
Theorem settings_round_trip (w : Scripts.Window)
    (sm : Scripts.SecurityManager) (pm : Scripts.PrivacyManager) :
  Scripts.browser_persists w = true ->
  Scripts.privateMode (Scripts.privacyManager w) = false ->
  let saved := Scripts.savePrivacySettings (Scripts.saveSecuritySettings w) in
  let later := ScriptsControls.with_privacyManager pm
                 (Scripts.with_securityManager sm saved) in
  let loaded := ScriptsControls.loadPrivacySettings
                  (ScriptsControls.loadSecuritySettings later) in
  let sm0 := Scripts.securityManager w in
  let pm0 := Scripts.privacyManager w in
  Scripts.securityManager loaded
  = Scripts.mkSecurityManager (Scripts.adBlockEnabled sm0)
      (Scripts.malwareProtection sm0) (Scripts.phishingProtection sm0)
      (Scripts.safeBrowsing sm0) (Scripts.blockedAds sm)
      (Scripts.blockedMalware sm) (Scripts.blockedPhishing sm)
  /\ Scripts.privacyManager loaded
     = Scripts.mkPrivacyManager (Scripts.trackingProtection pm0)
         (Scripts.fingerprintingProtection pm0) (Scripts.cookieBlocking pm0)
         (Scripts.httpsUpgrade pm0) (Scripts.privateMode pm).
Proof.
  intros Hb Hp. cbn zeta.
  unfold Scripts.saveSecuritySettings. rewrite Hb.
  unfold Scripts.savePrivacySettings.
  cbn [Scripts.with_localStorage Scripts.privacyManager].
  rewrite Hp. cbn [negb].
  unfold ScriptsControls.loadSecuritySettings, ScriptsControls.parseItem.
  cbn [Scripts.with_localStorage Scripts.with_securityManager
       ScriptsControls.with_privacyManager Scripts.localStorage
       Scripts.securityManager Scripts.privacyManager].
  unfold Storage.setItem.
  rewrite lookup_insert_ne by discriminate. rewrite lookup_insert_eq.
  cbn [ScriptsControls.truthy].
  unfold ScriptsControls.loadPrivacySettings, ScriptsControls.parseItem.
  cbn [Scripts.with_localStorage Scripts.with_securityManager
       ScriptsControls.with_privacyManager Scripts.localStorage
       Scripts.securityManager Scripts.privacyManager].
  rewrite lookup_insert_eq. cbn [ScriptsControls.truthy].
  cbn [Scripts.with_localStorage Scripts.with_securityManager
       ScriptsControls.with_privacyManager Scripts.localStorage
       Scripts.securityManager Scripts.privacyManager].
  destruct (Scripts.securityManager w) as [[] [] [] [] ? ? ?];
    destruct (Scripts.privacyManager w) as [[] [] [] [] ?];
    split; reflexivity.
Qed.

Lemma settings_round_trip_witness :
  let w := Scripts.with_securityManager
             (Scripts.mkSecurityManager false true false true 3 0 0)
             Examples.normalWindow in
  let saved := Scripts.savePrivacySettings (Scripts.saveSecuritySettings w) in
  let later := Scripts.with_securityManager
                 (Scripts.mkSecurityManager true true true true 0 0 0)
                 saved in
  Scripts.securityManager
    (ScriptsControls.loadPrivacySettings
       (ScriptsControls.loadSecuritySettings later))
  = Scripts.mkSecurityManager false true false true 0 0 0.
Proof.
  destruct (settings_round_trip
              (Scripts.with_securityManager
                 (Scripts.mkSecurityManager false true false true 3 0 0)
                 Examples.normalWindow)
              (Scripts.mkSecurityManager true true true true 0 0 0)
              (Scripts.mkPrivacyManager true true true true false))
    as [Hsm _]; [reflexivity | reflexivity |].
  exact Hsm.
Defined.

(** ** Unsafe URLs *)

Lemma shortener_matches_t_co (rest : list ascii) (i : nat) :
  is_Some
    (Regex.m false (Regex.pattern ScriptsControls.shortenerPattern)
       ("t"%char :: "."%char :: "c"%char :: "o"%char :: rest) i
       (fun _ e => Some e)).
Proof. vm_compute. eauto. Qed.

(** X23: [isUnsafeUrl] answers true for every URL whose text contains
    [t.co]: the URL-shortener pattern [/bit\.ly|tinyurl|t\.co/] is
    searched in the whole URL, so every address on a host that ends in
    [t.com] (or any other text with these four characters) is
    unsafe. *)
Theorem isUnsafeUrl_flags_t_co `{Host} (url : string) :
  JS.includes url "t.co" = true -> ScriptsControls.isUnsafeUrl url = true.
Proof.
  intros Hin. unfold ScriptsControls.isUnsafeUrl.
  destruct (URL_new url) as [urlObj|]; [|reflexivity].
  destruct (existsb _ ScriptsControls.malwareDomains); [reflexivity|].
  destruct (existsb _ ScriptsControls.phishingDomains); [reflexivity|].
  unfold ScriptsControls.suspiciousPatterns. cbn [existsb].
  apply orb_true_iff. right. apply orb_true_iff. left.
  destruct (includes_split _ _ Hin) as (pre & rest & ->).
  apply test_found; [reflexivity|].
  rewrite list_ascii_of_string_append. apply search_after.
  apply shortener_matches_t_co.
Qed.

Lemma isUnsafeUrl_flags_t_co_witness :
  ScriptsControls.isUnsafeUrl (H := RefHost.host)
    "https://www.microsoft.com/" = true.
Proof.
  apply (isUnsafeUrl_flags_t_co (H := RefHost.host)). reflexivity.
Defined.

(** ** Frames *)

Lemma replace_unfold (s p r : string) :
  JS.replace s p r
  = if JS.startsWith s p then String.append r (JS.drop (String.length p) s)
    else match s with
         | EmptyString => EmptyString
         | String a s' => String a (JS.replace s' p r)
         end.
Proof. destruct s; reflexivity. Qed.

Lemma startsWith_cons (a c : ascii) (s p : string) :
  JS.startsWith (String a s) (String c p)
  = Ascii.eqb c a && JS.startsWith s p.
Proof. reflexivity. Qed.

(** The replacement leaves in place what the text starts with, as long
    as that is a proper tail of the replaced prefix. *)
Lemma replace_keeps_tail (tail : string) (s : string) :
  In tail ["/"; "//"; "://"; "p://"; "tp://"; "ttp://"] ->
  JS.startsWith (JS.replace s "http://" "https://") tail
  = JS.startsWith s tail.
Proof.
  assert (forall tail' c s,
            c <> "h"%char ->
            (forall s, JS.startsWith (JS.replace s "http://" "https://") tail'
                       = JS.startsWith s tail') ->
            JS.startsWith (JS.replace s "http://" "https://") (String c tail')
            = JS.startsWith s (String c tail')) as Hstep.
  { intros tail' c s0 Hc IH. rewrite replace_unfold.
    destruct (JS.startsWith s0 "http://") eqn:Hs.
    - destruct (startsWith_split _ _ Hs) as [rest ->].
      cbv [String.append String.length JS.drop].
      rewrite !startsWith_cons.
      destruct (Ascii.eqb_spec c "h"); [contradiction | reflexivity].
    - destruct s0 as [|a s0]; [reflexivity|].
      rewrite !startsWith_cons, IH. reflexivity. }
  assert (forall s, JS.startsWith (JS.replace s "http://" "https://") ""
                    = JS.startsWith s "") as H0.
  { intros s0. destruct s0, (JS.replace _ _ _); reflexivity. }
  pose proof (fun s => Hstep "" "/"%char s ltac:(discriminate) H0) as H1.
  pose proof (fun s => Hstep "/" "/"%char s ltac:(discriminate) H1) as H2.
  pose proof (fun s => Hstep "//" ":"%char s ltac:(discriminate) H2) as H3.
  pose proof (fun s => Hstep "://" "p"%char s ltac:(discriminate) H3) as H4.
  pose proof (fun s => Hstep "p://" "t"%char s ltac:(discriminate) H4) as H5.
  pose proof (fun s => Hstep "tp://" "t"%char s ltac:(discriminate) H5) as H6.
  intros Hin. simpl in Hin.
  destruct Hin as [<-|[<-|[<-|[<-|[<-|[<-|[]]]]]]]; auto.
Qed.

Lemma replace_never_http (s : string) :
  JS.startsWith (JS.replace s "http://" "https://") "http://" = false.
Proof.
  rewrite replace_unfold. destruct (JS.startsWith s "http://") eqn:Hs.
  - destruct (startsWith_split _ _ Hs) as [rest ->]. reflexivity.
  - destruct s as [|a s]; [reflexivity|].
    rewrite startsWith_cons, (replace_keeps_tail "ttp://").
    + rewrite <- startsWith_cons. exact Hs.
    + simpl. tauto.
Qed.

(** X24: with HTTPS upgrade on, [filterIframe] never leaves a frame on
    a plain [http://] address: a tracking frame is pointed at
    [about:blank], any other address has its first [http://] replaced by
    [https://].  A frame that is not a tracker and allowed pop-ups gets
    the restricted sandbox, so afterwards its sandbox has no
    [allow-popups]. *)
Theorem filterIframe_upgrades (iframe : ScriptsControls.Iframe) (now : nat)
    (w : Scripts.Window) :
  Scripts.httpsUpgrade (Scripts.privacyManager w) = true ->
  let iframe' := snd (fst (ScriptsControls.filterIframe iframe now w)) in
  JS.startsWith (ScriptsControls.iframe_src iframe') "http://" = false
  /\ (if ScriptsControls.isTrackingUrl (ScriptsControls.iframe_src iframe)
      then ScriptsControls.iframe_src iframe' = "about:blank"
      else JS.includes (ScriptsControls.sandbox iframe') "allow-popups"
           = false).
Proof.
  intros Hup. cbn zeta. unfold ScriptsControls.filterIframe. rewrite Hup.
  destruct (ScriptsControls.isTrackingUrl _).
  - destruct (Scripts.logBlockedRequest _ _ _ _) as [outcome w'].
    split; reflexivity.
  - cbn [fst snd]. rewrite andb_true_r.
    unfold ScriptsControls.addPrivacySandbox.
    destruct (JS.startsWith (ScriptsControls.iframe_src iframe) "https://")
      eqn:Hs; cbn [negb ScriptsControls.sandbox ScriptsControls.iframe_src].
    + destruct (JS.includes (ScriptsControls.sandbox iframe) _) eqn:Hpop;
        cbn [ScriptsControls.sandbox ScriptsControls.iframe_src];
        (split; [|first [exact Hpop | reflexivity]]);
        destruct (startsWith_split _ _ Hs) as [rest ->]; reflexivity.
    + destruct (JS.includes (ScriptsControls.sandbox iframe) _) eqn:Hpop;
        cbn [ScriptsControls.sandbox ScriptsControls.iframe_src];
        (split; [apply replace_never_http
                |first [exact Hpop | reflexivity]]).
Qed.

Lemma filterIframe_upgrades_witness :
  let iframe := ScriptsControls.mkIframe "http://videos.example/embed/1"
                  "allow-scripts allow-popups" in
  let iframe' :=
    snd (fst (ScriptsControls.filterIframe iframe 1 Examples.normalWindow)) in
  JS.startsWith (ScriptsControls.iframe_src iframe') "http://" = false
  /\ iframe' = ScriptsControls.mkIframe "https://videos.example/embed/1"
                 "allow-scripts allow-same-origin allow-forms".
Proof.
  destruct (filterIframe_upgrades
              (ScriptsControls.mkIframe "http://videos.example/embed/1"
                 "allow-scripts allow-popups") 1 Examples.normalWindow)
    as [Hsrc _]; [reflexivity|].
  split; [exact Hsrc | vm_compute; reflexivity].
Defined.

(** ** Storage clean-up *)

Lemma startsWith_empty (s : string) : JS.startsWith s "" = true.
Proof. destruct s; reflexivity. Qed.

(** A literal without operators matches at a position exactly when the
    text there starts with it. *)
Lemma m_chars (p s : string) (i : nat)
    (k : list ascii -> nat -> option nat) :
  p <> "" ->
  Regex.m false (ScriptsControls.chars (list_ascii_of_string p))
    (list_ascii_of_string s) i k
  = if JS.startsWith s p
    then k (list_ascii_of_string (JS.drop (String.length p) s))
           (i + String.length p)%nat
    else None.
Proof.
  revert s i. induction p as [|c p IH]; intros s i Hp; [contradiction|].
  destruct p as [|c' p].
  - destruct s as [|a s]; [reflexivity|].
    cbn [list_ascii_of_string ScriptsControls.chars Regex.m Regex.char_eq].
    rewrite startsWith_cons, startsWith_empty, andb_true_r, Ascii.eqb_sym.
    destruct (Ascii.eqb c a); [|reflexivity].
    cbn [String.length JS.drop]. rewrite Nat.add_1_r. reflexivity.
  - destruct s as [|a s]; [reflexivity|].
    change (ScriptsControls.chars
              (list_ascii_of_string (String c (String c' p))))
      with (Regex.Seq (Regex.Char c)
              (ScriptsControls.chars (list_ascii_of_string (String c' p)))).
    cbn [list_ascii_of_string Regex.m Regex.char_eq].
    rewrite startsWith_cons, Ascii.eqb_sym.
    destruct (Ascii.eqb c a); [|reflexivity].
    cbn [andb]. rewrite IH by discriminate.
    change (String.length (String c (String c' p)))
      with (S (String.length (String c' p))).
    cbn [JS.drop]. rewrite Nat.add_succ_r. reflexivity.
Qed.

Lemma search_chars (p s : string) (i : nat) :
  p <> "" ->
  is_Some (Regex.search false (ScriptsControls.chars (list_ascii_of_string p))
             (list_ascii_of_string s) i)
  <-> JS.includes s p = true.
Proof.
  intros Hp. revert i. induction s as [|a s IH]; intros i.
  - cbn [list_ascii_of_string Regex.search JS.includes].
    rewrite (m_chars p "" i _ Hp), orb_false_r.
    destruct (JS.startsWith "" p); split; eauto; try discriminate.
    intros [? ?]; discriminate.
  - change (list_ascii_of_string (String a s))
      with (a :: list_ascii_of_string s).
    cbn [Regex.search JS.includes].
    change (a :: list_ascii_of_string s)
      with (list_ascii_of_string (String a s)).
    rewrite (m_chars p (String a s) i _ Hp).
    destruct (JS.startsWith (String a s) p); [split; eauto|].
    rewrite orb_false_l. apply IH.
Qed.

Lemma test_chars (r : Regex.RegExp) (p s : string) :
  p <> "" -> Regex.stateful r = false ->
  Regex.ignoreCase (Regex.flags r) = false ->
  Regex.pattern r = ScriptsControls.chars (list_ascii_of_string p) ->
  fst (Regex.test r s) = JS.includes s p.
Proof.
  intros Hp Hst Hic Hpat. unfold Regex.test. rewrite Hst, Hic, Hpat.
  pose proof (search_chars p s 0 Hp) as Hiff.
  destruct (Regex.search _ _ _ _) as [e|]; simpl.
  - symmetry. apply Hiff. eauto.
  - destruct (JS.includes s p); [|reflexivity].
    destruct (proj2 Hiff eq_refl) as [? ?]. discriminate.
Qed.

(** [isTrackingStorageKey] is a plain, case-sensitive substring test. *)
Lemma isTrackingStorageKey_includes (key : string) :
  ScriptsControls.isTrackingStorageKey key
  = existsb (JS.includes key) ScriptsControls.trackingKeys.
Proof.
  unfold ScriptsControls.isTrackingStorageKey,
    ScriptsControls.trackingKeyPatterns, ScriptsControls.trackingKeys.
  cbn [map existsb].
  rewrite (test_chars (Regex.literal "_ga" "") "_ga" key),
    (test_chars (Regex.literal "_gid" "") "_gid" key),
    (test_chars (Regex.literal "_fbp" "") "_fbp" key),
    (test_chars (Regex.literal "_fbc" "") "_fbc" key),
    (test_chars (Regex.literal "analytics" "") "analytics" key),
    (test_chars (Regex.literal "tracking" "") "tracking" key),
    (test_chars (Regex.literal "advertisement" "") "advertisement" key);
    first [reflexivity | discriminate].
Qed.

Lemma fold_delete_lookup (keys : list string) (ls : Storage.t)
    (key : string) :
  fold_left (fun ls key => delete key ls) keys ls !! key
  = if bool_decide (key ∈ keys) then None else ls !! key.
Proof.
  revert ls. induction keys as [|k keys IH]; intros ls.
  - reflexivity.
  - cbn [fold_left]. rewrite IH.
    destruct (decide (k = key)) as [->|Hne].
    + rewrite lookup_delete_eq.
      rewrite (bool_decide_eq_true_2 (key ∈ key :: keys))
        by (apply elem_of_cons; left; reflexivity).
      destruct (bool_decide (key ∈ keys)); reflexivity.
    + rewrite lookup_delete_ne by exact Hne.
      rewrite (bool_decide_ext (key ∈ k :: keys) (key ∈ keys))
        by (rewrite elem_of_cons; intuition congruence).
      reflexivity.
Qed.

(** X25: [clearTrackingStorage] removes exactly the items whose key
    contains one of [_ga], [_gid], [_fbp], [_fbc], [analytics],
    [tracking], [advertisement] (case-sensitively) and leaves every other
    item as it is; in particular the keys under which Umbra stores its
    own settings and logs are never removed. *)
Theorem clearTrackingStorage_removes_tracking_keys (ls : Storage.t) :
  (forall key : string,
     ScriptsControls.clearTrackingStorage ls !! key
     = if existsb (JS.includes key) ScriptsControls.trackingKeys
       then None else ls !! key)
  /\ Forall (fun key =>
               ScriptsControls.clearTrackingStorage ls !! key = ls !! key)
       ScriptsControls.umbraKeys.
Proof.
  assert (forall key : string,
            ScriptsControls.clearTrackingStorage ls !! key
            = if existsb (JS.includes key) ScriptsControls.trackingKeys
              then None else ls !! key) as Hall.
  { intros key. unfold ScriptsControls.clearTrackingStorage.
    rewrite fold_delete_lookup, <- isTrackingStorageKey_includes.
    case_bool_decide as Hin.
    - apply list_elem_of_In, filter_In in Hin as [_ ->]. reflexivity.
    - destruct (ScriptsControls.isTrackingStorageKey key) eqn:Htrack;
        [|reflexivity].
      destruct (ls !! key) as [item|] eqn:Hitem; [|reflexivity].
      exfalso. apply Hin. apply list_elem_of_In, filter_In.
      split; [|exact Htrack].
      apply in_map_iff. exists (key, item). split; [reflexivity|].
      apply list_elem_of_In, elem_of_map_to_list. exact Hitem. }
  split; [exact Hall|].
  unfold ScriptsControls.umbraKeys.
  repeat constructor; rewrite Hall; reflexivity.
Qed.

(** ** Statistics of blocked requests *)

Lemma countType_requests (ty : string)
    (events : list (string * string * nat)) :
  ScriptsControls.countType ty
    (map (fun '(ty, url, now) => Scripts.blockedRequest ty url now) events)
  = Some (length (List.filter
                    (fun '(ty', _, _) => String.eqb ty' ty) events)).
Proof.
  induction events as [|[[ty' url] now] events IH]; [reflexivity|].
  cbn [map ScriptsControls.countType List.filter]. rewrite IH.
  unfold Scripts.blockedRequest.
  cbn [ScriptsControls.hasType ScriptsControls.property].
  replace (ScriptsControls.member "type" _)
    with (Some (Storage.JStr ty')) by reflexivity.
  destruct (String.eqb ty' ty); reflexivity.
Qed.

(** X26: [getBlockedRequestsStats] reports the stored log, which never
    has more than 100 entries once [logBlockedRequest] has written it.
    Starting without a log, after a run of [logBlockedRequest] calls
    outside private mode the total is the number of calls capped at
    100, and each of the three counters is the number of entries of its
    type among the last 100 calls. *)
Theorem blocked_request_stats (w : Scripts.Window)
    (events : list (string * string * nat)) :
  Scripts.privateMode (Scripts.privacyManager w) = false ->
  Storage.getArray "umbraBlockedRequests" (Scripts.localStorage w)
  = Returned [] ->
  events <> [] ->
  let kept := drop (length events - 100) events in
  let count ty :=
    length (List.filter (fun '(ty', _, _) => String.eqb ty' ty) kept) in
  ScriptsControls.getBlockedRequestsStats
    (Scripts.localStorage (logBlockedRequests events w))
  = Returned (ScriptsControls.mkRequestStats (length kept) (count "tracking")
                (count "ads") (count "malware"))
  /\ length kept = Nat.min (length events) 100.
Proof.
  intros Hp Hlog Hne. cbn zeta. split.
  - unfold ScriptsControls.getBlockedRequestsStats.
    rewrite (logBlockedRequests_normal events w [] Hp Hlog).
    rewrite runLog_keepLast
      by (destruct events; [contradiction | discriminate]).
    rewrite app_nil_l, keepLast_drop, length_map, skipn_map.
    rewrite !countType_requests, length_map. reflexivity.
  - rewrite length_drop. lia.
Qed.

Lemma blocked_request_stats_witness :
  ScriptsControls.getBlockedRequestsStats
    (Scripts.localStorage
       (logBlockedRequests
          [("tracking", "https://www.google-analytics.com/collect", 1%nat);
           ("tracking", "https://doubleclick.net/pixel", 2%nat)]
          Examples.normalWindow))
  = Returned (ScriptsControls.mkRequestStats 2 2 0 0).
Proof.
  destruct (blocked_request_stats Examples.normalWindow
              [("tracking", "https://www.google-analytics.com/collect",
                1%nat);
               ("tracking", "https://doubleclick.net/pixel", 2%nat)])
    as [Hstats _]; [reflexivity | reflexivity | discriminate |].
  exact Hstats.
Defined.

(** ** Classification has no side effect on the default configuration *)

Lemma set_pattern_same (r : Regex.RegExp) (f : AdBlocker.Filter) :
  AdBlocker.pattern f = AdBlocker.PRegExp r -> AdBlocker.set_pattern r f = f.
Proof. destruct f; simpl; intros ->; reflexivity. Qed.

Lemma scanFilters_stateless (fs : list AdBlocker.Filter)
    (fullUrl hostname : string) :
  forallb AdBlockControls.stateless_filter fs = true ->
  snd (AdBlocker.scanFilters fs fullUrl hostname) = fs.
Proof.
  induction fs as [|f fs IH]; simpl; [reflexivity|].
  intros Hall. apply andb_true_iff in Hall as [Hf Hall].
  specialize (IH Hall). unfold AdBlockControls.stateless_filter in Hf.
  destruct (AdBlocker.url_filter f).
  - destruct (AdBlocker.pattern f) as [r| |] eqn:Hp; try reflexivity.
    apply negb_true_iff in Hf.
    pose proof (test_stateless r fullUrl Hf) as H1.
    destruct (Regex.test r fullUrl) as [hit1 r1]. simpl in H1. subst r1.
    pose proof (test_stateless r hostname Hf) as H2.
    destruct (Regex.test r hostname) as [hit2 r2]. simpl in H2. subst r2.
    rewrite (set_pattern_same r f Hp).
    destruct hit1; [reflexivity|]. destruct hit2; [reflexivity|].
    destruct (AdBlocker.scanFilters fs fullUrl hostname) as [o rest'].
    simpl in *. subst rest'. reflexivity.
  - destruct (AdBlocker.scanFilters fs fullUrl hostname) as [o rest'].
    simpl in *. subst rest'. reflexivity.
Qed.

Lemma scanLists_stateless (ls : list (string * list AdBlocker.Filter))
    (fullUrl hostname : string) :
  forallb (fun l => forallb AdBlockControls.stateless_filter (snd l)) ls
  = true ->
  snd (AdBlocker.scanLists ls fullUrl hostname) = ls.
Proof.
  induction ls as [|[name fs] ls IH]; simpl; [reflexivity|].
  intros Hall. apply andb_true_iff in Hall as [Hfs Hall].
  specialize (IH Hall).
  pose proof (scanFilters_stateless fs fullUrl hostname Hfs) as Hsame.
  destruct (AdBlocker.scanFilters fs fullUrl hostname) as [o fs'].
  simpl in Hsame. subst fs'.
  destruct o; try reflexivity.
  destruct (AdBlocker.scanLists ls fullUrl hostname) as [o' rest'].
  simpl in *. subst rest'. reflexivity.
Qed.

(** X27: classifying a URL changes neither manager as the constructors
    leave them: none of the built-in rule and filter patterns carries the
    [g] or [y] flag, so [checkUrl] and [shouldBlockUrl] only read. *)
Theorem classification_reads_only `{Host} (url : string) :
  snd (SecurityManager.checkUrl SecurityManager.new url) = SecurityManager.new
  /\ snd (AdBlocker.shouldBlockUrl AdBlocker.new url) = AdBlocker.new.
Proof.
  split.
  - apply checkUrl_stateless, builtin_rules_stateless.
  - unfold AdBlocker.shouldBlockUrl.
    destruct (URL_new url) as [urlObj|]; [|reflexivity].
    cbn [AdBlocker.whitelist AdBlocker.new JS.array_includes existsb].
    pose proof (scanLists_stateless (AdBlocker.filterLists AdBlocker.new)
                  (JS.toLowerCase url) (JS.toLowerCase (hostname urlObj))
                  eq_refl) as Hsame.
    destruct (AdBlocker.scanLists _ _ _) as [o lists'].
    simpl in Hsame. subst lists'. destruct o; reflexivity.
Qed.

(** ** Navigation of the [js/] browser *)

Lemma normalize_web_address `{Host} (url : string) :
  JS.startsWith (Umbra.normalize url) "http://"
  || JS.startsWith (Umbra.normalize url) "https://" = true.
Proof.
  unfold Umbra.normalize.
  destruct (JS.startsWith url "http://") eqn:H1;
    destruct (JS.startsWith url "https://") eqn:H2; simpl;
    rewrite ?H1, ?H2; try reflexivity.
  destruct (JS.includes url "." && _); apply orb_true_iff; right;
    [apply startsWith_append | vm_compute; reflexivity].
Qed.

(** X28: [navigate] of [js/core/umbra.js] turns every non-empty input
    into an [http://] or [https://] address (the input itself, the input
    behind [https://], or a search for it) and schedules the load of
    that address after 500 ms as the last timer; no answer of a
    [beforeNavigate] listener cancels it. *)
Theorem navigate_loads_web_address `{Host} (url : string) (a : Umbra.App) :
  url <> "" ->
  let target := Umbra.normalize url in
  (JS.startsWith target "http://" || JS.startsWith target "https://" = true)
  /\ exists earlier,
       Umbra.timers (Umbra.navigate url a)
       = earlier
         ++ [(500%nat, Umbra.LoadUrl target (default 1%nat (Umbra.currentTab a)))].
Proof.
  intros Hurl. cbn zeta. split; [apply normalize_web_address|].
  destruct (navigate_schedules_load url a Hurl) as [a' ->].
  eexists. reflexivity.
Qed.

Lemma navigate_loads_web_address_witness :
  let target := "https://javascript:alert(1.5)" in
  (JS.startsWith target "http://" || JS.startsWith target "https://" = true)
  /\ exists earlier,
       Umbra.timers
         (Umbra.navigate (H := RefHost.host) "javascript:alert(1.5)"
            Umbra.initial)
       = earlier ++ [(500%nat, Umbra.LoadUrl target 1%nat)].
Proof.
  apply (navigate_loads_web_address (H := RefHost.host)
           "javascript:alert(1.5)" Umbra.initial).
  discriminate.
Defined.

(** ** Custom filters across a reload *)

Lemma filter_of_json_saved (f : AdBlocker.Filter) :
  AdBlockControls.filter_of_json (AdBlocker.filter_json f)
  = Some (AdBlockControls.reloaded f).
Proof. destruct f as [[r|s|] ty description custom]; reflexivity. Qed.

Lemma mapM_saved (fs : list AdBlocker.Filter) :
  mapM AdBlockControls.filter_of_json (map AdBlocker.filter_json fs)
  = Some (map AdBlockControls.reloaded fs).
Proof.
  induction fs as [|f fs IH]; [reflexivity|].
  cbn [map mapM]. rewrite filter_of_json_saved. cbn [mbind option_bind].
  rewrite IH. reflexivity.
Qed.

Lemma scanCustom_reloaded (fs : list AdBlocker.Filter) (fullUrl : string) :
  AdBlocker.scanCustom (map AdBlockControls.reloaded fs) fullUrl
  = (false, map AdBlockControls.reloaded fs).
Proof.
  induction fs as [|f fs IH]; [reflexivity|].
  cbn [map AdBlocker.scanCustom]. rewrite IH.
  destruct (AdBlocker.url_filter _); [|reflexivity].
  unfold AdBlockControls.reloaded at 1. cbn [AdBlocker.pattern].
  destruct (AdBlocker.pattern f); reflexivity.
Qed.

(** X29: custom filters do not survive a reload.  [saveCustomFilters]
    writes every [RegExp] pattern as an empty object, so what
    [loadCustomFilters] reads back from the saved item are filters
    without a [test] method: the reloaded ad blocker answers every URL
    as it would with no custom filter at all. *)
Theorem custom_filters_inert_after_reload `{Host} (saved fresh : AdBlocker.t)
    (ls : Storage.t) :
  exists restored,
    AdBlockControls.loadCustomFilters (AdBlocker.saveCustomFilters saved ls)
      fresh = Some restored
    /\ AdBlocker.customFilters restored
       = map AdBlockControls.reloaded (AdBlocker.customFilters saved)
    /\ forall url : string,
         fst (AdBlocker.shouldBlockUrl restored url)
         = fst (AdBlocker.shouldBlockUrl
                  (AdBlocker.set_filters (AdBlocker.filterLists fresh) []
                     fresh) url).
Proof.
  eexists. split; [|split].
  - unfold AdBlockControls.loadCustomFilters, AdBlocker.saveCustomFilters,
      Storage.setItem.
    rewrite lookup_insert_eq, mapM_saved. reflexivity.
  - reflexivity.
  - intros url. unfold AdBlocker.shouldBlockUrl.
    destruct (URL_new url) as [urlObj|]; [|reflexivity].
    cbn [AdBlocker.set_filters AdBlocker.whitelist AdBlocker.filterLists
         AdBlocker.customFilters].
    destruct (JS.array_includes _ _); [reflexivity|].
    destruct (AdBlocker.scanLists _ _ _) as [[] lists']; try reflexivity.
    rewrite scanCustom_reloaded. reflexivity.
Qed.
